(** * forecastio: a shallow embedding of the Go client and its properties

    The development follows [forecastio.go]: the connection object
    [APIConn] with its accessors, the response data model ([Forecast] and
    its blocks), [ParseTimes], and the two fetch operations [Forecast] and
    [ForecastAtTime].

    The Go standard library functions the source calls are modelled in
    modules named after their packages ([strconv], [strings], [fmt],
    [time], [http]); the network and the JSON decoder are taken as an
    interface ([Runtime]). *)

From Stdlib Require Import ZArith Lia Ascii String List.
From Stdlib Require Import Floats.SpecFloat.
From stdpp Require Import base option list strings gmap.

Local Open Scope string_scope.
Local Open Scope Z_scope.

(* ===================================================================== *)
(** * Go's [error] values *)
(* ===================================================================== *)

(** The two sentinel errors a [*strconv.NumError] wraps. *)
Inductive numErr := ErrSyntax | ErrRange.

(** The error values that reach a caller of the package: those made by
    [errors.New] in the source, the [*strconv.NumError] of [Atoi] (which
    the source discards), and the errors produced by net/http, io and
    encoding/json, which the source hands on without looking at them. *)
Inductive error :=
| errorString (msg : string)
| NumError (func num : string) (err : numErr)
| foreignError (pkg msg : string).

Module errors.
Definition New (msg : string) : error := errorString msg.
End errors.

(* ===================================================================== *)
(** * package strconv *)
(* ===================================================================== *)

Module strconv.

(** [int] is 64 bits wide on the platforms considered. *)
Definition IntSize : Z := 64.
Definition maxUint64 : Z := 2 ^ 64 - 1.
Definition maxInt : Z := 2 ^ (IntSize - 1) - 1.
Definition minInt : Z := - 2 ^ (IntSize - 1).

Definition byteVal (c : ascii) : Z := Z.of_N (N_of_ascii c).

Definition isDigit (c : ascii) : bool :=
  (48 <=? byteVal c) && (byteVal c <=? 57).

(** The body of the loop of [ParseUint] for base 10 and bit size 64:
    a byte that is not a digit ends the scan with a syntax error and
    value 0; a digit met when the accumulator is already at the cutoff,
    or whose addition leaves the 64-bit range, ends it with a range error
    and the maximal value.  The accumulator is a [uint64]: the
    multiplication and the addition wrap. *)
Fixpoint parseUintLoop (s : string) (n : Z) : Z * option numErr :=
  match s with
  | EmptyString => (n, None)
  | String c rest =>
      if negb (isDigit c) then (0, Some ErrSyntax)
      else
        let d := byteVal c - 48 in
        let cutoff := maxUint64 / 10 + 1 in
        if cutoff <=? n then (maxUint64, Some ErrRange)
        else
          let n10 := (n * 10) mod 2 ^ 64 in
          let n1 := (n10 + d) mod 2 ^ 64 in
          if (n1 <? n10) || (maxUint64 <? n1) then (maxUint64, Some ErrRange)
          else parseUintLoop rest n1
  end.

Definition ParseUint (s : string) : Z * option numErr :=
  match s with
  | EmptyString => (0, Some ErrSyntax)
  | _ => parseUintLoop s 0
  end.

(** [ParseInt(s, 10, 0)]: the sign is picked off, the rest goes through
    [ParseUint], and the result is clamped to the range of [int64]. *)
Definition ParseInt (s : string) : Z * option numErr :=
  match s with
  | EmptyString => (0, Some ErrSyntax)
  | String c rest =>
      let neg := Ascii.eqb c "-" in
      let body := if Ascii.eqb c "+" || neg then rest else s in
      match ParseUint body with
      | (_, Some ErrSyntax) => (0, Some ErrSyntax)
      | (un, _) =>
          let cutoff := 2 ^ (IntSize - 1) in
          if negb neg && (cutoff <=? un) then (cutoff - 1, Some ErrRange)
          else if neg && (cutoff <? un) then (- cutoff, Some ErrRange)
          else (if neg then - un else un, None)
      end
  end.

(** The digit loop of the fast path of [Atoi]; no overflow check, the
    caller has bounded the length. *)
Fixpoint atoiFast (s : string) (n : Z) : option Z :=
  match s with
  | EmptyString => Some n
  | String c rest =>
      if isDigit c then atoiFast rest (n * 10 + (byteVal c - 48)) else None
  end.

(** [Atoi]: strings of 1 to 18 bytes take the fast path, every other
    string goes through [ParseInt]. The error is reported with the name
    of [Atoi] and the whole input. *)
Definition Atoi (s : string) : Z * option error :=
  let wrap (r : Z * option numErr) :=
    (r.1, (fun e => NumError "Atoi" s e) <$> r.2) in
  let sLen := Z.of_nat (String.length s) in
  if (0 <? sLen) && (sLen <? 19) then
    match s with
    | EmptyString => wrap (0, Some ErrSyntax)
    | String c rest =>
        let signed := Ascii.eqb c "-" || Ascii.eqb c "+" in
        let body := if signed then rest else s in
        if signed && (String.length body <? 1)%nat then wrap (0, Some ErrSyntax)
        else
          match atoiFast body 0 with
          | None => wrap (0, Some ErrSyntax)
          | Some n => wrap (if Ascii.eqb c "-" then - n else n, None)
          end
    end
  else wrap (ParseInt s).

Definition digitChar (d : Z) : ascii := ascii_of_N (Z.to_N (48 + d)).

(** The digits of a non-negative number, lowest first, pushed in front of
    [acc]; one digit per round until the quotient is zero. *)
Fixpoint formatBits (fuel : nat) (u : Z) (acc : string) : string :=
  match fuel with
  | O => acc
  | S k =>
      let acc' := String (digitChar (u mod 10)) acc in
      if u <? 10 then acc' else formatBits k (u / 10) acc'
  end.

(** The decimal digits of [u >= 0]. *)
Definition formatUint (u : Z) : string :=
  formatBits (S (Z.to_nat (Z.log2 u))) u "".

(** [FormatInt(i, 10)], the rendering behind the verb [%d]. *)
Definition FormatInt (i : Z) : string :=
  if i <? 0 then String "-" (formatUint (Z.abs i)) else formatUint (Z.abs i).

(** A [float64] is one of the values of the IEEE 754 binary64 format;
    [S754_finite s m e] is [(-1)^s * m * 2^e]. *)
Abbreviation float64 := spec_float.

(** [num / den] rounded to the nearest integer, ties to even: the rule
    of [decimal.Round] on the exact decimal expansion. *)
Definition roundHalfEven (num den : Z) : Z :=
  let q := num / den in
  let r := num mod den in
  if 2 * r <? den then q
  else if den <? 2 * r then q + 1
  else if Z.even q then q else q + 1.

Fixpoint zeros (n : nat) : string :=
  match n with O => "" | S k => String "0" (zeros k) end.

(** [micro] millionths, written with six digits after the point. *)
Definition fixed6 (neg : bool) (micro : Z) : string :=
  let frac := formatUint (micro mod 10 ^ 6) in
  (if neg then "-" else "") +:+ formatUint (micro / 10 ^ 6) +:+ "."
    +:+ zeros (6 - String.length frac) +:+ frac.

(** [FormatFloat(f, 'f', 6, 64)]: the exact value rounded to six decimal
    places; the sign of a negative number (and of negative zero) is
    kept, infinities and NaN are spelled out. *)
Definition FormatFloat (f : float64) : string :=
  match f with
  | S754_nan => "NaN"
  | S754_infinity false => "+Inf"
  | S754_infinity true => "-Inf"
  | S754_zero s => fixed6 s 0
  | S754_finite s m e =>
      let num := Z.pos m * 10 ^ 6 in
      fixed6 s (if 0 <=? e then num * 2 ^ e else roundHalfEven num (2 ^ (- e)))
  end.

End strconv.

Abbreviation float64 := spec_float.

(* ===================================================================== *)
(** * package strings *)
(* ===================================================================== *)

Module strings.

(** [Join(elems, sep)]: the elements with [sep] between neighbours. *)
Fixpoint Join (elems : list string) (sep : string) : string :=
  match elems with
  | [] => ""
  | [e] => e
  | e :: rest => e +:+ sep +:+ Join rest sep
  end.

(** The loop of [genSplit] for a separator that is not empty: [cur] is
    the piece being read, [skip] counts the bytes of a separator just
    found that are still to be passed over. The leftmost occurrence of
    the separator is taken each time, as [Index] finds it. *)
Fixpoint splitFrom (sep : string) (skip : nat) (s cur : string) : list string :=
  match s with
  | EmptyString => [cur]
  | String c rest =>
      match skip with
      | S k => splitFrom sep k rest cur
      | O =>
          if String.prefix sep s
          then cur :: splitFrom sep (String.length sep - 1) rest ""
          else splitFrom sep 0 rest (cur +:+ String c "")
      end
  end.

(** The pieces for the empty separator, one per byte (Go cuts after each
    UTF-8 sequence, which is the same on ASCII text; the source never
    passes the empty separator). *)
Fixpoint explode (s : string) : list string :=
  match s with
  | EmptyString => []
  | String c rest => String c "" :: explode rest
  end.

(** [Split(s, sep)]: the pieces of [s] between the occurrences of [sep];
    a string without the separator is the only piece, the empty string
    included. *)
Definition Split (s sep : string) : list string :=
  match sep with
  | EmptyString => explode s
  | _ => splitFrom sep 0 s ""
  end.

End strings.

(* ===================================================================== *)
(** * package fmt *)
(* ===================================================================== *)

Module fmt.

(** The operands the source passes to [Sprintf]. *)
Inductive operand :=
| Str (s : string)
| Float64 (f : float64)
| Int64 (i : Z).

Definition typeName (a : operand) : string :=
  match a with Str _ => "string" | Float64 _ => "float64" | Int64 _ => "int64" end.

(** One verb applied to one operand. The source only pairs [%s] with a
    string, [%f] with a [float64] and [%d] with an integer; for another
    pairing Go prints a marker [%!verb(type=value)], of which the model
    keeps the verb and the type. *)
Definition formatVerb (verb : ascii) (a : operand) : string :=
  match verb, a with
  | "s"%char, Str s => s
  | "f"%char, Float64 f => strconv.FormatFloat f
  | "d"%char, Int64 i => strconv.FormatInt i
  | _, _ => "%!" +:+ String verb ("(" +:+ typeName a +:+ ")")
  end.

(** [Sprintf]: the format is copied, each [%verb] consumes the next
    operand, [%%] is a percent sign. Operands left over at the end are
    not reported (Go appends an [%!(EXTRA ...)] marker; the source never
    passes too many). *)
Fixpoint Sprintf (format : string) (a : list operand) : string :=
  match format with
  | EmptyString => ""
  | String "%" EmptyString => "%!(NOVERB)"
  | String "%" (String "%" rest) => String "%" (Sprintf rest a)
  | String "%" (String verb rest) =>
      match a with
      | x :: a' => formatVerb verb x +:+ Sprintf rest a'
      | [] => "%!" +:+ String verb "(MISSING)" +:+ Sprintf rest []
      end
  | String c rest => String c (Sprintf rest a)
  end.

End fmt.

(* ===================================================================== *)
(** * package time *)
(* ===================================================================== *)

Module time.

(** The locations a [Time] of this program can point to. *)
Inductive Location := Local | UTC.

(** A [Time] as the runtime keeps it: the wall-clock word, the extended
    seconds since January 1 of year 1, and the location pointer ([None]
    is the nil pointer of the zero value). *)
Record Time := mkTime { wall : Z; ext : Z; loc : option Location }.

Definition zero : Time := mkTime 0 0 None.

Definition secondsPerDay : Z := 86400.
Definition unixToInternal : Z :=
  (1969 * 365 + 1969 / 4 - 1969 / 100 + 1969 / 400) * secondsPerDay.
Definition internalToUnix : Z := - unixToInternal.
Definition wallToInternal : Z :=
  (1884 * 365 + 1884 / 4 - 1884 / 100 + 1884 / 400) * secondsPerDay.

(** Wrap-around of [int64] arithmetic. *)
Definition int64 (z : Z) : Z := (z + 2 ^ 63) mod 2 ^ 64 - 2 ^ 63.

(** [time.Unix(sec, nsec)]: the local [Time] of the instant [sec]
    seconds and [nsec] nanoseconds after the Unix epoch; [nsec] outside
    [0, 1e9) is carried into the seconds first, so that the wall word is
    the nanoseconds, below 1e9. *)
Definition Unix (sec nsec : Z) : Time :=
  let '(sec, nsec) :=
    if (nsec <? 0) || (1000000000 <=? nsec) then
      let n := Z.quot nsec 1000000000 in
      let sec := int64 (sec + n) in
      let nsec := int64 (nsec - n * 1000000000) in
      if nsec <? 0 then (int64 (sec - 1), int64 (nsec + 1000000000))
      else (sec, nsec)
    else (sec, nsec) in
  mkTime nsec (int64 (sec + unixToInternal)) (Some Local).

(** The method [Time.Unix]: seconds since the Unix epoch. *)
Definition Time_Unix (t : Time) : Z :=
  let sec :=
    if Z.testbit (wall t) 63
    then int64 (wallToInternal + Z.shiftr (Z.shiftl (wall t) 1 mod 2 ^ 64) 31)
    else ext t in
  int64 (sec + internalToUnix).

End time.

(* ===================================================================== *)
(** * package net/http *)
(* ===================================================================== *)

Module http.

(** The bytes allowed in a header field name (RFC 7230 tokens). *)
Definition validHeaderFieldByte (c : ascii) : bool :=
  let n := strconv.byteVal c in
  ((48 <=? n) && (n <=? 57)) || ((65 <=? n) && (n <=? 90))
  || ((97 <=? n) && (n <=? 122))
  || bool_decide (c ∈ String.list_ascii_of_string "!#$%&'*+-.^_`|~").

Fixpoint allValid (s : string) : bool :=
  match s with
  | EmptyString => true
  | String c rest => validHeaderFieldByte c && allValid rest
  end.

(** The loop of [CanonicalMIMEHeaderKey]: the first letter and every
    letter after a hyphen in upper case, the others in lower case. *)
Fixpoint canonicalLoop (upper : bool) (s : string) : string :=
  match s with
  | EmptyString => ""
  | String c rest =>
      let n := strconv.byteVal c in
      let c' :=
        if upper && (97 <=? n) && (n <=? 122) then ascii_of_N (Z.to_N (n - 32))
        else if negb upper && (65 <=? n) && (n <=? 90) then ascii_of_N (Z.to_N (n + 32))
        else c in
      String c' (canonicalLoop (Ascii.eqb c' "-") rest)
  end.

Definition CanonicalHeaderKey (s : string) : string :=
  if allValid s then canonicalLoop true s else s.

(** [Header.Get]: the first value stored under the canonical form of
    the key, the empty string when there is none. *)
Definition Header_Get (h : gmap string (list string)) (key : string) : string :=
  match h !! CanonicalHeaderKey key with
  | Some (v :: _) => v
  | _ => ""
  end.

(** A response as the source uses it: its header, and what
    [ioutil.ReadAll] makes of its body. *)
Record Response := mkResponse {
  Header : gmap string (list string);
  Body : error + string
}.

End http.

(* ===================================================================== *)
(** * The response data model *)
(* ===================================================================== *)

(** The structs of the source, one module each, with the fields in the
    order of the source. An [int] or [int64] field is a [Z], a [float64]
    field a [float64], a [time.Time] field a [time.Time]. For every field
    of type [time.Time] there is a setter (the assignment [x.F = v]), and
    [same_raw] relates two values that agree on all other fields. *)

(** The block of current conditions. *)
Module currently.
Record t := mk {
  TimeUnix : Z;
  Time : time.Time;
  Summary : string;
  Icon : string;
  NearestStormDistance : Z;
  NearestStormBearing : Z;
  PrecipitationIntensity : float64;
  PrecipitationProbability : float64;
  Temperature : float64;
  ApparentTemperature : float64;
  DewPoint : float64;
  Humidity : float64;
  WindSpeed : float64;
  WindBearing : float64;
  Visibility : float64;
  CloudCover : float64;
  Pressure : float64;
  Ozone : float64
}.

(** The zero value of the struct. *)
Definition zero : t :=
  mk
    0 time.zero "" "" 0 0 (S754_zero false) (S754_zero false)
    (S754_zero false) (S754_zero false) (S754_zero false) (S754_zero false)
    (S754_zero false) (S754_zero false) (S754_zero false) (S754_zero false)
    (S754_zero false) (S754_zero false).

Definition set_Time (v : time.Time) (x : t) : t :=
  mk
    (TimeUnix x) v (Summary x) (Icon x) (NearestStormDistance x)
    (NearestStormBearing x) (PrecipitationIntensity x)
    (PrecipitationProbability x) (Temperature x) (ApparentTemperature x)
    (DewPoint x) (Humidity x) (WindSpeed x) (WindBearing x) (Visibility x)
    (CloudCover x) (Pressure x) (Ozone x).

(** [y] has the fields of [x] that are not structured times. *)
Definition same_raw (x y : t) : Prop :=
  TimeUnix y = TimeUnix x /\ Summary y = Summary x /\ Icon y = Icon x /\
  NearestStormDistance y = NearestStormDistance x /\
  NearestStormBearing y = NearestStormBearing x /\
  PrecipitationIntensity y = PrecipitationIntensity x /\
  PrecipitationProbability y = PrecipitationProbability x /\
  Temperature y = Temperature x /\
  ApparentTemperature y = ApparentTemperature x /\
  DewPoint y = DewPoint x /\ Humidity y = Humidity x /\
  WindSpeed y = WindSpeed x /\ WindBearing y = WindBearing x /\
  Visibility y = Visibility x /\ CloudCover y = CloudCover x /\
  Pressure y = Pressure x /\ Ozone y = Ozone x.

(** [y] is [x] after [ParseTimes]: every structured time is the
    conversion of its own raw field, nothing else differs. *)
Definition parsed (x y : t) : Prop :=
  Time y = time.Unix (TimeUnix x) 0 /\
  same_raw x y.
End currently.

(** One sample of the minute-by-minute block. *)
Module minuteData.
Record t := mk {
  TimeUnix : Z;
  Time : time.Time;
  PrecipitationIntensity : float64;
  PrecipitationProbability : float64
}.

(** The zero value of the struct. *)
Definition zero : t :=
  mk
    0 time.zero (S754_zero false) (S754_zero false).

Definition set_Time (v : time.Time) (x : t) : t :=
  mk
    (TimeUnix x) v (PrecipitationIntensity x) (PrecipitationProbability x).

(** [y] has the fields of [x] that are not structured times. *)
Definition same_raw (x y : t) : Prop :=
  TimeUnix y = TimeUnix x /\
  PrecipitationIntensity y = PrecipitationIntensity x /\
  PrecipitationProbability y = PrecipitationProbability x.

(** [y] is [x] after [ParseTimes]: every structured time is the
    conversion of its own raw field, nothing else differs. *)
Definition parsed (x y : t) : Prop :=
  Time y = time.Unix (TimeUnix x) 0 /\
  same_raw x y.
End minuteData.

(** One sample of the hour-by-hour block. *)
Module hourData.
Record t := mk {
  TimeUnix : Z;
  Time : time.Time;
  Summary : string;
  Icon : string;
  PrecipitationIntensity : float64;
  PrecipitationProbability : float64;
  PrecipitationType : string;
  Temperature : float64;
  ApparentTemperature : float64;
  DewPoint : float64;
  Humidity : float64;
  WindSpeed : float64;
  WindBearing : float64;
  Visibility : float64;
  CloudCover : float64;
  Pressure : float64;
  Ozone : float64
}.

(** The zero value of the struct. *)
Definition zero : t :=
  mk
    0 time.zero "" "" (S754_zero false) (S754_zero false) ""
    (S754_zero false) (S754_zero false) (S754_zero false) (S754_zero false)
    (S754_zero false) (S754_zero false) (S754_zero false) (S754_zero false)
    (S754_zero false) (S754_zero false).

Definition set_Time (v : time.Time) (x : t) : t :=
  mk
    (TimeUnix x) v (Summary x) (Icon x) (PrecipitationIntensity x)
    (PrecipitationProbability x) (PrecipitationType x) (Temperature x)
    (ApparentTemperature x) (DewPoint x) (Humidity x) (WindSpeed x)
    (WindBearing x) (Visibility x) (CloudCover x) (Pressure x) (Ozone x).

(** [y] has the fields of [x] that are not structured times. *)
Definition same_raw (x y : t) : Prop :=
  TimeUnix y = TimeUnix x /\ Summary y = Summary x /\ Icon y = Icon x /\
  PrecipitationIntensity y = PrecipitationIntensity x /\
  PrecipitationProbability y = PrecipitationProbability x /\
  PrecipitationType y = PrecipitationType x /\
  Temperature y = Temperature x /\
  ApparentTemperature y = ApparentTemperature x /\
  DewPoint y = DewPoint x /\ Humidity y = Humidity x /\
  WindSpeed y = WindSpeed x /\ WindBearing y = WindBearing x /\
  Visibility y = Visibility x /\ CloudCover y = CloudCover x /\
  Pressure y = Pressure x /\ Ozone y = Ozone x.

(** [y] is [x] after [ParseTimes]: every structured time is the
    conversion of its own raw field, nothing else differs. *)
Definition parsed (x y : t) : Prop :=
  Time y = time.Unix (TimeUnix x) 0 /\
  same_raw x y.
End hourData.

(** One sample of the day-by-day block. *)
Module dayData.
Record t := mk {
  TimeUnix : Z;
  Time : time.Time;
  Summary : string;
  Icon : string;
  SunriseUnix : Z;
  Sunrise : time.Time;
  SunsetUnix : Z;
  Sunset : time.Time;
  MoonPhase : float64;
  PrecipitationIntensity : float64;
  PrecipitationIntensityMax : float64;
  PrecipitationIntensityMaxTimeUnix : Z;
  PrecipitationIntensityMaxTime : time.Time;
  PrecipitationProbability : float64;
  PrecipitationType : string;
  TemperatureMin : float64;
  TemperatureMinTimeUnix : Z;
  TemperatureMinTime : time.Time;
  TemperatureMax : float64;
  TemperatureMaxTimeUnix : Z;
  TemperatureMaxTime : time.Time;
  ApparentTemperatureMin : float64;
  ApparentTemperatureMinTimeUnix : Z;
  ApparentTemperatureMinTime : time.Time;
  ApparentTemperatureMax : float64;
  ApparentTemperatureMaxTimeUnix : Z;
  ApparentTemperatureMaxTime : time.Time;
  DewPoint : float64;
  Humidity : float64;
  WindSpeed : float64;
  WindBearing : float64;
  Visibility : float64;
  CloudCover : float64;
  Pressure : float64;
  Ozone : float64
}.

(** The zero value of the struct. *)
Definition zero : t :=
  mk
    0 time.zero "" "" 0 time.zero 0 time.zero (S754_zero false)
    (S754_zero false) (S754_zero false) 0 time.zero (S754_zero false) ""
    (S754_zero false) 0 time.zero (S754_zero false) 0 time.zero
    (S754_zero false) 0 time.zero (S754_zero false) 0 time.zero
    (S754_zero false) (S754_zero false) (S754_zero false) (S754_zero false)
    (S754_zero false) (S754_zero false) (S754_zero false) (S754_zero false).

Definition set_Time (v : time.Time) (x : t) : t :=
  mk
    (TimeUnix x) v (Summary x) (Icon x) (SunriseUnix x) (Sunrise x)
    (SunsetUnix x) (Sunset x) (MoonPhase x) (PrecipitationIntensity x)
    (PrecipitationIntensityMax x) (PrecipitationIntensityMaxTimeUnix x)
    (PrecipitationIntensityMaxTime x) (PrecipitationProbability x)
    (PrecipitationType x) (TemperatureMin x) (TemperatureMinTimeUnix x)
    (TemperatureMinTime x) (TemperatureMax x) (TemperatureMaxTimeUnix x)
    (TemperatureMaxTime x) (ApparentTemperatureMin x)
    (ApparentTemperatureMinTimeUnix x) (ApparentTemperatureMinTime x)
    (ApparentTemperatureMax x) (ApparentTemperatureMaxTimeUnix x)
    (ApparentTemperatureMaxTime x) (DewPoint x) (Humidity x) (WindSpeed x)
    (WindBearing x) (Visibility x) (CloudCover x) (Pressure x) (Ozone x).

Definition set_Sunrise (v : time.Time) (x : t) : t :=
  mk
    (TimeUnix x) (Time x) (Summary x) (Icon x) (SunriseUnix x) v
    (SunsetUnix x) (Sunset x) (MoonPhase x) (PrecipitationIntensity x)
    (PrecipitationIntensityMax x) (PrecipitationIntensityMaxTimeUnix x)
    (PrecipitationIntensityMaxTime x) (PrecipitationProbability x)
    (PrecipitationType x) (TemperatureMin x) (TemperatureMinTimeUnix x)
    (TemperatureMinTime x) (TemperatureMax x) (TemperatureMaxTimeUnix x)
    (TemperatureMaxTime x) (ApparentTemperatureMin x)
    (ApparentTemperatureMinTimeUnix x) (ApparentTemperatureMinTime x)
    (ApparentTemperatureMax x) (ApparentTemperatureMaxTimeUnix x)
    (ApparentTemperatureMaxTime x) (DewPoint x) (Humidity x) (WindSpeed x)
    (WindBearing x) (Visibility x) (CloudCover x) (Pressure x) (Ozone x).

Definition set_Sunset (v : time.Time) (x : t) : t :=
  mk
    (TimeUnix x) (Time x) (Summary x) (Icon x) (SunriseUnix x) (Sunrise x)
    (SunsetUnix x) v (MoonPhase x) (PrecipitationIntensity x)
    (PrecipitationIntensityMax x) (PrecipitationIntensityMaxTimeUnix x)
    (PrecipitationIntensityMaxTime x) (PrecipitationProbability x)
    (PrecipitationType x) (TemperatureMin x) (TemperatureMinTimeUnix x)
    (TemperatureMinTime x) (TemperatureMax x) (TemperatureMaxTimeUnix x)
    (TemperatureMaxTime x) (ApparentTemperatureMin x)
    (ApparentTemperatureMinTimeUnix x) (ApparentTemperatureMinTime x)
    (ApparentTemperatureMax x) (ApparentTemperatureMaxTimeUnix x)
    (ApparentTemperatureMaxTime x) (DewPoint x) (Humidity x) (WindSpeed x)
    (WindBearing x) (Visibility x) (CloudCover x) (Pressure x) (Ozone x).

Definition set_PrecipitationIntensityMaxTime (v : time.Time) (x : t) : t :=
  mk
    (TimeUnix x) (Time x) (Summary x) (Icon x) (SunriseUnix x) (Sunrise x)
    (SunsetUnix x) (Sunset x) (MoonPhase x) (PrecipitationIntensity x)
    (PrecipitationIntensityMax x) (PrecipitationIntensityMaxTimeUnix x) v
    (PrecipitationProbability x) (PrecipitationType x) (TemperatureMin x)
    (TemperatureMinTimeUnix x) (TemperatureMinTime x) (TemperatureMax x)
    (TemperatureMaxTimeUnix x) (TemperatureMaxTime x)
    (ApparentTemperatureMin x) (ApparentTemperatureMinTimeUnix x)
    (ApparentTemperatureMinTime x) (ApparentTemperatureMax x)
    (ApparentTemperatureMaxTimeUnix x) (ApparentTemperatureMaxTime x)
    (DewPoint x) (Humidity x) (WindSpeed x) (WindBearing x) (Visibility x)
    (CloudCover x) (Pressure x) (Ozone x).

Definition set_TemperatureMinTime (v : time.Time) (x : t) : t :=
  mk
    (TimeUnix x) (Time x) (Summary x) (Icon x) (SunriseUnix x) (Sunrise x)
    (SunsetUnix x) (Sunset x) (MoonPhase x) (PrecipitationIntensity x)
    (PrecipitationIntensityMax x) (PrecipitationIntensityMaxTimeUnix x)
    (PrecipitationIntensityMaxTime x) (PrecipitationProbability x)
    (PrecipitationType x) (TemperatureMin x) (TemperatureMinTimeUnix x) v
    (TemperatureMax x) (TemperatureMaxTimeUnix x) (TemperatureMaxTime x)
    (ApparentTemperatureMin x) (ApparentTemperatureMinTimeUnix x)
    (ApparentTemperatureMinTime x) (ApparentTemperatureMax x)
    (ApparentTemperatureMaxTimeUnix x) (ApparentTemperatureMaxTime x)
    (DewPoint x) (Humidity x) (WindSpeed x) (WindBearing x) (Visibility x)
    (CloudCover x) (Pressure x) (Ozone x).

Definition set_TemperatureMaxTime (v : time.Time) (x : t) : t :=
  mk
    (TimeUnix x) (Time x) (Summary x) (Icon x) (SunriseUnix x) (Sunrise x)
    (SunsetUnix x) (Sunset x) (MoonPhase x) (PrecipitationIntensity x)
    (PrecipitationIntensityMax x) (PrecipitationIntensityMaxTimeUnix x)
    (PrecipitationIntensityMaxTime x) (PrecipitationProbability x)
    (PrecipitationType x) (TemperatureMin x) (TemperatureMinTimeUnix x)
    (TemperatureMinTime x) (TemperatureMax x) (TemperatureMaxTimeUnix x) v
    (ApparentTemperatureMin x) (ApparentTemperatureMinTimeUnix x)
    (ApparentTemperatureMinTime x) (ApparentTemperatureMax x)
    (ApparentTemperatureMaxTimeUnix x) (ApparentTemperatureMaxTime x)
    (DewPoint x) (Humidity x) (WindSpeed x) (WindBearing x) (Visibility x)
    (CloudCover x) (Pressure x) (Ozone x).

Definition set_ApparentTemperatureMinTime (v : time.Time) (x : t) : t :=
  mk
    (TimeUnix x) (Time x) (Summary x) (Icon x) (SunriseUnix x) (Sunrise x)
    (SunsetUnix x) (Sunset x) (MoonPhase x) (PrecipitationIntensity x)
    (PrecipitationIntensityMax x) (PrecipitationIntensityMaxTimeUnix x)
    (PrecipitationIntensityMaxTime x) (PrecipitationProbability x)
    (PrecipitationType x) (TemperatureMin x) (TemperatureMinTimeUnix x)
    (TemperatureMinTime x) (TemperatureMax x) (TemperatureMaxTimeUnix x)
    (TemperatureMaxTime x) (ApparentTemperatureMin x)
    (ApparentTemperatureMinTimeUnix x) v (ApparentTemperatureMax x)
    (ApparentTemperatureMaxTimeUnix x) (ApparentTemperatureMaxTime x)
    (DewPoint x) (Humidity x) (WindSpeed x) (WindBearing x) (Visibility x)
    (CloudCover x) (Pressure x) (Ozone x).

Definition set_ApparentTemperatureMaxTime (v : time.Time) (x : t) : t :=
  mk
    (TimeUnix x) (Time x) (Summary x) (Icon x) (SunriseUnix x) (Sunrise x)
    (SunsetUnix x) (Sunset x) (MoonPhase x) (PrecipitationIntensity x)
    (PrecipitationIntensityMax x) (PrecipitationIntensityMaxTimeUnix x)
    (PrecipitationIntensityMaxTime x) (PrecipitationProbability x)
    (PrecipitationType x) (TemperatureMin x) (TemperatureMinTimeUnix x)
    (TemperatureMinTime x) (TemperatureMax x) (TemperatureMaxTimeUnix x)
    (TemperatureMaxTime x) (ApparentTemperatureMin x)
    (ApparentTemperatureMinTimeUnix x) (ApparentTemperatureMinTime x)
    (ApparentTemperatureMax x) (ApparentTemperatureMaxTimeUnix x) v
    (DewPoint x) (Humidity x) (WindSpeed x) (WindBearing x) (Visibility x)
    (CloudCover x) (Pressure x) (Ozone x).

(** [y] has the fields of [x] that are not structured times. *)
Definition same_raw (x y : t) : Prop :=
  TimeUnix y = TimeUnix x /\ Summary y = Summary x /\ Icon y = Icon x /\
  SunriseUnix y = SunriseUnix x /\ SunsetUnix y = SunsetUnix x /\
  MoonPhase y = MoonPhase x /\
  PrecipitationIntensity y = PrecipitationIntensity x /\
  PrecipitationIntensityMax y = PrecipitationIntensityMax x /\
  PrecipitationIntensityMaxTimeUnix y = PrecipitationIntensityMaxTimeUnix x /\
  PrecipitationProbability y = PrecipitationProbability x /\
  PrecipitationType y = PrecipitationType x /\
  TemperatureMin y = TemperatureMin x /\
  TemperatureMinTimeUnix y = TemperatureMinTimeUnix x /\
  TemperatureMax y = TemperatureMax x /\
  TemperatureMaxTimeUnix y = TemperatureMaxTimeUnix x /\
  ApparentTemperatureMin y = ApparentTemperatureMin x /\
  ApparentTemperatureMinTimeUnix y = ApparentTemperatureMinTimeUnix x /\
  ApparentTemperatureMax y = ApparentTemperatureMax x /\
  ApparentTemperatureMaxTimeUnix y = ApparentTemperatureMaxTimeUnix x /\
  DewPoint y = DewPoint x /\ Humidity y = Humidity x /\
  WindSpeed y = WindSpeed x /\ WindBearing y = WindBearing x /\
  Visibility y = Visibility x /\ CloudCover y = CloudCover x /\
  Pressure y = Pressure x /\ Ozone y = Ozone x.

(** [y] is [x] after [ParseTimes]: every structured time is the
    conversion of its own raw field, nothing else differs. *)
Definition parsed (x y : t) : Prop :=
  Time y = time.Unix (TimeUnix x) 0 /\
  Sunrise y = time.Unix (SunriseUnix x) 0 /\
  Sunset y = time.Unix (SunsetUnix x) 0 /\
  PrecipitationIntensityMaxTime y = time.Unix (PrecipitationIntensityMaxTimeUnix x) 0 /\
  TemperatureMinTime y = time.Unix (TemperatureMinTimeUnix x) 0 /\
  TemperatureMaxTime y = time.Unix (TemperatureMaxTimeUnix x) 0 /\
  ApparentTemperatureMinTime y = time.Unix (ApparentTemperatureMinTimeUnix x) 0 /\
  ApparentTemperatureMaxTime y = time.Unix (ApparentTemperatureMaxTimeUnix x) 0 /\
  same_raw x y.
End dayData.

(** One alert. *)
Module alert.
Record t := mk {
  Title : string;
  ExpiresUnix : Z;
  Expires : time.Time;
  Description : string;
  URI : string
}.

(** The zero value of the struct. *)
Definition zero : t :=
  mk
    "" 0 time.zero "" "".

Definition set_Expires (v : time.Time) (x : t) : t :=
  mk
    (Title x) (ExpiresUnix x) v (Description x) (URI x).

(** [y] has the fields of [x] that are not structured times. *)
Definition same_raw (x y : t) : Prop :=
  Title y = Title x /\ ExpiresUnix y = ExpiresUnix x /\
  Description y = Description x /\ URI y = URI x.

(** [y] is [x] after [ParseTimes]: every structured time is the
    conversion of its own raw field, nothing else differs. *)
Definition parsed (x y : t) : Prop :=
  Expires y = time.Unix (ExpiresUnix x) 0 /\
  same_raw x y.
End alert.

(** A pointer to a heap object: [None] is the nil pointer, [Some l] the
    address [l]. *)
Definition loc := positive.
Definition ptr := option loc.

(** The blocks that carry a slice of pointers to their samples. *)
Module minutely.
Record t := mk { Summary : string; Icon : string; Data : list ptr }.
Definition zero : t := mk "" "" [].
End minutely.

Module hourly.
Record t := mk { Summary : string; Icon : string; Data : list ptr }.
Definition zero : t := mk "" "" [].
End hourly.

Module daily.
Record t := mk { Summary : string; Icon : string; Data : list ptr }.
Definition zero : t := mk "" "" [].
End daily.

Module flags.
Record t := mk {
  Sources : list string;
  ISDStations : list string;
  MadisStations : list string;
  DatapointStations : list string;
  DarkskyStations : list string;
  Units : string
}.
Definition zero : t := mk [] [] [] [] [] "".
End flags.

(** How a call ends: it returns a value, or it panics. *)
Inductive completion (A : Type) :=
| Returns (a : A)
| Panics (msg : string).
Arguments Returns {A} a.
Arguments Panics {A} msg.

(** The objects the pointers of a [Forecast] point to, by type. Two equal
    pointers in a slice denote one object. *)
Record Heap := mkHeap {
  minutes : gmap loc minuteData.t;
  hours : gmap loc hourData.t;
  days : gmap loc dayData.t;
  alerts : gmap loc alert.t
}.

Definition emptyHeap : Heap := mkHeap ∅ ∅ ∅ ∅.

Definition nilDereference : string :=
  "runtime error: invalid memory address or nil pointer dereference".

(** [for _, p := range ps { body }] where [body] assigns to fields of
    [*p]: the objects are updated in place, in the order of the slice; a
    nil entry stops the loop with a panic, the updates made so far stay.
    The boolean tells whether the loop ran to its end. *)
Fixpoint rangeAssign {A : Type} (body : A -> A) (ps : list ptr)
    (objs : gmap loc A) : bool * gmap loc A :=
  match ps with
  | [] => (true, objs)
  | None :: _ => (false, objs)
  | Some l :: rest => rangeAssign body rest (alter body l objs)
  end.

Module Forecast.

Record t := mk {
  Latitude : float64;
  Longitude : float64;
  Timezone : string;
  TimeOffset : Z;
  Currently : currently.t;
  Minutely : minutely.t;
  Hourly : hourly.t;
  Daily : daily.t;
  Alerts : list ptr;
  Flags : flags.t
}.

(** [var forecast Forecast] *)
Definition zero : t :=
  mk (S754_zero false) (S754_zero false) "" 0 currently.zero minutely.zero
     hourly.zero daily.zero [] flags.zero.

Definition set_Currently (v : currently.t) (f : t) : t :=
  mk (Latitude f) (Longitude f) (Timezone f) (TimeOffset f) v (Minutely f)
     (Hourly f) (Daily f) (Alerts f) (Flags f).

(** The bodies of the four loops of [ParseTimes]. *)
Definition minuteTimes (m : minuteData.t) : minuteData.t :=
  minuteData.set_Time (time.Unix (minuteData.TimeUnix m) 0) m.

Definition hourTimes (h : hourData.t) : hourData.t :=
  hourData.set_Time (time.Unix (hourData.TimeUnix h) 0) h.

Definition dayTimes (d : dayData.t) : dayData.t :=
  let d := dayData.set_Time (time.Unix (dayData.TimeUnix d) 0) d in
  let d := dayData.set_Sunrise (time.Unix (dayData.SunriseUnix d) 0) d in
  let d := dayData.set_Sunset (time.Unix (dayData.SunsetUnix d) 0) d in
  let d := dayData.set_PrecipitationIntensityMaxTime
             (time.Unix (dayData.PrecipitationIntensityMaxTimeUnix d) 0) d in
  let d := dayData.set_TemperatureMinTime
             (time.Unix (dayData.TemperatureMinTimeUnix d) 0) d in
  let d := dayData.set_TemperatureMaxTime
             (time.Unix (dayData.TemperatureMaxTimeUnix d) 0) d in
  let d := dayData.set_ApparentTemperatureMinTime
             (time.Unix (dayData.ApparentTemperatureMinTimeUnix d) 0) d in
  dayData.set_ApparentTemperatureMaxTime
    (time.Unix (dayData.ApparentTemperatureMaxTimeUnix d) 0) d.

Definition alertTimes (a : alert.t) : alert.t :=
  alert.set_Expires (time.Unix (alert.ExpiresUnix a) 0) a.

(** What [ParseTimes] leaves behind: how it ended, the receiver and the
    heap. *)
Record after := mkAfter {
  outcome : completion unit;
  forecast : t;
  heap : Heap
}.

(** [ParseTimes] on a non-nil receiver [f]: the time of the current
    conditions, then the minute, hour and day samples, then the alerts.
    A nil entry in one of the slices panics at that entry. *)
Definition ParseTimes (f : t) (h : Heap) : after :=
  let f := set_Currently
             (currently.set_Time
                (time.Unix (currently.TimeUnix (Currently f)) 0) (Currently f)) f in
  let (done, ms) := rangeAssign minuteTimes (minutely.Data (Minutely f)) (minutes h) in
  let h := mkHeap ms (hours h) (days h) (alerts h) in
  if negb done then mkAfter (Panics nilDereference) f h else
  let (done, hs) := rangeAssign hourTimes (hourly.Data (Hourly f)) (hours h) in
  let h := mkHeap (minutes h) hs (days h) (alerts h) in
  if negb done then mkAfter (Panics nilDereference) f h else
  let (done, ds) := rangeAssign dayTimes (daily.Data (Daily f)) (days h) in
  let h := mkHeap (minutes h) (hours h) ds (alerts h) in
  if negb done then mkAfter (Panics nilDereference) f h else
  let (done, als) := rangeAssign alertTimes (Alerts f) (alerts h) in
  let h := mkHeap (minutes h) (hours h) (days h) als in
  if negb done then mkAfter (Panics nilDereference) f h else
  mkAfter (Returns tt) f h.

End Forecast.

(* ===================================================================== *)
(** * The connection *)
(* ===================================================================== *)

(** The base part of any constructed URL. *)
Definition baseURL : string := "https://api.forecast.io/forecast".

(** [excludesSet] and [unitsSet]: maps to the empty struct, used as sets. *)
Definition excludesSet : gset string :=
  {[ "currently"; "minutely"; "hourly"; "daily"; "alerts"; "flags" ]}.

Definition unitsSet : gset string :=
  {[ "us"; "si"; "ca"; "uk"; "auto" ]}.

(** The fields of an [APIConn] next to its mutex, and the values they
    hold. *)
Inductive field := F_apiKey | F_apiCalls | F_units.

Inductive value := VString (s : string) | VInt (n : Z).

(** What a call on a connection does that another goroutine or the
    outside world can observe, in the order in which it happens: the
    operations on the embedded [sync.RWMutex], the reads and writes of
    the fields with the value read or written, the request sent with what
    came back, the reading and closing of the body, and the decoding of
    the body. *)
Inductive event :=
| Lock
| Unlock
| RLock
| RUnlock
| Load (f : field) (v : value)
| Store (f : field) (v : value)
| HTTPGet (url : string) (r : error + http.Response)
| ReadAll (r : error + string)
| BodyClose
| Unmarshal (body : string) (err : option error).

(** The collaborators of the package: the network behind [http.Get], and
    [json.Unmarshal] at type [*Forecast], which fills the value it is
    given and allocates the objects of its slices. *)
Class Runtime := {
  http_Get : string -> error + http.Response;
  json_Unmarshal :
    string -> Forecast.t * Heap -> (Forecast.t * Heap) * option error
}.

Module APIConn.

(** The fields of the struct. The embedded mutex has no field here: its
    use shows as [Lock], [Unlock], [RLock] and [RUnlock] events. *)
Record t := mk {
  apiKey : string;
  apiCalls : Z;
  units : string
}.

Definition NewConnection (key : string) : t := mk key 0 "auto".

(** One run of a method: how it ended, the connection afterwards, and
    the events in order. *)
Record run (A : Type) := mkRun {
  result : completion A;
  conn : t;
  trace : list event
}.
Arguments mkRun {A} _ _ _.
Arguments result {A} _.
Arguments conn {A} _.
Arguments trace {A} _.

(** A method body: from the connection to a run. *)
Definition M (A : Type) : Type := t -> run A.

Definition ret {A : Type} (a : A) : M A := fun c => mkRun (Returns a) c [].

Definition bind {A B : Type} (m : M A) (k : A -> M B) : M B :=
  fun c =>
    let r := m c in
    match result r with
    | Returns a =>
        let r' := k a (conn r) in
        mkRun (result r') (conn r') (trace r ++ trace r')
    | Panics msg => mkRun (Panics msg) (conn r) (trace r)
    end.

#[global] Instance M_ret : MRet M := @ret.
#[global] Instance M_bind : MBind M := fun A B k m => bind m k.

Definition panic {A : Type} (msg : string) : M A :=
  fun c => mkRun (Panics msg) c [].

Definition emit (e : event) : M unit := fun c => mkRun (Returns tt) c [e].

(** [defer d] at the head of [body]: [d] runs when [body] is left, by a
    return or by a panic. *)
Definition defer {A : Type} (d : M unit) (body : M A) : M A :=
  fun c =>
    let r := body c in
    let r' := d (conn r) in
    mkRun (result r) (conn r') (trace r ++ trace r').

(** Field accesses. *)
Definition load_apiKey : M string :=
  fun c => mkRun (Returns (apiKey c)) c [Load F_apiKey (VString (apiKey c))].
Definition load_apiCalls : M Z :=
  fun c => mkRun (Returns (apiCalls c)) c [Load F_apiCalls (VInt (apiCalls c))].
Definition load_units : M string :=
  fun c => mkRun (Returns (units c)) c [Load F_units (VString (units c))].
Definition store_apiCalls (n : Z) : M unit :=
  fun c => mkRun (Returns tt) (mk (apiKey c) n (units c)) [Store F_apiCalls (VInt n)].
Definition store_units (u : string) : M unit :=
  fun c => mkRun (Returns tt) (mk (apiKey c) (apiCalls c) u) [Store F_units (VString u)].

(** [APICalls] and [Units]: reads under the shared lock. *)
Definition APICalls : M Z :=
  emit RLock;; defer (emit RUnlock) load_apiCalls.

Definition Units : M string :=
  emit RLock;; defer (emit RUnlock) load_units.

(** [SetUnits]: the units are stored if they are in [unitsSet]; the
    error is [nil] ([None]) on success. *)
Definition SetUnits (units : string) : M (option error) :=
  emit Lock;;
  defer (emit Unlock)
    (if bool_decide (units ∈ unitsSet)
     then store_units units;; mret None
     else mret (Some (errors.New "Invalid units requested"))).

(** The argument [date interface{}] of [ForecastAtTime] by dynamic
    type. *)
Inductive date :=
| DateTime (t : time.Time)
| DateInt (i : Z)
| DateInt64 (i : Z)
| DateString (s : string)
| DateOther.

(** The loop over [excludes] of [Forecast]; [Some e] is the early
    return with [e]. *)
Fixpoint Forecast_excludes (excludes : list string) : option error :=
  match excludes with
  | [] => None
  | ex :: rest =>
      if String.eqb ex "" then Forecast_excludes rest
      else if bool_decide (ex ∈ excludesSet) then Forecast_excludes rest
      else Some (errors.New "Invalid exclude requested")
  end.

(** The loop over [excludes] of [ForecastAtTime]. *)
Fixpoint ForecastAtTime_excludes (excludes : list string) : option error :=
  match excludes with
  | [] => None
  | ex :: rest =>
      if bool_decide (ex ∈ excludesSet) then ForecastAtTime_excludes rest
      else Some (errors.New "Invalid exclude requested")
  end.

Section methods.
Context `{Runtime}.

(** A [*Forecast]: nil, or the decoded value with its objects. *)
Definition ForecastPtr : Type := option (Forecast.t * Heap).

Definition http_Get_ev (query : string) : M (error + http.Response) :=
  fun c => mkRun (Returns (http_Get query)) c [HTTPGet query (http_Get query)].

Definition json_Unmarshal_ev (body : string) (v : Forecast.t * Heap)
    : M ((Forecast.t * Heap) * option error) :=
  fun c =>
    let r := json_Unmarshal body v in
    mkRun (Returns r) c [Unmarshal body r.2].

(** From [a.Lock()] to the end of [Forecast] and of [ForecastAtTime]
    (the two tails are the same text): the request, the body, the
    decoding and the call counter. *)
Definition roundTrip (query : string) : M (ForecastPtr * option error) :=
  let forecast := (Forecast.zero, emptyHeap) in
  emit Lock;;
  defer (emit Unlock)
    (response ← http_Get_ev query;
     match response with
     | inl err => mret (None, Some err)
     | inr response =>
         emit (ReadAll (http.Body response));;
         match http.Body response with
         | inl err => mret (None, Some err)
         | inr body =>
             emit BodyClose;;
             '(forecast, err) ← json_Unmarshal_ev body forecast;
             store_apiCalls
               (strconv.Atoi
                  (http.Header_Get (http.Header response) "X-Forecast-API-Calls")).1;;
             mret (Some forecast, err)
         end
     end).

Definition Forecast (lat lon : float64) (excludes : list string)
    (extendHourly : bool) : M (ForecastPtr * option error) :=
  match Forecast_excludes excludes with
  | Some err => mret (None, Some err)
  | None =>
      key ← load_apiKey;
      units ← load_units;
      let query :=
        fmt.Sprintf "%s/%s/%f,%f?units=%s&exclude=%s"
          [fmt.Str baseURL; fmt.Str key; fmt.Float64 lat; fmt.Float64 lon;
           fmt.Str units; fmt.Str (strings.Join excludes ",")] in
      let query := if extendHourly then query +:+ "&extend=hourly" else query in
      roundTrip query
  end.

(** The operands of [Sprintf] are evaluated from left to right; the
    assertion [date.(int64)] panics when the dynamic type is [int].
    With a dynamic type outside the switch the query stays empty. *)
Definition ForecastAtTime (lat lon : float64) (date : date)
    (excludes : list string) : M (ForecastPtr * option error) :=
  match ForecastAtTime_excludes excludes with
  | Some err => mret (None, Some err)
  | None =>
      query ←
        match date with
        | DateTime t =>
            key ← load_apiKey;
            units ← load_units;
            mret (fmt.Sprintf "%s/%s/%f,%f,%d?units=%s&exclude=%s"
                    [fmt.Str baseURL; fmt.Str key; fmt.Float64 lat;
                     fmt.Float64 lon; fmt.Int64 (time.Time_Unix t);
                     fmt.Str units; fmt.Str (strings.Join excludes ",")])
        | DateInt _ =>
            key ← load_apiKey;
            panic "interface conversion: interface {} is int, not int64"
        | DateInt64 i =>
            key ← load_apiKey;
            units ← load_units;
            mret (fmt.Sprintf "%s/%s/%f,%f,%d?units=%s&exclude=%s"
                    [fmt.Str baseURL; fmt.Str key; fmt.Float64 lat;
                     fmt.Float64 lon; fmt.Int64 i;
                     fmt.Str units; fmt.Str (strings.Join excludes ",")])
        | DateString s =>
            key ← load_apiKey;
            units ← load_units;
            mret (fmt.Sprintf "%s/%s/%f,%f,%s?units=%s&exclude=%s"
                    [fmt.Str baseURL; fmt.Str key; fmt.Float64 lat;
                     fmt.Float64 lon; fmt.Str s;
                     fmt.Str units; fmt.Str (strings.Join excludes ",")])
        | DateOther => mret ""
        end;
      roundTrip query
  end.

End methods.

End APIConn.

(* ===================================================================== *)
(** * Notions used to state the properties *)
(* ===================================================================== *)

(** The unit modes and the exclude keywords, as the documentation lists
    them. *)
Definition validUnits : list string := ["us"; "si"; "ca"; "uk"; "auto"].

Definition validExcludes : list string :=
  ["currently"; "minutely"; "hourly"; "daily"; "alerts"; "flags"].

(** The URLs requested in a trace, and the bodies handed to the decoder. *)
Definition requests (tr : list event) : list string :=
  flat_map (fun e => match e with HTTPGet url _ => [url] | _ => [] end) tr.

Definition decodings (tr : list event) : list string :=
  flat_map (fun e => match e with Unmarshal body _ => [body] | _ => [] end) tr.

(** The field accesses of a trace that happen while the goroutine holds
    neither the exclusive nor the shared lock. *)
Fixpoint unlockedAccesses (held : bool) (tr : list event) : list event :=
  match tr with
  | [] => []
  | e :: rest =>
      match e with
      | Lock | RLock => unlockedAccesses true rest
      | Unlock | RUnlock => unlockedAccesses false rest
      | Load _ _ | Store _ _ =>
          if held then unlockedAccesses held rest
          else e :: unlockedAccesses held rest
      | _ => unlockedAccesses held rest
      end
  end.

(** [objs'] is [objs] after a pass over the pointers [ps]: the objects
    pointed to are related by [rel], the other objects are the same, and
    no object appears or disappears. *)
Definition updated {A : Type} (rel : A -> A -> Prop) (ps : list ptr)
    (objs objs' : gmap loc A) : Prop :=
  forall l : loc,
    (In (Some l) ps -> option_Forall2 rel (objs !! l) (objs' !! l))
    /\ (~ In (Some l) ps -> objs' !! l = objs !! l).

(** No slice of the forecast holds a nil pointer. *)
Definition noNil (f : Forecast.t) : Prop :=
  ~ In None (minutely.Data (Forecast.Minutely f))
  /\ ~ In None (hourly.Data (Forecast.Hourly f))
  /\ ~ In None (daily.Data (Forecast.Daily f))
  /\ ~ In None (Forecast.Alerts f).

(** [f'] has the fields of [f] other than the current conditions. *)
Definition sameBlocks (f f' : Forecast.t) : Prop :=
  Forecast.Latitude f' = Forecast.Latitude f
  /\ Forecast.Longitude f' = Forecast.Longitude f
  /\ Forecast.Timezone f' = Forecast.Timezone f
  /\ Forecast.TimeOffset f' = Forecast.TimeOffset f
  /\ Forecast.Minutely f' = Forecast.Minutely f
  /\ Forecast.Hourly f' = Forecast.Hourly f
  /\ Forecast.Daily f' = Forecast.Daily f
  /\ Forecast.Alerts f' = Forecast.Alerts f
  /\ Forecast.Flags f' = Forecast.Flags f.

(** What [ParseTimes] is to achieve on the forecast [f] with the heap
    [h]: it returns; the current conditions, every sample the slices
    point to and every alert have their structured times converted from
    their own raw fields; and nothing else has changed, in the forecast
    or in the heap. *)
Definition timesParsed (f : Forecast.t) (h : Heap) (r : Forecast.after) : Prop :=
  Forecast.outcome r = Returns tt
  /\ sameBlocks f (Forecast.forecast r)
  /\ currently.parsed (Forecast.Currently f) (Forecast.Currently (Forecast.forecast r))
  /\ updated minuteData.parsed (minutely.Data (Forecast.Minutely f))
       (minutes h) (minutes (Forecast.heap r))
  /\ updated hourData.parsed (hourly.Data (Forecast.Hourly f))
       (hours h) (hours (Forecast.heap r))
  /\ updated dayData.parsed (daily.Data (Forecast.Daily f))
       (days h) (days (Forecast.heap r))
  /\ updated alert.parsed (Forecast.Alerts f)
       (alerts h) (alerts (Forecast.heap r)).

(** Two goroutines that share a connection, and the state of its
    [sync.RWMutex]: free, held exclusively, or held shared. *)
Inductive goroutine := G1 | G2.

Inductive mutex := Free | Locked (g : goroutine) | RLocked (gs : list goroutine).

#[global] Instance goroutine_eq_dec : EqDecision goroutine.
Proof. solve_decision. Defined.

#[global] Instance value_eq_dec : EqDecision value.
Proof. solve_decision. Defined.

Definition fieldValue (f : field) (c : APIConn.t) : value :=
  match f with
  | F_apiKey => VString (APIConn.apiKey c)
  | F_apiCalls => VInt (APIConn.apiCalls c)
  | F_units => VString (APIConn.units c)
  end.

Definition setField (f : field) (v : value) (c : APIConn.t) : option APIConn.t :=
  match f, v with
  | F_apiKey, VString k => Some (APIConn.mk k (APIConn.apiCalls c) (APIConn.units c))
  | F_apiCalls, VInt n => Some (APIConn.mk (APIConn.apiKey c) n (APIConn.units c))
  | F_units, VString u => Some (APIConn.mk (APIConn.apiKey c) (APIConn.apiCalls c) u)
  | _, _ => None
  end.

Fixpoint removeOne (g : goroutine) (gs : list goroutine) : option (list goroutine) :=
  match gs with
  | [] => None
  | g' :: rest =>
      if decide (g = g') then Some rest else cons g' <$> removeOne g rest
  end.

(** One event of goroutine [g] on the shared mutex and connection. [None]
    when the event cannot happen in this state: a [Lock] or [RLock] that
    would have to wait, an unlock by a goroutine that does not hold the
    lock, a load that would see another value than the one recorded. The
    events of the outside world do not touch the shared state. *)
Definition step (g : goroutine) (e : event) (mu : mutex) (c : APIConn.t)
    : option (mutex * APIConn.t) :=
  match e with
  | Lock => match mu with Free => Some (Locked g, c) | _ => None end
  | Unlock =>
      match mu with
      | Locked g' => if decide (g = g') then Some (Free, c) else None
      | _ => None
      end
  | RLock =>
      match mu with
      | Free => Some (RLocked [g], c)
      | RLocked gs => Some (RLocked (g :: gs), c)
      | Locked _ => None
      end
  | RUnlock =>
      match mu with
      | RLocked gs =>
          match removeOne g gs with
          | Some [] => Some (Free, c)
          | Some gs' => Some (RLocked gs', c)
          | None => None
          end
      | _ => None
      end
  | Load f v => if decide (v = fieldValue f c) then Some (mu, c) else None
  | Store f v => pair mu <$> setField f v c
  | _ => Some (mu, c)
  end.

(** A schedule: the events of both goroutines in the order in which they
    happen. [execute] runs it from a state of the mutex and of the
    connection. *)
Fixpoint execute (s : list (goroutine * event)) (mu : mutex) (c : APIConn.t)
    : option (mutex * APIConn.t) :=
  match s with
  | [] => Some (mu, c)
  | (g, e) :: rest =>
      match step g e mu c with
      | Some (mu', c') => execute rest mu' c'
      | None => None
      end
  end.

(** The events of one goroutine in a schedule. *)
Definition eventsOf (g : goroutine) (s : list (goroutine * event)) : list event :=
  flat_map (fun ge => if decide (ge.1 = g) then [ge.2] else []) s.

(** The name under which net/http files the call-count header. *)
Definition callsHeader : string := "X-Forecast-Api-Calls".

(** A decimal integer: an optional sign and at least one digit. *)
Fixpoint allDigits (s : string) : bool :=
  match s with
  | EmptyString => true
  | String c rest => strconv.isDigit c && allDigits rest
  end.

Definition unsignedPart (s : string) : string :=
  match s with
  | String c rest => if Ascii.eqb c "-" || Ascii.eqb c "+" then rest else s
  | EmptyString => s
  end.

Definition isDecimal (s : string) : bool :=
  match unsignedPart s with
  | EmptyString => false
  | body => allDigits body
  end.

(** The number a run of digits denotes, continuing from [n]. *)
Fixpoint digitsValue (s : string) (n : Z) : Z :=
  match s with
  | EmptyString => n
  | String c rest => digitsValue rest (n * 10 + (strconv.byteVal c - 48))
  end.

Definition decimalValue (s : string) : Z :=
  match s with
  | String c rest =>
      if Ascii.eqb c "-" then - digitsValue rest 0
      else digitsValue (unsignedPart s) 0
  | EmptyString => 0
  end.

(** The URL of a request as the documentation of the service gives it:
    [{base}/{apiKey}/{lat},{lon}[,{time}]?units={unit}&exclude={csv}[&extend=hourly]]. *)
Definition forecastURL (key : string) (lat lon : float64) (time : option string)
    (unit : string) (excludes : list string) (extend : bool) : string :=
  baseURL +:+ "/" +:+ key +:+ "/" +:+ strconv.FormatFloat lat +:+ ","
    +:+ strconv.FormatFloat lon
    +:+ match time with Some t => "," +:+ t | None => "" end
    +:+ "?units=" +:+ unit +:+ "&exclude=" +:+ strings.Join excludes ","
    +:+ (if extend then "&extend=hourly" else "").

(** The time segment of the URL for the dynamic types of [date] that
    [ForecastAtTime] formats. *)
Definition dateSegment (d : APIConn.date) : option string :=
  match d with
  | APIConn.DateTime t => Some (strconv.FormatInt (time.Time_Unix t))
  | APIConn.DateInt64 i => Some (strconv.FormatInt i)
  | APIConn.DateString s => Some s
  | APIConn.DateInt _ | APIConn.DateOther => None
  end.

(** Stand-ins for the collaborators, and sample data. *)
Module Stub.

(** A network that answers every request with [resp], and a decoder
    that leaves the value as it is and reports [derr]. *)
Definition runtime (resp : error + http.Response) (derr : option error) : Runtime :=
  {| http_Get := fun _ => resp; json_Unmarshal := fun _ v => (v, derr) |}.

Definition refused : error :=
  foreignError "net/http" "dial tcp: connection refused".

Definition badJSON : error :=
  foreignError "encoding/json" "unexpected end of JSON input".

Definition calls (v : string) : gmap string (list string) :=
  {[ callsHeader := [v] ]}.

(** 37.8267 and -122.423 as binary64 values. *)
Definition lat : float64 := S754_finite false 2661817375385243 (-46).
Definition lon : float64 := S754_finite true 538422048028885 (-42).

(** A forecast with two minute samples behind three pointers (the
    first sample twice), one day sample and one alert. *)
Definition minute1 : minuteData.t :=
  minuteData.mk 1609459200 time.zero (S754_zero false) (S754_zero false).
Definition minute2 : minuteData.t :=
  minuteData.mk 1609459260 time.zero (S754_zero false) (S754_zero false).
Definition alert1 : alert.t :=
  alert.mk "Flood Watch" 1609545600 time.zero "" "http://alerts.weather.gov".

Definition heap1 : Heap :=
  mkHeap {[ 1%positive := minute1; 2%positive := minute2 ]} ∅
         {[ 1%positive := dayData.zero ]} {[ 1%positive := alert1 ]}.

Definition forecast1 : Forecast.t :=
  Forecast.mk lat lon "America/Los_Angeles" (-8) currently.zero
    (minutely.mk "" "" [Some 1%positive; Some 2%positive; Some 1%positive])
    hourly.zero (daily.mk "" "" [Some 1%positive]) [Some 1%positive] flags.zero.

(** The same with a nil pointer among the minute samples, as the
    decoder leaves it for a [null] in the array. *)
Definition forecastNil : Forecast.t :=
  Forecast.mk lat lon "America/Los_Angeles" (-8) currently.zero
    (minutely.mk "" "" [Some 1%positive; None; Some 2%positive])
    hourly.zero (daily.mk "" "" [Some 1%positive]) [Some 1%positive] flags.zero.

Definition fresh : APIConn.t := APIConn.NewConnection "KEY".
Definition used : APIConn.t := APIConn.mk "KEY" 42 "si".

End Stub.

(* ===================================================================== *)
(** * The callers: the sample programs *)
(* ===================================================================== *)

(** The call [report.ParseTimes()] through a [*Forecast]: the method
    reads a field of its receiver first, so a nil receiver panics. *)
Definition callParseTimes (p : APIConn.ForecastPtr) : completion (Forecast.t * Heap) :=
  match p with
  | None => Panics nilDereference
  | Some (f, h) =>
      let r := Forecast.ParseTimes f h in
      match Forecast.outcome r with
      | Returns _ => Returns (Forecast.forecast r, Forecast.heap r)
      | Panics msg => Panics msg
      end
  end.

(** [samples/CurrentWeather.go]. *)
Module CurrentWeather.

(** The package variables the flags are parsed into. *)
Record flags := mkFlags {
  key : string;
  exclude : string;
  lat : float64;
  lon : float64;
  extend : bool;
  units : string
}.

(** The defaults given in [init]: 37.8267 and -122.423 as binary64. *)
Definition defaults : flags :=
  mkFlags "" "" (S754_finite false 2661817375385243 (-46))
          (S754_finite true 538422048028885 (-42)) false "auto".

(** How [main] goes on after the fetch: it reaches its [Printf] calls
    with the call count and the forecast to print, or it stops in
    [panic(err)], or in a panic of the runtime. *)
Inductive exit :=
| Prints (calls : Z) (f : Forecast.t) (h : Heap)
| PanicError (err : error)
| PanicRuntime (msg : string).

(** [main] from [flag.Parse()] to the operand [c.APICalls()] of the first
    [Printf]; the formatting of the output is not part of the model. The
    error of [c.SetUnits(units)] is dropped, as in the source. *)
Definition main `{Runtime} (fl : flags) : exit * list event :=
  let excludes := strings.Split (exclude fl) "," in
  let c := APIConn.NewConnection (key fl) in
  let r1 := APIConn.SetUnits (units fl) c in
  let r2 := APIConn.Forecast (lat fl) (lon fl) excludes (extend fl) (APIConn.conn r1) in
  let tr := (APIConn.trace r1 ++ APIConn.trace r2)%list in
  match APIConn.result r2 with
  | Panics msg => (PanicRuntime msg, tr)
  | Returns (_, Some err) => (PanicError err, tr)
  | Returns (f, None) =>
      match callParseTimes f with
      | Panics msg => (PanicRuntime msg, tr)
      | Returns (f', h') =>
          let r3 := APIConn.APICalls (APIConn.conn r2) in
          match APIConn.result r3 with
          | Panics msg => (PanicRuntime msg, (tr ++ APIConn.trace r3)%list)
          | Returns calls => (Prints calls f' h', (tr ++ APIConn.trace r3)%list)
          end
      end
  end.

End CurrentWeather.

(** The handler [weather] of the web sample. *)
Module WebCurrentWeather.

(** [weather] from [NewConnection] to [report.ParseTimes()]; [lat] and
    [lon] are what [ParseFloat] made of the URL parameters. The error of
    [Forecast] is dropped, as in the source; the report that is handed to
    the template is returned. *)
Definition weather `{Runtime} (key : string) (lat lon : float64)
    : completion (Forecast.t * Heap) * list event :=
  let fConn := APIConn.NewConnection key in
  let excludes := ["hourly"; "minutely"] in
  let r := APIConn.Forecast lat lon excludes false fConn in
  match APIConn.result r with
  | Panics msg => (Panics msg, APIConn.trace r)
  | Returns (report, _) => (callParseTimes report, APIConn.trace r)
  end.

End WebCurrentWeather.

(* ===================================================================== *)
(** * More notions used to state properties *)
(* ===================================================================== *)

(** A call of a method of the connection, and the connection after a
    sequence of calls (a call that panics leaves it as it is when the
    panic is recovered). *)
Inductive call :=
| CallSetUnits (u : string)
| CallUnits
| CallAPICalls
| CallForecast (lat lon : float64) (excludes : list string) (extendHourly : bool)
| CallForecastAtTime (lat lon : float64) (d : APIConn.date) (excludes : list string).

Definition afterCall `{Runtime} (a : APIConn.t) (c : call) : APIConn.t :=
  match c with
  | CallSetUnits u => APIConn.conn (APIConn.SetUnits u a)
  | CallUnits => APIConn.conn (APIConn.Units a)
  | CallAPICalls => APIConn.conn (APIConn.APICalls a)
  | CallForecast lat lon ex ext => APIConn.conn (APIConn.Forecast lat lon ex ext a)
  | CallForecastAtTime lat lon d ex => APIConn.conn (APIConn.ForecastAtTime lat lon d ex a)
  end.

Definition afterCalls `{Runtime} (a : APIConn.t) (cs : list call) : APIConn.t :=
  fold_left afterCall cs a.

(** The trace of a call. *)
Definition traceOf `{Runtime} (a : APIConn.t) (c : call) : list event :=
  match c with
  | CallSetUnits u => APIConn.trace (APIConn.SetUnits u a)
  | CallUnits => APIConn.trace (APIConn.Units a)
  | CallAPICalls => APIConn.trace (APIConn.APICalls a)
  | CallForecast lat lon ex ext => APIConn.trace (APIConn.Forecast lat lon ex ext a)
  | CallForecastAtTime lat lon d ex => APIConn.trace (APIConn.ForecastAtTime lat lon d ex a)
  end.

(** A raw timestamp as the decoder stores it: an [int64]. *)
Definition isInt64 (z : Z) : Prop := - 2 ^ 63 <= z < 2 ^ 63.

(** The structured times of a value give back its raw fields through
    [Time.Unix]. *)
Definition dayRoundTrips (d : dayData.t) : Prop :=
  time.Time_Unix (dayData.Time d) = dayData.TimeUnix d
  /\ time.Time_Unix (dayData.Sunrise d) = dayData.SunriseUnix d
  /\ time.Time_Unix (dayData.Sunset d) = dayData.SunsetUnix d
  /\ time.Time_Unix (dayData.PrecipitationIntensityMaxTime d)
     = dayData.PrecipitationIntensityMaxTimeUnix d
  /\ time.Time_Unix (dayData.TemperatureMinTime d) = dayData.TemperatureMinTimeUnix d
  /\ time.Time_Unix (dayData.TemperatureMaxTime d) = dayData.TemperatureMaxTimeUnix d
  /\ time.Time_Unix (dayData.ApparentTemperatureMinTime d)
     = dayData.ApparentTemperatureMinTimeUnix d
  /\ time.Time_Unix (dayData.ApparentTemperatureMaxTime d)
     = dayData.ApparentTemperatureMaxTimeUnix d.

Definition dayRawInt64 (d : dayData.t) : Prop :=
  isInt64 (dayData.TimeUnix d) /\ isInt64 (dayData.SunriseUnix d)
  /\ isInt64 (dayData.SunsetUnix d)
  /\ isInt64 (dayData.PrecipitationIntensityMaxTimeUnix d)
  /\ isInt64 (dayData.TemperatureMinTimeUnix d)
  /\ isInt64 (dayData.TemperatureMaxTimeUnix d)
  /\ isInt64 (dayData.ApparentTemperatureMinTimeUnix d)
  /\ isInt64 (dayData.ApparentTemperatureMaxTimeUnix d).

(** More sample data. *)
Module Sample.

Definition ok (header : gmap string (list string)) : Runtime :=
  {| http_Get := fun _ => inr (http.mkResponse header (inr "{}"));
     json_Unmarshal := fun _ v => (v, None) |}.

Definition unread : Runtime :=
  {| http_Get := fun _ => inr (http.mkResponse {[ callsHeader := ["7"] ]}
                                 (inl (foreignError "io" "unexpected EOF")));
     json_Unmarshal := fun _ v => (v, None) |}.

Definition down : Runtime :=
  {| http_Get := fun _ => inl (foreignError "net/http" "dial tcp: connection refused");
     json_Unmarshal := fun _ v => (v, None) |}.

End Sample.

(* ===================================================================== *)
(** * Properties of the library models *)
(* ===================================================================== *)

(** [Atoi] on the values a header can have. *)
Example Atoi_samples :
  strconv.Atoi "42" = (42, None)
  /\ strconv.Atoi "-17" = (-17, None)
  /\ strconv.Atoi "" = (0, Some (NumError "Atoi" "" ErrSyntax))
  /\ strconv.Atoi "4 2" = (0, Some (NumError "Atoi" "4 2" ErrSyntax))
  /\ strconv.Atoi "99999999999999999999"
     = (9223372036854775807, Some (NumError "Atoi" "99999999999999999999" ErrRange))
  /\ strconv.Atoi "99999999999999999999x"
     = (9223372036854775807, Some (NumError "Atoi" "99999999999999999999x" ErrRange)).
Proof. vm_compute. repeat split. Qed.

Example FormatInt_samples :
  strconv.FormatInt 1609459200 = "1609459200"
  /\ strconv.FormatInt (-5) = "-5"
  /\ strconv.FormatInt 0 = "0".
Proof. vm_compute. repeat split. Qed.

(** The verb [%f] on 37.8267 and -122.423 (the defaults of the sample
    program), on small values, and on ties, which go to the even digit. *)
Example FormatFloat_samples :
  strconv.FormatFloat Stub.lat = "37.826700"
  /\ strconv.FormatFloat Stub.lon = "-122.423000"
  /\ strconv.FormatFloat (S754_finite false 1 (-1)) = "0.500000"
  /\ strconv.FormatFloat (S754_finite false 1 (-21)) = "0.000000"
  /\ strconv.FormatFloat (S754_finite false 3 (-22)) = "0.000001"
  /\ strconv.FormatFloat (S754_finite false 1 (-7)) = "0.007812"
  /\ strconv.FormatFloat (S754_finite false 3 (-7)) = "0.023438"
  /\ strconv.FormatFloat (S754_zero true) = "-0.000000"
  /\ strconv.FormatFloat S754_nan = "NaN".
Proof. vm_compute. repeat split. Qed.

Example Sprintf_sample :
  fmt.Sprintf "%s/%s/%f,%d?x=%s"
    [fmt.Str "a"; fmt.Str "b"; fmt.Float64 Stub.lat; fmt.Int64 7; fmt.Str "c"]
  = "a/b/37.826700,7?x=c".
Proof. vm_compute. reflexivity. Qed.

Example CanonicalHeaderKey_sample :
  http.CanonicalHeaderKey "X-Forecast-API-Calls" = "X-Forecast-Api-Calls"
  /\ http.CanonicalHeaderKey "content-type" = "Content-Type"
  /\ http.CanonicalHeaderKey "bad key" = "bad key".
Proof. vm_compute. repeat split. Qed.

Example Join_sample : strings.Join ["minutely"; ""; "flags"] "," = "minutely,,flags".
Proof. reflexivity. Qed.

(* ===================================================================== *)
(** * time.Unix *)
(* ===================================================================== *)

Lemma int64_small (z : Z) : - 2 ^ 63 <= z < 2 ^ 63 -> time.int64 z = z.
Proof. intros Hz. unfold time.int64. rewrite Z.mod_small; lia. Qed.

Lemma int64_shift (z c : Z) : time.int64 (time.int64 (z + c) - c) = time.int64 z.
Proof.
  unfold time.int64.
  replace ((z + c + 2 ^ 63) mod 2 ^ 64 - 2 ^ 63 - c + 2 ^ 63)
    with ((z + c + 2 ^ 63) mod 2 ^ 64 - c) by lia.
  rewrite Zminus_mod_idemp_l. f_equal. f_equal. lia.
Qed.

(** [time.Unix(sec, 0)] is the local time with no nanoseconds whose
    [Unix()] is [sec] again. *)
Lemma Unix_seconds (sec : Z) :
  - 2 ^ 63 <= sec < 2 ^ 63 ->
  time.Time_Unix (time.Unix sec 0) = sec
  /\ time.wall (time.Unix sec 0) = 0
  /\ time.loc (time.Unix sec 0) = Some time.Local.
Proof.
  intros Hsec. repeat split.
  unfold time.Unix, time.Time_Unix, time.internalToUnix.
  cbn [orb Z.ltb Z.leb Z.compare time.wall time.ext Z.modulo Z.div_eucl Z.testbit].
  rewrite Z.add_opp_r, int64_shift. now apply int64_small.
Qed.

(* ===================================================================== *)
(** * The lookup sets *)
(* ===================================================================== *)

Lemma elem_of_unitsSet (u : string) : u ∈ unitsSet <-> In u validUnits.
Proof.
  unfold unitsSet, validUnits. rewrite !elem_of_union, !elem_of_singleton.
  simpl. intuition auto.
Qed.

Lemma elem_of_excludesSet (e : string) : e ∈ excludesSet <-> In e validExcludes.
Proof.
  unfold excludesSet, validExcludes. rewrite !elem_of_union, !elem_of_singleton.
  simpl. intuition auto.
Qed.

(** The loop of [Forecast] lets a list through exactly when every entry
    that is not empty is a keyword. *)
Lemma Forecast_excludes_None (ex : list string) :
  APIConn.Forecast_excludes ex = None <->
  (forall e, In e ex -> e = "" \/ In e validExcludes).
Proof.
  induction ex as [|x ex IH]; simpl.
  - split; [intros _ e [] | reflexivity].
  - destruct (String.eqb_spec x "") as [->|Hx].
    + rewrite IH. split.
      * intros Hall e [<-|He]; [now left | now apply Hall].
      * intros Hall e He. apply Hall. now right.
    + case_bool_decide as Hin.
      * rewrite IH. split.
        -- intros Hall e [<-|He]; [right; now apply elem_of_excludesSet | now apply Hall].
        -- intros Hall e He. apply Hall. now right.
      * split; [discriminate|].
        intros Hall. destruct (Hall x) as [->|Hv]; [now left | congruence |].
        exfalso. apply Hin. now apply elem_of_excludesSet.
Qed.

Lemma Forecast_excludes_Some (ex : list string) (err : error) :
  APIConn.Forecast_excludes ex = Some err ->
  err = errors.New "Invalid exclude requested".
Proof.
  induction ex as [|x ex IH]; simpl; [discriminate|].
  destruct (String.eqb x ""); [exact IH|].
  case_bool_decide; [exact IH | congruence].
Qed.

(** The loop of [ForecastAtTime] lets a list through exactly when every
    entry is a keyword. *)
Lemma ForecastAtTime_excludes_None (ex : list string) :
  APIConn.ForecastAtTime_excludes ex = None <->
  (forall e, In e ex -> In e validExcludes).
Proof.
  induction ex as [|x ex IH]; simpl.
  - split; [intros _ e [] | reflexivity].
  - case_bool_decide as Hin.
    + rewrite IH. split.
      * intros Hall e [<-|He]; [now apply elem_of_excludesSet | now apply Hall].
      * intros Hall e He. apply Hall. now right.
    + split; [discriminate|].
      intros Hall. exfalso. apply Hin, elem_of_excludesSet, Hall. now left.
Qed.

Lemma ForecastAtTime_excludes_Some (ex : list string) (err : error) :
  APIConn.ForecastAtTime_excludes ex = Some err ->
  err = errors.New "Invalid exclude requested".
Proof.
  induction ex as [|x ex IH]; simpl; [discriminate|].
  case_bool_decide; [exact IH | congruence].
Qed.

Lemma Forecast_excludes_bad (ex : list string) (err : error) :
  APIConn.Forecast_excludes ex = Some err ->
  exists e, In e ex /\ e <> "" /\ ~ In e validExcludes.
Proof.
  induction ex as [|x ex IH]; simpl; [discriminate|].
  destruct (String.eqb_spec x "") as [->|Hx].
  - intros Hs. destruct (IH Hs) as (e & He & Hne & Hbad). exists e. auto.
  - case_bool_decide as Hin.
    + intros Hs. destruct (IH Hs) as (e & He & Hne & Hbad). exists e. auto.
    + intros _. exists x. repeat split; [now left | exact Hx |].
      intros Hv. now apply Hin, elem_of_excludesSet.
Qed.

Lemma ForecastAtTime_excludes_bad (ex : list string) (err : error) :
  APIConn.ForecastAtTime_excludes ex = Some err ->
  exists e, In e ex /\ ~ In e validExcludes.
Proof.
  induction ex as [|x ex IH]; simpl; [discriminate|].
  case_bool_decide as Hin.
  - intros Hs. destruct (IH Hs) as (e & He & Hbad). exists e. auto.
  - intros _. exists x. split; [now left|].
    intros Hv. now apply Hin, elem_of_excludesSet.
Qed.

(* ===================================================================== *)
(** * The unit mode *)
(* ===================================================================== *)

(** C5. For every string among us, si, ca, uk and auto, [SetUnits] returns
    a nil error and a following [Units] returns that string; for every
    other string [SetUnits] returns the invalid-units error and a
    following [Units] returns what was stored before. *)
Theorem SetUnits_then_Units (a : APIConn.t) (u : string) :
  (In u validUnits ->
   APIConn.result ((err ← APIConn.SetUnits u; now ← APIConn.Units; mret (err, now)) a)
   = Returns (None, u)) /\
  (~ In u validUnits ->
   APIConn.result ((err ← APIConn.SetUnits u; now ← APIConn.Units; mret (err, now)) a)
   = Returns (Some (errors.New "Invalid units requested"), APIConn.units a)).
Proof.
  split; intros Hu.
  - assert (Hin : u ∈ unitsSet) by now apply elem_of_unitsSet.
    unfold APIConn.SetUnits, mbind, APIConn.M_bind, APIConn.bind. simpl.
    unfold APIConn.defer. rewrite (bool_decide_eq_true_2 _ Hin). reflexivity.
  - assert (Hin : u ∉ unitsSet) by (intros Hin; now apply Hu, elem_of_unitsSet).
    unfold APIConn.SetUnits, mbind, APIConn.M_bind, APIConn.bind. simpl.
    unfold APIConn.defer. rewrite (bool_decide_eq_false_2 _ Hin). reflexivity.
Qed.

Lemma SetUnits_then_Units_witness :
  APIConn.result
    ((err ← APIConn.SetUnits "si"; now ← APIConn.Units; mret (err, now)) Stub.fresh)
  = Returns (None, "si") /\
  APIConn.result
    ((err ← APIConn.SetUnits "metric"; now ← APIConn.Units; mret (err, now)) Stub.used)
  = Returns (Some (errors.New "Invalid units requested"), "si").
Proof.
  split.
  - apply (proj1 (SetUnits_then_Units Stub.fresh "si")). simpl. tauto.
  - apply (proj2 (SetUnits_then_Units Stub.used "metric")). simpl.
    intros [H|[H|[H|[H|[H|[]]]]]]; discriminate H.
Defined.

(* ===================================================================== *)
(** * The runs of the fetch operations *)
(* ===================================================================== *)

#[local] Arguments String.append !_ _ / : simpl nomatch.

Lemma append_nil_r (s : string) : s +:+ "" = s.
Proof. induction s as [|c s IH]; cbn; [reflexivity | now f_equal]. Qed.

Lemma append_assoc (s1 s2 s3 : string) : (s1 +:+ s2) +:+ s3 = s1 +:+ (s2 +:+ s3).
Proof. induction s1 as [|c s1 IH]; cbn; [reflexivity | now f_equal]. Qed.

(** The queries the source builds with [Sprintf] are the documented URLs. *)
Lemma Forecast_query (key units : string) (lat lon : float64)
    (excludes : list string) (extendHourly : bool) :
  (let query :=
     fmt.Sprintf "%s/%s/%f,%f?units=%s&exclude=%s"
       [fmt.Str baseURL; fmt.Str key; fmt.Float64 lat; fmt.Float64 lon;
        fmt.Str units; fmt.Str (strings.Join excludes ",")] in
   if extendHourly then query +:+ "&extend=hourly" else query)
  = forecastURL key lat lon None units excludes extendHourly.
Proof.
  unfold forecastURL. cbn [fmt.Sprintf fmt.formatVerb baseURL String.append].
  destruct extendHourly; cbn [String.append];
    repeat (rewrite append_assoc; cbn [String.append]);
    rewrite ?append_nil_r; reflexivity.
Qed.

Lemma ForecastAtTime_query_int (key units : string) (lat lon : float64) (i : Z)
    (excludes : list string) :
  fmt.Sprintf "%s/%s/%f,%f,%d?units=%s&exclude=%s"
    [fmt.Str baseURL; fmt.Str key; fmt.Float64 lat; fmt.Float64 lon; fmt.Int64 i;
     fmt.Str units; fmt.Str (strings.Join excludes ",")]
  = forecastURL key lat lon (Some (strconv.FormatInt i)) units excludes false.
Proof.
  unfold forecastURL. cbn [fmt.Sprintf fmt.formatVerb baseURL String.append].
  repeat (rewrite append_assoc; cbn [String.append]).
  rewrite ?append_nil_r. reflexivity.
Qed.

Lemma ForecastAtTime_query_string (key units : string) (lat lon : float64)
    (s : string) (excludes : list string) :
  fmt.Sprintf "%s/%s/%f,%f,%s?units=%s&exclude=%s"
    [fmt.Str baseURL; fmt.Str key; fmt.Float64 lat; fmt.Float64 lon; fmt.Str s;
     fmt.Str units; fmt.Str (strings.Join excludes ",")]
  = forecastURL key lat lon (Some s) units excludes false.
Proof.
  unfold forecastURL. cbn [fmt.Sprintf fmt.formatVerb baseURL String.append].
  repeat (rewrite append_assoc; cbn [String.append]).
  rewrite ?append_nil_r. reflexivity.
Qed.

Section fetch.
Context `{Runtime}.

(** The three ways the locked part of a fetch can go. *)
Lemma roundTrip_run (query : string) (a : APIConn.t) :
  APIConn.roundTrip query a =
  match http_Get query with
  | inl err =>
      APIConn.mkRun (Returns (None, Some err)) a
        [Lock; HTTPGet query (inl err); Unlock]
  | inr resp =>
      match http.Body resp with
      | inl err =>
          APIConn.mkRun (Returns (None, Some err)) a
            [Lock; HTTPGet query (inr resp); ReadAll (inl err); Unlock]
      | inr body =>
          let d := json_Unmarshal body (Forecast.zero, emptyHeap) in
          APIConn.mkRun (Returns (Some d.1, d.2))
            (APIConn.mk (APIConn.apiKey a)
               (strconv.Atoi (http.Header_Get (http.Header resp) "X-Forecast-API-Calls")).1
               (APIConn.units a))
            [Lock; HTTPGet query (inr resp); ReadAll (inr body); BodyClose;
             Unmarshal body d.2;
             Store F_apiCalls
               (VInt (strconv.Atoi
                        (http.Header_Get (http.Header resp) "X-Forecast-API-Calls")).1);
             Unlock]
      end
  end.
Proof.
  unfold APIConn.roundTrip, APIConn.defer, mbind, APIConn.M_bind, APIConn.bind,
    APIConn.http_Get_ev, APIConn.json_Unmarshal_ev.
  cbn [APIConn.result APIConn.conn APIConn.trace APIConn.emit].
  destruct (http_Get query) as [err|resp]; [reflexivity|].
  cbn [APIConn.result APIConn.conn APIConn.trace APIConn.emit].
  destruct (http.Body resp) as [err|body] eqn:Hbody;
    cbn [APIConn.result APIConn.conn APIConn.trace APIConn.emit];
    rewrite ?Hbody; [reflexivity|].
  destruct (json_Unmarshal body (Forecast.zero, emptyHeap)) as [[f h] e].
  reflexivity.
Qed.

Lemma Forecast_run (lat lon : float64) (ex : list string) (ext : bool)
    (a : APIConn.t) :
  APIConn.Forecast_excludes ex = None ->
  APIConn.Forecast lat lon ex ext a =
  let r := APIConn.roundTrip
             (forecastURL (APIConn.apiKey a) lat lon None (APIConn.units a) ex ext) a in
  APIConn.mkRun (APIConn.result r) (APIConn.conn r)
    (Load F_apiKey (VString (APIConn.apiKey a))
     :: Load F_units (VString (APIConn.units a)) :: APIConn.trace r).
Proof.
  intros Hex. unfold APIConn.Forecast. rewrite Hex.
  unfold mbind, APIConn.M_bind, APIConn.bind, APIConn.load_apiKey, APIConn.load_units.
  cbn [APIConn.result APIConn.conn APIConn.trace].
  rewrite Forecast_query. reflexivity.
Qed.

Lemma Forecast_rejected (lat lon : float64) (ex : list string) (ext : bool)
    (a : APIConn.t) (err : error) :
  APIConn.Forecast_excludes ex = Some err ->
  APIConn.Forecast lat lon ex ext a =
  APIConn.mkRun (Returns (None, Some (errors.New "Invalid exclude requested"))) a [].
Proof.
  intros Hex. unfold APIConn.Forecast. rewrite Hex.
  now rewrite (Forecast_excludes_Some _ _ Hex).
Qed.

Lemma ForecastAtTime_run (lat lon : float64) (d : APIConn.date) (seg : string)
    (ex : list string) (a : APIConn.t) :
  APIConn.ForecastAtTime_excludes ex = None ->
  dateSegment d = Some seg ->
  APIConn.ForecastAtTime lat lon d ex a =
  let r := APIConn.roundTrip
             (forecastURL (APIConn.apiKey a) lat lon (Some seg) (APIConn.units a) ex false) a in
  APIConn.mkRun (APIConn.result r) (APIConn.conn r)
    (Load F_apiKey (VString (APIConn.apiKey a))
     :: Load F_units (VString (APIConn.units a)) :: APIConn.trace r).
Proof.
  intros Hex Hseg. unfold APIConn.ForecastAtTime. rewrite Hex.
  destruct d; simplify_eq/=;
    unfold mbind, mret, APIConn.M_ret, APIConn.ret, APIConn.M_bind, APIConn.bind,
      APIConn.load_apiKey, APIConn.load_units;
    cbn [APIConn.result APIConn.conn APIConn.trace];
    rewrite ?ForecastAtTime_query_int, ?ForecastAtTime_query_string; reflexivity.
Qed.

Lemma ForecastAtTime_rejected (lat lon : float64) (d : APIConn.date)
    (ex : list string) (a : APIConn.t) (err : error) :
  APIConn.ForecastAtTime_excludes ex = Some err ->
  APIConn.ForecastAtTime lat lon d ex a =
  APIConn.mkRun (Returns (None, Some (errors.New "Invalid exclude requested"))) a [].
Proof.
  intros Hex. unfold APIConn.ForecastAtTime. rewrite Hex.
  now rewrite (ForecastAtTime_excludes_Some _ _ Hex).
Qed.

(** With a [date] of dynamic type [int] the call panics at the type
    assertion, after the key has been read. *)
Lemma ForecastAtTime_int_run (lat lon : float64) (i : Z) (ex : list string)
    (a : APIConn.t) :
  APIConn.ForecastAtTime_excludes ex = None ->
  APIConn.ForecastAtTime lat lon (APIConn.DateInt i) ex a =
  APIConn.mkRun (Panics "interface conversion: interface {} is int, not int64") a
    [Load F_apiKey (VString (APIConn.apiKey a))].
Proof.
  intros Hex. unfold APIConn.ForecastAtTime. rewrite Hex. reflexivity.
Qed.

(** With a dynamic type outside the switch the empty query is sent. *)
Lemma ForecastAtTime_other_run (lat lon : float64) (ex : list string)
    (a : APIConn.t) :
  APIConn.ForecastAtTime_excludes ex = None ->
  APIConn.ForecastAtTime lat lon APIConn.DateOther ex a = APIConn.roundTrip "" a.
Proof.
  intros Hex. unfold APIConn.ForecastAtTime. rewrite Hex.
  unfold mbind, mret, APIConn.M_ret, APIConn.ret, APIConn.M_bind, APIConn.bind.
  cbn [APIConn.result APIConn.conn APIConn.trace app].
  now destruct (APIConn.roundTrip "" a).
Qed.

End fetch.

(** The trace of the locked part begins with [Lock] and the request. *)
Lemma roundTrip_trace `{Runtime} (query : string) (a : APIConn.t) :
  exists rest,
    APIConn.trace (APIConn.roundTrip query a)
    = Lock :: HTTPGet query (http_Get query) :: rest
    /\ requests rest = [].
Proof.
  rewrite roundTrip_run.
  destruct (http_Get query) as [err|resp]; [eexists; split; reflexivity|].
  destruct (http.Body resp); eexists; split; reflexivity.
Qed.

Ltac fetch_cases Hex :=
  match goal with
  | |- context [APIConn.Forecast ?lat ?lon ?ex ?ext ?a] =>
      destruct (APIConn.Forecast_excludes ex) as [?e|] eqn:Hex;
      [ rewrite (Forecast_rejected lat lon ex ext a _ Hex)
      | rewrite (Forecast_run lat lon ex ext a Hex) ]
  | |- context [APIConn.ForecastAtTime ?lat ?lon ?d ?ex ?a] =>
      destruct (APIConn.ForecastAtTime_excludes ex) as [?e|] eqn:Hex;
      [ rewrite (ForecastAtTime_rejected lat lon d ex a _ Hex)
      | destruct d;
        [ erewrite ForecastAtTime_run; [| exact Hex | reflexivity]
        | rewrite (ForecastAtTime_int_run lat lon _ ex a Hex)
        | erewrite ForecastAtTime_run; [| exact Hex | reflexivity]
        | erewrite ForecastAtTime_run; [| exact Hex | reflexivity]
        | rewrite (ForecastAtTime_other_run lat lon ex a Hex) ] ]
  end.

(* ===================================================================== *)
(** * Validation of the exclude list *)
(* ===================================================================== *)

(** C4. [Forecast] skips empty entries: it returns the invalid-exclude
    error without a request exactly when the list has a non-empty entry
    that is not a keyword. [ForecastAtTime] returns that error without a
    request exactly when the list has an entry that is not a keyword, the
    empty string included. *)
Theorem exclude_validation `{Runtime} (lat lon : float64) (d : APIConn.date)
    (ex : list string) (ext : bool) (a : APIConn.t) :
  ((APIConn.result (APIConn.Forecast lat lon ex ext a)
      = Returns (None, Some (errors.New "Invalid exclude requested"))
    /\ requests (APIConn.trace (APIConn.Forecast lat lon ex ext a)) = [])
   <-> exists e, In e ex /\ e <> "" /\ ~ In e validExcludes)
  /\
  ((APIConn.result (APIConn.ForecastAtTime lat lon d ex a)
      = Returns (None, Some (errors.New "Invalid exclude requested"))
    /\ requests (APIConn.trace (APIConn.ForecastAtTime lat lon d ex a)) = [])
   <-> exists e, In e ex /\ ~ In e validExcludes).
Proof.
  split.
  - fetch_cases Hex.
    + split; [intros _ | intros _; split; reflexivity].
      exact (Forecast_excludes_bad ex _ Hex).
    + cbn [APIConn.result APIConn.trace].
      destruct (roundTrip_trace (forecastURL (APIConn.apiKey a) lat lon None
                  (APIConn.units a) ex ext) a) as (rest & -> & _).
      split; [intros [_ Hreq]; discriminate Hreq|].
      intros (e & He & Hne & Hbad). exfalso.
      destruct (proj1 (Forecast_excludes_None ex) Hex e He); contradiction.
  - assert (Hok : (exists e, In e ex /\ ~ In e validExcludes) ->
                  APIConn.ForecastAtTime_excludes ex <> None).
    { intros (e & He & Hbad) Hex.
      exact (Hbad (proj1 (ForecastAtTime_excludes_None ex) Hex e He)). }
    fetch_cases Hex; cbn [APIConn.result APIConn.trace].
    + split; [intros _ | intros _; split; reflexivity].
      exact (ForecastAtTime_excludes_bad ex _ Hex).
    + match goal with |- context [APIConn.roundTrip ?q a] =>
        destruct (roundTrip_trace q a) as (rest & -> & _) end.
      split; [intros [_ Hreq]; discriminate Hreq | intros Hb; now destruct (Hok Hb)].
    + split; [intros [Hres _]; discriminate Hres | intros Hb; now destruct (Hok Hb)].
    + match goal with |- context [APIConn.roundTrip ?q a] =>
        destruct (roundTrip_trace q a) as (rest & -> & _) end.
      split; [intros [_ Hreq]; discriminate Hreq | intros Hb; now destruct (Hok Hb)].
    + match goal with |- context [APIConn.roundTrip ?q a] =>
        destruct (roundTrip_trace q a) as (rest & -> & _) end.
      split; [intros [_ Hreq]; discriminate Hreq | intros Hb; now destruct (Hok Hb)].
    + destruct (roundTrip_trace "" a) as (rest & -> & _).
      split; [intros [_ Hreq]; discriminate Hreq | intros Hb; now destruct (Hok Hb)].
Qed.

(* ===================================================================== *)
(** * Failures of the transport and of the decoder *)
(* ===================================================================== *)

(** What follows from an [HTTPGet] event in a trace made of two loads and
    the locked part. *)
Lemma roundTrip_event `{Runtime} (query url : string) (a : APIConn.t)
    (r : error + http.Response) (k u : value) :
  In (HTTPGet url r)
     (Load F_apiKey k :: Load F_units u :: APIConn.trace (APIConn.roundTrip query a)) ->
  In (HTTPGet url r) (APIConn.trace (APIConn.roundTrip query a)).
Proof. intros [Hd|[Hd|Hin]]; [discriminate Hd | discriminate Hd | exact Hin]. Qed.

Lemma roundTrip_failed `{Runtime} (query url : string) (a : APIConn.t) (err : error) :
  In (HTTPGet url (inl err)) (APIConn.trace (APIConn.roundTrip query a)) ->
  APIConn.roundTrip query a
  = APIConn.mkRun (Returns (None, Some err)) a [Lock; HTTPGet query (inl err); Unlock].
Proof.
  rewrite roundTrip_run.
  destruct (http_Get query) as [e|resp].
  - intros [Hd|[Hd|[Hd|[]]]]; try discriminate Hd. now simplify_eq.
  - destruct (http.Body resp); simpl; intros Hin;
      repeat (destruct Hin as [Hd|Hin]; [discriminate Hd|]); destruct Hin.
Qed.

Lemma roundTrip_answered `{Runtime} (query url : string) (a : APIConn.t)
    (resp : http.Response) :
  In (HTTPGet url (inr resp)) (APIConn.trace (APIConn.roundTrip query a)) ->
  http_Get query = inr resp.
Proof.
  rewrite roundTrip_run.
  destruct (http_Get query) as [e|resp'].
  - intros [Hd|[Hd|[Hd|[]]]]; discriminate Hd.
  - destruct (http.Body resp'); simpl; intros Hin;
      repeat (destruct Hin as [Hd|Hin]; [try discriminate Hd; now simplify_eq|]);
      destruct Hin.
Qed.

(** C6. When the GET of a fetch fails, the fetch returns a nil [*Forecast]
    and the very error of the transport, nothing is handed to the JSON
    decoder, and the call counter of the connection is what it was. *)
Theorem transport_failure `{Runtime} (lat lon : float64) (d : APIConn.date)
    (ex : list string) (ext : bool) (a : APIConn.t) (url : string) (err : error) :
  (In (HTTPGet url (inl err)) (APIConn.trace (APIConn.Forecast lat lon ex ext a)) ->
   APIConn.result (APIConn.Forecast lat lon ex ext a) = Returns (None, Some err)
   /\ decodings (APIConn.trace (APIConn.Forecast lat lon ex ext a)) = []
   /\ APIConn.apiCalls (APIConn.conn (APIConn.Forecast lat lon ex ext a))
      = APIConn.apiCalls a)
  /\
  (In (HTTPGet url (inl err)) (APIConn.trace (APIConn.ForecastAtTime lat lon d ex a)) ->
   APIConn.result (APIConn.ForecastAtTime lat lon d ex a) = Returns (None, Some err)
   /\ decodings (APIConn.trace (APIConn.ForecastAtTime lat lon d ex a)) = []
   /\ APIConn.apiCalls (APIConn.conn (APIConn.ForecastAtTime lat lon d ex a))
      = APIConn.apiCalls a).
Proof.
  split.
  - fetch_cases Hex; cbn [APIConn.result APIConn.trace APIConn.conn].
    + intros [].
    + intros Hin. apply roundTrip_event in Hin.
      rewrite (roundTrip_failed _ _ _ _ Hin). repeat split.
  - fetch_cases Hex; cbn [APIConn.result APIConn.trace APIConn.conn];
      try (intros Hin; apply roundTrip_event in Hin;
           rewrite (roundTrip_failed _ _ _ _ Hin); repeat split).
    + intros [].
    + intros [Hd|[]]. discriminate Hd.
    + intros Hin. rewrite (roundTrip_failed _ _ _ _ Hin). repeat split.
Qed.

Lemma transport_failure_witness :
  let rt := Stub.runtime (inl Stub.refused) None in
  let r1 := @APIConn.Forecast rt Stub.lat Stub.lon ["hourly"] false Stub.used in
  let r2 := @APIConn.ForecastAtTime rt Stub.lat Stub.lon
              (APIConn.DateString "2013-05-06T12:00:00-0400") ["hourly"] Stub.used in
  (APIConn.result r1 = Returns (None, Some Stub.refused)
   /\ decodings (APIConn.trace r1) = []
   /\ APIConn.apiCalls (APIConn.conn r1) = 42)
  /\
  (APIConn.result r2 = Returns (None, Some Stub.refused)
   /\ decodings (APIConn.trace r2) = []
   /\ APIConn.apiCalls (APIConn.conn r2) = 42).
Proof.
  intros rt r1 r2. split.
  - apply (proj1 (@transport_failure rt Stub.lat Stub.lon APIConn.DateOther
                    ["hourly"] false Stub.used
                    "https://api.forecast.io/forecast/KEY/37.826700,-122.423000?units=si&exclude=hourly"
                    Stub.refused)).
    vm_compute. tauto.
  - apply (proj2 (@transport_failure rt Stub.lat Stub.lon
                    (APIConn.DateString "2013-05-06T12:00:00-0400")
                    ["hourly"] false Stub.used
                    "https://api.forecast.io/forecast/KEY/37.826700,-122.423000,2013-05-06T12:00:00-0400?units=si&exclude=hourly"
                    Stub.refused)).
    vm_compute. tauto.
Defined.

(** C3. When the request of a fetch is answered and the body is read but
    does not decode, the fetch returns a non-nil [*Forecast], holding
    whatever the decoder filled in, together with the decoder's error. *)
Theorem parse_failure `{Runtime} (lat lon : float64) (d : APIConn.date)
    (ex : list string) (ext : bool) (a : APIConn.t) (url : string)
    (resp : http.Response) (body : string) (err : error) :
  http.Body resp = inr body ->
  (json_Unmarshal body (Forecast.zero, emptyHeap)).2 = Some err ->
  (In (HTTPGet url (inr resp)) (APIConn.trace (APIConn.Forecast lat lon ex ext a)) ->
   APIConn.result (APIConn.Forecast lat lon ex ext a)
   = Returns (Some (json_Unmarshal body (Forecast.zero, emptyHeap)).1, Some err))
  /\
  (In (HTTPGet url (inr resp)) (APIConn.trace (APIConn.ForecastAtTime lat lon d ex a)) ->
   APIConn.result (APIConn.ForecastAtTime lat lon d ex a)
   = Returns (Some (json_Unmarshal body (Forecast.zero, emptyHeap)).1, Some err)).
Proof.
  intros Hbody Herr.
  assert (Hrt : forall q, In (HTTPGet url (inr resp)) (APIConn.trace (APIConn.roundTrip q a)) ->
            APIConn.result (APIConn.roundTrip q a)
            = Returns (Some (json_Unmarshal body (Forecast.zero, emptyHeap)).1, Some err)).
  { intros q Hin. apply roundTrip_answered in Hin.
    rewrite roundTrip_run, Hin, Hbody. cbn. now rewrite Herr. }
  split.
  - fetch_cases Hex; cbn [APIConn.result APIConn.trace].
    + intros [].
    + intros Hin. apply roundTrip_event in Hin. now apply Hrt.
  - fetch_cases Hex; cbn [APIConn.result APIConn.trace];
      try (intros Hin; apply roundTrip_event in Hin; now apply Hrt).
    + intros [].
    + intros [Hd|[]]. discriminate Hd.
    + apply Hrt.
Qed.

Lemma parse_failure_witness :
  let resp := http.mkResponse (Stub.calls "42") (inr "{") in
  let rt := Stub.runtime (inr resp) (Some Stub.badJSON) in
  APIConn.result (@APIConn.Forecast rt Stub.lat Stub.lon [] true Stub.fresh)
  = Returns (Some (Forecast.zero, emptyHeap), Some Stub.badJSON)
  /\
  APIConn.result (@APIConn.ForecastAtTime rt Stub.lat Stub.lon
                    (APIConn.DateInt64 1609459200) [] Stub.fresh)
  = Returns (Some (Forecast.zero, emptyHeap), Some Stub.badJSON).
Proof.
  intros resp rt. split.
  - apply (proj1 (@parse_failure rt Stub.lat Stub.lon APIConn.DateOther [] true
                    Stub.fresh
                    "https://api.forecast.io/forecast/KEY/37.826700,-122.423000?units=auto&exclude=&extend=hourly"
                    resp "{" Stub.badJSON eq_refl eq_refl)).
    vm_compute. tauto.
  - apply (proj2 (@parse_failure rt Stub.lat Stub.lon (APIConn.DateInt64 1609459200)
                    [] true Stub.fresh
                    "https://api.forecast.io/forecast/KEY/37.826700,-122.423000,1609459200?units=auto&exclude="
                    resp "{" Stub.badJSON eq_refl eq_refl)).
    vm_compute. tauto.
Defined.

(* ===================================================================== *)
(** * The requested URL *)
(* ===================================================================== *)

(** C9. A call of [Forecast] whose exclude list passes validation sends
    one request, to the base endpoint followed by [/apiKey/lat,lon] with
    both coordinates in the [%f] format, the query parameter [units] with
    the unit mode of the connection, the query parameter [exclude] with
    the exclude list joined by commas, and [&extend=hourly] at the end if
    and only if [extendHourly] is set. *)
Theorem Forecast_URL `{Runtime} (lat lon : float64) (ex : list string)
    (extendHourly : bool) (a : APIConn.t) :
  (forall e, In e ex -> e = "" \/ In e validExcludes) ->
  requests (APIConn.trace (APIConn.Forecast lat lon ex extendHourly a))
  = [ "https://api.forecast.io/forecast" +:+ "/" +:+ APIConn.apiKey a +:+ "/"
        +:+ strconv.FormatFloat lat +:+ "," +:+ strconv.FormatFloat lon
        +:+ "?units=" +:+ APIConn.units a
        +:+ "&exclude=" +:+ strings.Join ex ","
        +:+ (if extendHourly then "&extend=hourly" else "") ].
Proof.
  intros Hok. apply Forecast_excludes_None in Hok.
  rewrite (Forecast_run lat lon ex extendHourly a Hok).
  cbn [APIConn.trace].
  destruct (roundTrip_trace (forecastURL (APIConn.apiKey a) lat lon None
              (APIConn.units a) ex extendHourly) a) as (rest & -> & Hrest).
  cbn [requests flat_map app]. fold (requests rest). rewrite Hrest.
  reflexivity.
Qed.

Lemma Forecast_URL_witness :
  requests (APIConn.trace
              (@APIConn.Forecast (Stub.runtime (inl Stub.refused) None)
                 Stub.lat Stub.lon ["minutely"; ""; "flags"] true Stub.used))
  = [ "https://api.forecast.io/forecast/KEY/37.826700,-122.423000?units=si&exclude=minutely,,flags&extend=hourly" ].
Proof.
  apply (@Forecast_URL (Stub.runtime (inl Stub.refused) None)
           Stub.lat Stub.lon ["minutely"; ""; "flags"] true Stub.used).
  simpl. intros e [<-|[<-|[<-|[]]]]; [right | left | right]; simpl; tauto.
Defined.

(** The sibling for [ForecastAtTime]: with a date that is a [time.Time],
    an [int64] or a string, the time segment follows the coordinates. *)
Lemma ForecastAtTime_URL `{Runtime} (lat lon : float64) (d : APIConn.date)
    (seg : string) (ex : list string) (a : APIConn.t) :
  (forall e, In e ex -> In e validExcludes) ->
  dateSegment d = Some seg ->
  requests (APIConn.trace (APIConn.ForecastAtTime lat lon d ex a))
  = [ forecastURL (APIConn.apiKey a) lat lon (Some seg) (APIConn.units a) ex false ].
Proof.
  intros Hok Hseg. apply ForecastAtTime_excludes_None in Hok.
  rewrite (ForecastAtTime_run lat lon d seg ex a Hok Hseg).
  cbn [APIConn.trace].
  destruct (roundTrip_trace (forecastURL (APIConn.apiKey a) lat lon (Some seg)
              (APIConn.units a) ex false) a) as (rest & -> & Hrest).
  cbn [requests flat_map app]. fold (requests rest). rewrite Hrest.
  reflexivity.
Qed.

(** C2, as the code has it. A [date] whose dynamic type is [int] is
    matched by [case int, int64] and then asserted to be an [int64]: the
    call panics before any request is sent, whatever the integer. *)
Theorem ForecastAtTime_int_panics `{Runtime} (lat lon : float64) (i : Z)
    (ex : list string) (a : APIConn.t) :
  (forall e, In e ex -> In e validExcludes) ->
  APIConn.result (APIConn.ForecastAtTime lat lon (APIConn.DateInt i) ex a)
  = Panics "interface conversion: interface {} is int, not int64"
  /\ requests (APIConn.trace (APIConn.ForecastAtTime lat lon (APIConn.DateInt i) ex a)) = [].
Proof.
  intros Hok. apply ForecastAtTime_excludes_None in Hok.
  rewrite (ForecastAtTime_int_run lat lon i ex a Hok). split; reflexivity.
Qed.

Lemma ForecastAtTime_int_panics_witness :
  let r := @APIConn.ForecastAtTime (Stub.runtime (inl Stub.refused) None)
             Stub.lat Stub.lon (APIConn.DateInt 1609459200) ["hourly"] Stub.fresh in
  APIConn.result r = Panics "interface conversion: interface {} is int, not int64"
  /\ requests (APIConn.trace r) = [].
Proof.
  apply (@ForecastAtTime_int_panics (Stub.runtime (inl Stub.refused) None)
           Stub.lat Stub.lon 1609459200 ["hourly"] Stub.fresh).
  simpl. intros e [<-|[]]. tauto.
Defined.

(** The same integer as an [int64] is accepted and sent in decimal. *)
Example ForecastAtTime_int64_accepted :
  requests (APIConn.trace
              (@APIConn.ForecastAtTime (Stub.runtime (inl Stub.refused) None)
                 Stub.lat Stub.lon (APIConn.DateInt64 1609459200) ["hourly"] Stub.fresh))
  = [ "https://api.forecast.io/forecast/KEY/37.826700,-122.423000,1609459200?units=auto&exclude=hourly" ].
Proof. vm_compute. reflexivity. Qed.

(* ===================================================================== *)
(** * The span of the lock *)
(* ===================================================================== *)

(** [SetUnits], [Units] and [APICalls] touch the fields under a lock. *)
Lemma accessors_locked (u : string) (a : APIConn.t) :
  unlockedAccesses false (APIConn.trace (APIConn.SetUnits u a)) = []
  /\ unlockedAccesses false (APIConn.trace (APIConn.Units a)) = []
  /\ unlockedAccesses false (APIConn.trace (APIConn.APICalls a)) = [].
Proof.
  repeat split; try reflexivity.
  unfold APIConn.SetUnits, APIConn.defer, mbind, APIConn.M_bind, APIConn.bind.
  cbn [APIConn.result APIConn.conn APIConn.trace APIConn.emit].
  case_bool_decide; reflexivity.
Qed.

(** The locked part of a fetch makes no access without the lock. *)
Lemma roundTrip_locked `{Runtime} (query : string) (a : APIConn.t) :
  exists rest,
    APIConn.trace (APIConn.roundTrip query a) = Lock :: rest
    /\ unlockedAccesses true rest = [].
Proof.
  rewrite roundTrip_run.
  destruct (http_Get query) as [err|resp]; [eexists; split; reflexivity|].
  destruct (http.Body resp); eexists; split; reflexivity.
Qed.

(** C10, as the code has it. Both fetch operations read [a.apiKey] and
    [a.units] to build the URL before they take the lock: the trace of a
    fetch that passes validation starts with the two loads, [Lock] comes
    third, and the two loads are the accesses the fetch makes without
    holding the lock. *)
Theorem units_read_before_Lock `{Runtime} (lat lon : float64) (d : APIConn.date)
    (seg : string) (ex : list string) (extendHourly : bool) (a : APIConn.t) :
  (forall e, In e ex -> In e validExcludes) ->
  dateSegment d = Some seg ->
  let loads := [Load F_apiKey (VString (APIConn.apiKey a));
                Load F_units (VString (APIConn.units a))] in
  ((exists rest,
      APIConn.trace (APIConn.Forecast lat lon ex extendHourly a)
      = (loads ++ Lock :: rest)%list)
   /\ unlockedAccesses false (APIConn.trace (APIConn.Forecast lat lon ex extendHourly a))
      = loads)
  /\
  ((exists rest,
      APIConn.trace (APIConn.ForecastAtTime lat lon d ex a)
      = (loads ++ Lock :: rest)%list)
   /\ unlockedAccesses false (APIConn.trace (APIConn.ForecastAtTime lat lon d ex a))
      = loads).
Proof.
  intros Hok Hseg loads. subst loads. split.
  - assert (Hex : APIConn.Forecast_excludes ex = None)
      by (apply Forecast_excludes_None; intros e He; right; now apply Hok).
    rewrite (Forecast_run lat lon ex extendHourly a Hex). cbn [APIConn.trace].
    destruct (roundTrip_locked (forecastURL (APIConn.apiKey a) lat lon None
                (APIConn.units a) ex extendHourly) a) as (rest & -> & Hrest).
    split; [eexists; reflexivity|].
    cbn [unlockedAccesses]. now rewrite Hrest.
  - apply ForecastAtTime_excludes_None in Hok.
    rewrite (ForecastAtTime_run lat lon d seg ex a Hok Hseg). cbn [APIConn.trace].
    destruct (roundTrip_locked (forecastURL (APIConn.apiKey a) lat lon (Some seg)
                (APIConn.units a) ex false) a) as (rest & -> & Hrest).
    split; [eexists; reflexivity|].
    cbn [unlockedAccesses]. now rewrite Hrest.
Qed.

Lemma units_read_before_Lock_witness :
  let rt := Stub.runtime (inr (http.mkResponse (Stub.calls "42") (inr "{}"))) None in
  let loads := [Load F_apiKey (VString "KEY"); Load F_units (VString "auto")] in
  let r1 := @APIConn.Forecast rt Stub.lat Stub.lon ["hourly"] false Stub.fresh in
  let r2 := @APIConn.ForecastAtTime rt Stub.lat Stub.lon
              (APIConn.DateInt64 1609459200) ["hourly"] Stub.fresh in
  ((exists rest, APIConn.trace r1 = (loads ++ Lock :: rest)%list)
   /\ unlockedAccesses false (APIConn.trace r1) = loads)
  /\
  ((exists rest, APIConn.trace r2 = (loads ++ Lock :: rest)%list)
   /\ unlockedAccesses false (APIConn.trace r2) = loads).
Proof.
  apply (@units_read_before_Lock
           (Stub.runtime (inr (http.mkResponse (Stub.calls "42") (inr "{}"))) None)
           Stub.lat Stub.lon (APIConn.DateInt64 1609459200) "1609459200"
           ["hourly"] false Stub.fresh).
  - simpl. intros e [<-|[]]. tauto.
  - vm_compute. reflexivity.
Defined.

(* ===================================================================== *)
(** * Two goroutines on one connection *)
(* ===================================================================== *)

Lemma eventsOf_app (g : goroutine) (s1 s2 : list (goroutine * event)) :
  eventsOf g (s1 ++ s2) = (eventsOf g s1 ++ eventsOf g s2)%list.
Proof. unfold eventsOf. now rewrite flat_map_app. Qed.

Lemma eventsOf_same (g : goroutine) (tr : list event) :
  eventsOf g (map (pair g) tr) = tr.
Proof.
  induction tr as [|e tr IH]; [reflexivity|].
  cbn. rewrite decide_True by reflexivity. cbn. f_equal. exact IH.
Qed.

Lemma eventsOf_other (g g' : goroutine) (tr : list event) :
  g' <> g -> eventsOf g (map (pair g') tr) = [].
Proof.
  intros Hne. induction tr as [|e tr IH]; [reflexivity|].
  cbn. rewrite decide_False by exact Hne. exact IH.
Qed.

(** The locked part of a fetch, run by one goroutine from a free mutex,
    goes through and leaves the mutex free, whatever the units are. *)
Lemma execute_roundTrip `{Runtime} (g : goroutine) (query : string) (a : APIConn.t) :
  execute (map (pair g) (APIConn.trace (APIConn.roundTrip query a))) Free a
  = Some (Free, APIConn.conn (APIConn.roundTrip query a)).
Proof.
  rewrite roundTrip_run.
  destruct (http_Get query) as [err|resp];
    [cbn; now rewrite decide_True by reflexivity|].
  destruct (http.Body resp) as [err|body];
    cbn; now rewrite decide_True by reflexivity.
Qed.

(** While one goroutine is between its read of [a.units] and its
    [a.Lock()] in [Forecast], another can run [SetUnits] from beginning to
    end: the schedule below has the events of either call as its own, no
    event has to wait, and the request that follows still carries the
    units read before the change. *)
Lemma SetUnits_inside_Forecast `{Runtime} (lat lon : float64) (ex : list string)
    (extendHourly : bool) (a : APIConn.t) (u : string) :
  (forall e, In e ex -> e = "" \/ In e validExcludes) ->
  In u validUnits ->
  let changed := APIConn.mk (APIConn.apiKey a) (APIConn.apiCalls a) u in
  let fetch := APIConn.Forecast lat lon ex extendHourly a in
  exists locked,
    APIConn.trace fetch
    = Load F_apiKey (VString (APIConn.apiKey a))
        :: Load F_units (VString (APIConn.units a)) :: locked
    /\ let s := ([(G1, Load F_apiKey (VString (APIConn.apiKey a)));
                  (G1, Load F_units (VString (APIConn.units a)))]
                 ++ map (pair G2) (APIConn.trace (APIConn.SetUnits u a))
                 ++ map (pair G1) locked)%list in
       eventsOf G1 s = APIConn.trace fetch
       /\ eventsOf G2 s = APIConn.trace (APIConn.SetUnits u a)
       /\ execute s Free a
          = Some (Free, APIConn.conn
                          (APIConn.roundTrip
                             (forecastURL (APIConn.apiKey a) lat lon None
                                (APIConn.units a) ex extendHourly) changed)).
Proof.
  intros Hok Hu changed fetch. subst fetch.
  apply Forecast_excludes_None in Hok.
  rewrite (Forecast_run lat lon ex extendHourly a Hok). cbn [APIConn.trace].
  set (q := forecastURL (APIConn.apiKey a) lat lon None (APIConn.units a) ex extendHourly).
  exists (APIConn.trace (APIConn.roundTrip q a)). split; [reflexivity|].
  assert (HS : APIConn.trace (APIConn.SetUnits u a) = [Lock; Store F_units (VString u); Unlock]).
  { unfold APIConn.SetUnits, APIConn.defer, mbind, APIConn.M_bind, APIConn.bind.
    cbn [APIConn.result APIConn.conn APIConn.trace APIConn.emit].
    rewrite bool_decide_eq_true_2 by now apply elem_of_unitsSet. reflexivity. }
  assert (HT : APIConn.trace (APIConn.roundTrip q a) = APIConn.trace (APIConn.roundTrip q changed)).
  { rewrite !roundTrip_run. destruct (http_Get q) as [err|resp]; [reflexivity|].
    destruct (http.Body resp); reflexivity. }
  rewrite HS. cbv zeta. repeat split.
  - change (?x :: ?y :: ?l) with (map (pair G1) [Load F_apiKey (VString (APIConn.apiKey a));
                                                Load F_units (VString (APIConn.units a))] ++ l)%list
      at 1.
    rewrite !eventsOf_app, !eventsOf_same, eventsOf_other by discriminate. reflexivity.
  - change (?x :: ?y :: ?l) with (map (pair G1) [Load F_apiKey (VString (APIConn.apiKey a));
                                                Load F_units (VString (APIConn.units a))] ++ l)%list
      at 1.
    rewrite !eventsOf_app, eventsOf_same, !eventsOf_other by discriminate. reflexivity.
  - cbn [app map execute step fieldValue setField fmap option_fmap option_map].
    repeat (rewrite decide_True by reflexivity;
            cbn [execute step setField fmap option_fmap option_map]).
    fold changed. rewrite HT. apply execute_roundTrip.
Qed.

(* ===================================================================== *)
(** * Atoi on decimal integers *)
(* ===================================================================== *)

Lemma isDigit_range (c : ascii) :
  strconv.isDigit c = true -> 0 <= strconv.byteVal c - 48 <= 9.
Proof. unfold strconv.isDigit. lia. Qed.

Lemma digitsValue_ge (s : string) (n : Z) :
  allDigits s = true -> 0 <= n -> n <= digitsValue s n.
Proof.
  revert n. induction s as [|c s IH]; intros n Hd Hn; simpl in *; [lia|].
  apply andb_prop in Hd as [Hc Hs]. apply isDigit_range in Hc.
  specialize (IH (n * 10 + (strconv.byteVal c - 48)) Hs). lia.
Qed.

Lemma atoiFast_digits (s : string) (n : Z) :
  allDigits s = true -> strconv.atoiFast s n = Some (digitsValue s n).
Proof.
  revert n. induction s as [|c s IH]; intros n Hd; simpl in *; [reflexivity|].
  apply andb_prop in Hd as [-> Hs]. now apply IH.
Qed.

Lemma atoiFast_other (s : string) (n : Z) :
  allDigits s = false -> strconv.atoiFast s n = None.
Proof.
  revert n. induction s as [|c s IH]; intros n Hd; simpl in *; [discriminate|].
  destruct (strconv.isDigit c); [now apply IH | reflexivity].
Qed.

Lemma parseUintLoop_digits (s : string) (n : Z) :
  allDigits s = true -> 0 <= n -> digitsValue s n <= strconv.maxUint64 ->
  strconv.parseUintLoop s n = (digitsValue s n, None).
Proof.
  revert n. induction s as [|c s IH]; intros n Hd Hn Hmax; simpl in *; [reflexivity|].
  apply andb_prop in Hd as [Hc Hs]. rewrite Hc. simpl.
  apply isDigit_range in Hc.
  pose proof (digitsValue_ge s (n * 10 + (strconv.byteVal c - 48)) Hs ltac:(lia)) as Hge.
  unfold strconv.maxUint64 in *.
  change (2 ^ 64) with 18446744073709551616 in *.
  change ((18446744073709551616 - 1) / 10 + 1) with 1844674407370955162.
  destruct (Z.leb_spec 1844674407370955162 n); [lia|].
  rewrite (Z.mod_small (n * 10)) by lia.
  rewrite (Z.mod_small (n * 10 + _)) by lia.
  destruct (Z.ltb_spec (n * 10 + (strconv.byteVal c - 48)) (n * 10)); [lia|].
  destruct (Z.ltb_spec (18446744073709551616 - 1) (n * 10 + (strconv.byteVal c - 48))); [lia|].
  simpl. apply IH; [exact Hs | lia | exact Hmax].
Qed.

Lemma parseUintLoop_syntax (s : string) (n : Z) :
  allDigits s = false -> 0 <= n ->
  (n + 1) * 10 ^ Z.of_nat (String.length s) <= 10 ^ 19 ->
  strconv.parseUintLoop s n = (0, Some ErrSyntax).
Proof.
  revert n. induction s as [|c s IH]; intros n Hd Hn Hlen; [discriminate|].
  cbn [strconv.parseUintLoop]. cbn [allDigits] in Hd.
  destruct (strconv.isDigit c) eqn:Hc; [|reflexivity].
  simpl in Hd. cbn [negb]. apply isDigit_range in Hc.
  cbn [String.length] in Hlen. rewrite Nat2Z.inj_succ, Z.pow_succ_r in Hlen by lia.
  assert (Hpow : 0 < 10 ^ Z.of_nat (String.length s)) by (apply Z.pow_pos_nonneg; lia).
  assert (Hn10 : (n + 1) * 10 <= 10 ^ 19) by nia.
  unfold strconv.maxUint64.
  change (2 ^ 64) with 18446744073709551616 in *.
  change (10 ^ 19) with 10000000000000000000 in *.
  change ((18446744073709551616 - 1) / 10 + 1) with 1844674407370955162.
  destruct (Z.leb_spec 1844674407370955162 n); [lia|].
  rewrite (Z.mod_small (n * 10)) by lia.
  rewrite (Z.mod_small (n * 10 + _)) by lia.
  destruct (Z.ltb_spec (n * 10 + (strconv.byteVal c - 48)) (n * 10)); [lia|].
  destruct (Z.ltb_spec (18446744073709551616 - 1) (n * 10 + (strconv.byteVal c - 48))); [lia|].
  cbn [orb]. apply IH; [exact Hd | lia | nia].
Qed.

Lemma length_lt_1 (s : string) : (String.length s <? 1)%nat = true -> s = "".
Proof. destruct s; [reflexivity | discriminate]. Qed.

(** [Atoi] on a decimal integer within the range of [int]. *)
Lemma Atoi_decimal (v : string) :
  isDecimal v = true ->
  strconv.minInt <= decimalValue v <= strconv.maxInt ->
  strconv.Atoi v = (decimalValue v, None).
Proof.
  destruct v as [|c rest]; [discriminate|].
  unfold isDecimal, decimalValue, strconv.Atoi, strconv.ParseInt, strconv.ParseUint.
  cbn [unsignedPart].
  unfold strconv.minInt, strconv.maxInt, strconv.IntSize.
  change (2 ^ (64 - 1)) with 9223372036854775808.
  set (body := if Ascii.eqb c "-" || Ascii.eqb c "+" then rest else String c rest).
  assert (Hbody : (if Ascii.eqb c "+" || Ascii.eqb c "-" then rest else String c rest) = body).
  { unfold body. now rewrite orb_comm. }
  rewrite Hbody.
  intros Hdec Hrange.
  assert (Hne : body <> "") by (intros E; rewrite E in Hdec; discriminate).
  assert (Hall : allDigits body = true) by (destruct body; [congruence | exact Hdec]).
  assert (Hval : decimalValue (String c rest)
                 = if Ascii.eqb c "-" then - digitsValue body 0 else digitsValue body 0).
  { unfold decimalValue, body. cbn [unsignedPart].
    destruct (Ascii.eqb c "-"); reflexivity. }
  assert (Hrest : Ascii.eqb c "-" = true -> rest = body).
  { intros E. unfold body. now rewrite E. }
  pose proof (digitsValue_ge body 0 Hall ltac:(lia)) as Hge.
  destruct ((0 <? Z.of_nat (String.length (String c rest)))
            && (Z.of_nat (String.length (String c rest)) <? 19)).
  - destruct (Ascii.eqb c "-" || Ascii.eqb c "+") eqn:Hsigned; cbn [andb].
    + destruct (String.length body <? 1)%nat eqn:Hl;
        [apply length_lt_1 in Hl; contradiction|].
      rewrite (atoiFast_digits body 0 Hall). cbn.
      destruct (Ascii.eqb c "-") eqn:Hm; [rewrite (Hrest eq_refl)|]; reflexivity.
    + rewrite (atoiFast_digits body 0 Hall). cbn.
      apply orb_false_elim in Hsigned as [-> _]. reflexivity.
  - destruct (Ascii.eqb c "-") eqn:Hm.
    + rewrite (Hrest eq_refl) in *.
      destruct body as [|b body']; [congruence|].
      rewrite (parseUintLoop_digits (String b body') 0 Hall ltac:(lia))
        by (unfold strconv.maxUint64; lia).
      cbn [negb andb fst snd].
      destruct (Z.ltb_spec 9223372036854775808 (digitsValue (String b body') 0)); [lia|].
      reflexivity.
    + destruct body as [|b body']; [congruence|].
      rewrite (parseUintLoop_digits (String b body') 0 Hall ltac:(lia))
        by (unfold strconv.maxUint64; lia).
      cbn [negb andb fst snd].
      destruct (Z.leb_spec 9223372036854775808 (digitsValue (String b body') 0)); [lia|].
      reflexivity.
Qed.

(** [Atoi] on a short string that is not a decimal integer: value 0. *)
Lemma Atoi_not_decimal (v : string) :
  isDecimal v = false -> (String.length v < 20)%nat ->
  (strconv.Atoi v).1 = 0.
Proof.
  destruct v as [|c rest]; [reflexivity|].
  unfold isDecimal, strconv.Atoi, strconv.ParseInt, strconv.ParseUint.
  cbn [unsignedPart].
  set (body := if Ascii.eqb c "-" || Ascii.eqb c "+" then rest else String c rest).
  assert (Hbody : (if Ascii.eqb c "+" || Ascii.eqb c "-" then rest else String c rest) = body).
  { unfold body. now rewrite orb_comm. }
  rewrite Hbody.
  intros Hdec Hlen.
  assert (Hblen : (String.length body <= 19)%nat).
  { unfold body. destruct (Ascii.eqb c "-" || Ascii.eqb c "+"); cbn [String.length] in *; lia. }
  assert (Hall : body <> "" -> allDigits body = false)
    by (destruct body; [congruence | intros _; exact Hdec]).
  destruct ((0 <? Z.of_nat (String.length (String c rest)))
            && (Z.of_nat (String.length (String c rest)) <? 19)).
  - destruct (Ascii.eqb c "-" || Ascii.eqb c "+") eqn:Hsigned; cbn [andb].
    + destruct (String.length body <? 1)%nat eqn:Hl; [reflexivity|].
      rewrite atoiFast_other; [reflexivity|].
      apply Hall. intros E. rewrite E in Hl. discriminate.
    + rewrite atoiFast_other; [reflexivity|].
      apply Hall. unfold body. discriminate.
  - destruct body as [|b body'] eqn:Eb; [reflexivity|].
    rewrite parseUintLoop_syntax; [reflexivity | now apply Hall | lia |].
    rewrite Z.mul_1_l. apply Z.pow_le_mono_r; lia.
Qed.

(* ===================================================================== *)
(** * FormatInt and back *)
(* ===================================================================== *)

Lemma byteVal_digitChar (d : Z) :
  0 <= d <= 9 -> strconv.byteVal (strconv.digitChar d) = 48 + d.
Proof.
  intros Hd.
  assert (E : d = 0 \/ d = 1 \/ d = 2 \/ d = 3 \/ d = 4 \/ d = 5 \/ d = 6 \/ d = 7
              \/ d = 8 \/ d = 9) by lia.
  repeat (destruct E as [->|E]; [reflexivity|]). now subst.
Qed.

Lemma isDigit_digitChar (d : Z) : 0 <= d <= 9 -> strconv.isDigit (strconv.digitChar d) = true.
Proof. intros Hd. unfold strconv.isDigit. rewrite byteVal_digitChar by exact Hd. lia. Qed.

Lemma isDigit_not_sign (c : ascii) :
  strconv.isDigit c = true -> Ascii.eqb c "-" = false /\ Ascii.eqb c "+" = false.
Proof.
  intros Hc. split.
  - destruct (Ascii.eqb_spec c "-") as [->|]; [discriminate Hc | reflexivity].
  - destruct (Ascii.eqb_spec c "+") as [->|]; [discriminate Hc | reflexivity].
Qed.

(** The digits written by [formatBits] read back as the number written. *)
Lemma formatBits_digits (fuel : nat) (u : Z) (acc : string) :
  0 <= u < 10 ^ Z.of_nat (S fuel) -> allDigits acc = true ->
  allDigits (strconv.formatBits (S fuel) u acc) = true
  /\ strconv.formatBits (S fuel) u acc <> ""
  /\ exists k, 0 <= k /\ forall n,
       digitsValue (strconv.formatBits (S fuel) u acc) n = digitsValue acc (n * 10 ^ k + u).
Proof.
  revert u acc. induction fuel as [|fuel IH]; intros u acc Hu Hacc.
  - change (10 ^ Z.of_nat 1) with 10 in Hu.
    cbn [strconv.formatBits]. destruct (Z.ltb_spec u 10); [|lia].
    rewrite Z.mod_small by lia.
    repeat split.
    + cbn [allDigits]. now rewrite isDigit_digitChar by lia.
    + discriminate.
    + exists 1. split; [lia|]. intros n. cbn [digitsValue].
      rewrite byteVal_digitChar by lia. f_equal. lia.
  - cbn [strconv.formatBits]. fold (strconv.formatBits (S fuel)).
    pose proof (Z.mod_pos_bound u 10 ltac:(lia)) as Hm.
    destruct (Z.ltb_spec u 10) as [Hlt|Hge].
    + rewrite Z.mod_small by lia.
      repeat split.
      * cbn [allDigits]. now rewrite isDigit_digitChar by lia.
      * discriminate.
      * exists 1. split; [lia|]. intros n. cbn [digitsValue].
        rewrite byteVal_digitChar by lia. f_equal. lia.
    + assert (Hq : 0 <= u / 10 < 10 ^ Z.of_nat (S fuel)).
      { split; [apply Z.div_pos; lia|].
        apply Z.div_lt_upper_bound; [lia|].
        rewrite (Nat2Z.inj_succ (S fuel)), Z.pow_succ_r in Hu by lia. lia. }
      assert (Hacc' : allDigits (String (strconv.digitChar (u mod 10)) acc) = true).
      { cbn [allDigits]. now rewrite isDigit_digitChar by lia. }
      destruct (IH (u / 10) _ Hq Hacc') as (Hall & Hne & k & Hk & Hval).
      repeat split; [exact Hall | exact Hne |].
      exists (k + 1). split; [lia|]. intros n.
      rewrite Hval. cbn [digitsValue]. rewrite byteVal_digitChar by lia.
      f_equal. rewrite Z.pow_add_r by lia.
      pose proof (Z.div_mod u 10 ltac:(lia)). lia.
Qed.

Lemma formatUint_digits (u : Z) :
  0 <= u ->
  allDigits (strconv.formatUint u) = true
  /\ strconv.formatUint u <> ""
  /\ digitsValue (strconv.formatUint u) 0 = u.
Proof.
  intros Hu. unfold strconv.formatUint.
  assert (Hfuel : 0 <= u < 10 ^ Z.of_nat (S (Z.to_nat (Z.log2 u)))).
  { split; [exact Hu|].
    rewrite Nat2Z.inj_succ, Z2Nat.id by apply Z.log2_nonneg.
    destruct (Z.eq_dec u 0) as [->|Hnz]; [reflexivity|].
    pose proof (Z.log2_spec u ltac:(lia)) as [_ Hlt].
    pose proof (Z.log2_nonneg u).
    eapply Z.lt_le_trans; [exact Hlt|].
    apply Z.pow_le_mono_l. lia. }
  destruct (formatBits_digits _ u "" Hfuel eq_refl) as (Hall & Hne & k & Hk & Hval).
  repeat split; [exact Hall | exact Hne |].
  rewrite Hval. cbn [digitsValue]. lia.
Qed.

(** What [FormatInt] writes is a decimal integer, and it denotes the
    number written. *)
Lemma FormatInt_decimal (n : Z) :
  isDecimal (strconv.FormatInt n) = true /\ decimalValue (strconv.FormatInt n) = n.
Proof.
  unfold strconv.FormatInt.
  destruct (formatUint_digits (Z.abs n) (Z.abs_nonneg n)) as (Hall & Hne & Hval).
  destruct (Z.ltb_spec n 0) as [Hneg|Hpos].
  - unfold isDecimal, decimalValue. cbn [unsignedPart Ascii.eqb Bool.eqb orb].
    split.
    + destruct (strconv.formatUint (Z.abs n)); [congruence | exact Hall].
    + rewrite Hval. lia.
  - destruct (strconv.formatUint (Z.abs n)) as [|c rest] eqn:E; [congruence|].
    pose proof Hall as Hall'. cbn [allDigits] in Hall'.
    apply andb_prop in Hall' as [Hc _].
    destruct (isDigit_not_sign c Hc) as [Hm Hp].
    unfold isDecimal, decimalValue. cbn [unsignedPart]. rewrite Hm, Hp. cbn [orb].
    split; [exact Hall | rewrite Hval; lia].
Qed.

(* ===================================================================== *)
(** * Atoi outside the range of int *)
(* ===================================================================== *)

Lemma digitsValue_lt (s : string) (n : Z) :
  allDigits s = true -> 0 <= n ->
  digitsValue s n < (n + 1) * 10 ^ Z.of_nat (String.length s).
Proof.
  revert n. induction s as [|c s IH]; intros n Hd Hn.
  - cbn. lia.
  - cbn [allDigits] in Hd. apply andb_prop in Hd as [Hc Hs].
    apply isDigit_range in Hc. cbn [digitsValue String.length].
    rewrite Nat2Z.inj_succ, Z.pow_succ_r by lia.
    specialize (IH (n * 10 + (strconv.byteVal c - 48)) Hs ltac:(lia)).
    assert (0 < 10 ^ Z.of_nat (String.length s)) by (apply Z.pow_pos_nonneg; lia).
    nia.
Qed.

Lemma parseUintLoop_overflow (s : string) (n : Z) :
  allDigits s = true -> 0 <= n <= strconv.maxUint64 ->
  strconv.maxUint64 < digitsValue s n ->
  strconv.parseUintLoop s n = (strconv.maxUint64, Some ErrRange).
Proof.
  revert n. induction s as [|c s IH]; intros n Hd Hn Hbig.
  - cbn in Hbig. lia.
  - cbn [allDigits] in Hd. apply andb_prop in Hd as [Hc Hs].
    cbn [strconv.parseUintLoop]. rewrite Hc. cbn [negb].
    apply isDigit_range in Hc. cbn [digitsValue] in Hbig.
    unfold strconv.maxUint64 in *.
    change (2 ^ 64) with 18446744073709551616 in *.
    change ((18446744073709551616 - 1) / 10 + 1) with 1844674407370955162.
    destruct (Z.leb_spec 1844674407370955162 n); [reflexivity|].
    rewrite (Z.mod_small (n * 10)) by lia.
    destruct (Z_lt_le_dec (n * 10 + (strconv.byteVal c - 48)) 18446744073709551616)
      as [Hfit|Hwrap].
    + rewrite (Z.mod_small (n * 10 + _)) by lia.
      destruct (Z.ltb_spec (n * 10 + (strconv.byteVal c - 48)) (n * 10)); [lia|].
      destruct (Z.ltb_spec (18446744073709551616 - 1) (n * 10 + (strconv.byteVal c - 48)));
        [lia|].
      cbn [orb]. apply IH; [exact Hs | lia | exact Hbig].
    + replace ((n * 10 + (strconv.byteVal c - 48)) mod 18446744073709551616)
        with (n * 10 + (strconv.byteVal c - 48) - 18446744073709551616).
      2:{ apply Z.mod_unique with (q := 1); lia. }
      destruct (Z.ltb_spec (n * 10 + (strconv.byteVal c - 48) - 18446744073709551616) (n * 10));
        [reflexivity | lia].
Qed.

(** [Atoi] on a decimal integer outside the range of [int]: the nearest
    bound of the range. *)
Lemma Atoi_clamped (v : string) :
  isDecimal v = true ->
  (strconv.maxInt < decimalValue v -> (strconv.Atoi v).1 = strconv.maxInt)
  /\ (decimalValue v < strconv.minInt -> (strconv.Atoi v).1 = strconv.minInt).
Proof.
  destruct v as [|c rest]; [discriminate|].
  unfold isDecimal, decimalValue, strconv.Atoi, strconv.ParseInt, strconv.ParseUint.
  cbn [unsignedPart].
  unfold strconv.minInt, strconv.maxInt, strconv.IntSize.
  change (2 ^ (64 - 1)) with 9223372036854775808.
  set (body := if Ascii.eqb c "-" || Ascii.eqb c "+" then rest else String c rest).
  assert (Hbody : (if Ascii.eqb c "+" || Ascii.eqb c "-" then rest else String c rest) = body).
  { unfold body. now rewrite orb_comm. }
  rewrite Hbody.
  intros Hdec.
  assert (Hne : body <> "") by (intros E; rewrite E in Hdec; discriminate).
  assert (Hall : allDigits body = true) by (destruct body; [congruence | exact Hdec]).
  assert (Hrest : Ascii.eqb c "-" = true -> rest = body).
  { intros E. unfold body. now rewrite E. }
  assert (Hblen : (String.length body <= String.length (String c rest))%nat).
  { unfold body. destruct (Ascii.eqb c "-" || Ascii.eqb c "+"); cbn [String.length]; lia. }
  pose proof (digitsValue_ge body 0 Hall ltac:(lia)) as Hge.
  pose proof (digitsValue_lt body 0 Hall ltac:(lia)) as Hlt.
  assert (Hun : exists un,
             strconv.parseUintLoop body 0 = (un, None) /\ un = digitsValue body 0
             \/ strconv.parseUintLoop body 0 = (un, Some ErrRange)
                /\ un = strconv.maxUint64 /\ strconv.maxUint64 < digitsValue body 0).
  { destruct (Z_le_gt_dec (digitsValue body 0) strconv.maxUint64) as [Hfit|Hbig].
    - exists (digitsValue body 0). left. split; [|reflexivity].
      now apply parseUintLoop_digits.
    - exists strconv.maxUint64. right. repeat split; [|lia].
      apply parseUintLoop_overflow; [exact Hall | unfold strconv.maxUint64; lia | lia]. }
  destruct ((0 <? Z.of_nat (String.length (String c rest)))
            && (Z.of_nat (String.length (String c rest)) <? 19)) eqn:Hfast.
  - (* fewer than 19 bytes: the value is below 10^18 *)
    apply andb_prop in Hfast as [_ Hl%Z.ltb_lt].
    assert (Hsmall : digitsValue body 0 < 10 ^ 18).
    { eapply Z.lt_le_trans; [exact Hlt|]. rewrite Z.mul_1_l.
      apply Z.pow_le_mono_r; lia. }
    change (10 ^ 18) with 1000000000000000000 in Hsmall.
    destruct (Ascii.eqb c "-") eqn:Hm.
    + rewrite (Hrest eq_refl). split; intros; lia.
    + split; intros; lia.
  - destruct Hun as (un & [[Hrun Hv]|(Hrun & Hv & Hbig)]);
      unfold strconv.maxUint64 in *;
      change (2 ^ 64) with 18446744073709551616 in *;
      destruct body as [|b body'] eqn:Eb; try congruence; rewrite Hrun;
      destruct (Ascii.eqb c "-") eqn:Hm; try rewrite (Hrest eq_refl); cbn [negb andb];
      split; intros Hout; subst un.
    all: try lia.
    all: try (destruct (Z.leb_spec 9223372036854775808 (digitsValue (String b body') 0));
              [reflexivity | lia]).
    all: try (destruct (Z.ltb_spec 9223372036854775808 (digitsValue (String b body') 0));
              [reflexivity | lia]).
    all: reflexivity.
Qed.

(* ===================================================================== *)
(** * The call counter *)
(* ===================================================================== *)

Lemma canonical_callsHeader : http.CanonicalHeaderKey "X-Forecast-API-Calls" = callsHeader.
Proof. vm_compute. reflexivity. Qed.

(** After a fetch whose request was answered and whose body was read, the
    counter is what [Atoi] makes of the header, whether [Atoi] failed or
    not. *)
Lemma fetch_counter `{Runtime} (lat lon : float64) (d : APIConn.date)
    (ex : list string) (ext : bool) (a : APIConn.t) (url : string)
    (resp : http.Response) (body : string) (r : APIConn.run (APIConn.ForecastPtr * option error)) :
  r = APIConn.Forecast lat lon ex ext a \/ r = APIConn.ForecastAtTime lat lon d ex a ->
  In (HTTPGet url (inr resp)) (APIConn.trace r) ->
  http.Body resp = inr body ->
  APIConn.result (APIConn.APICalls (APIConn.conn r))
  = Returns (strconv.Atoi (http.Header_Get (http.Header resp) "X-Forecast-API-Calls")).1.
Proof.
  intros Hr Hin Hbody.
  assert (Hrt : forall q, In (HTTPGet url (inr resp)) (APIConn.trace (APIConn.roundTrip q a)) ->
            APIConn.apiCalls (APIConn.conn (APIConn.roundTrip q a))
            = (strconv.Atoi (http.Header_Get (http.Header resp) "X-Forecast-API-Calls")).1).
  { intros q Hq. apply roundTrip_answered in Hq.
    rewrite roundTrip_run, Hq, Hbody. reflexivity. }
  enough (APIConn.apiCalls (APIConn.conn r)
          = (strconv.Atoi (http.Header_Get (http.Header resp) "X-Forecast-API-Calls")).1)
    as <- by reflexivity.
  destruct Hr as [-> | ->]; revert Hin.
  - fetch_cases Hex; cbn [APIConn.trace APIConn.conn].
    + intros [].
    + intros Hin. apply roundTrip_event in Hin. now apply Hrt.
  - fetch_cases Hex; cbn [APIConn.trace APIConn.conn];
      try (intros Hin; apply roundTrip_event in Hin; now apply Hrt).
    + intros [].
    + intros [Hd|[]]. discriminate Hd.
    + apply Hrt.
Qed.

(** C1, as the code has it. Take a fetch ([Forecast] or [ForecastAtTime])
    whose request was answered and whose body was read. If the response
    carries the call-count header with a decimal integer [n] in the range
    of [int], a following [APICalls] returns [n]. If the header is
    missing, or its value is not a decimal integer (and shorter than 20
    bytes), a following [APICalls] returns 0, whatever the counter was
    before. *)
Theorem call_counter `{Runtime} (lat lon : float64) (d : APIConn.date)
    (ex : list string) (ext : bool) (a : APIConn.t) (url : string)
    (resp : http.Response) (body : string)
    (r : APIConn.run (APIConn.ForecastPtr * option error)) :
  r = APIConn.Forecast lat lon ex ext a \/ r = APIConn.ForecastAtTime lat lon d ex a ->
  In (HTTPGet url (inr resp)) (APIConn.trace r) ->
  http.Body resp = inr body ->
  (forall v vs n,
     http.Header resp !! callsHeader = Some (v :: vs) ->
     isDecimal v = true -> decimalValue v = n ->
     strconv.minInt <= n <= strconv.maxInt ->
     APIConn.result (APIConn.APICalls (APIConn.conn r)) = Returns n)
  /\ (http.Header resp !! callsHeader = None ->
      APIConn.result (APIConn.APICalls (APIConn.conn r)) = Returns 0)
  /\ (forall v vs,
        http.Header resp !! callsHeader = Some (v :: vs) ->
        isDecimal v = false -> (String.length v < 20)%nat ->
        APIConn.result (APIConn.APICalls (APIConn.conn r)) = Returns 0).
Proof.
  intros Hr Hin Hbody.
  rewrite (fetch_counter lat lon d ex ext a url resp body r Hr Hin Hbody).
  unfold http.Header_Get. rewrite canonical_callsHeader.
  split; [|split].
  - intros v vs n -> Hdec <- Hrange. now rewrite Atoi_decimal.
  - intros ->. reflexivity.
  - intros v vs -> Hdec Hlen. now rewrite Atoi_not_decimal.
Qed.

Lemma call_counter_witness :
  let answer h := Stub.runtime (inr (http.mkResponse h (inr "{}"))) None in
  APIConn.result
    (APIConn.APICalls
       (APIConn.conn (@APIConn.Forecast (answer (Stub.calls "42"))
                        Stub.lat Stub.lon [] false Stub.fresh)))
  = Returns 42
  /\ APIConn.result
       (APIConn.APICalls
          (APIConn.conn (@APIConn.ForecastAtTime (answer ∅) Stub.lat Stub.lon
                           (APIConn.DateString "1609459200") [] Stub.used)))
     = Returns 0
  /\ APIConn.result
       (APIConn.APICalls
          (APIConn.conn (@APIConn.Forecast (answer (Stub.calls "4 2"))
                           Stub.lat Stub.lon [] false Stub.used)))
     = Returns 0.
Proof.
  intros answer. split; [|split].
  - refine (proj1 (@call_counter (answer (Stub.calls "42")) Stub.lat Stub.lon
                     APIConn.DateOther [] false Stub.fresh
                     "https://api.forecast.io/forecast/KEY/37.826700,-122.423000?units=auto&exclude="
                     (http.mkResponse (Stub.calls "42") (inr "{}")) "{}" _
                     (or_introl eq_refl) _ eq_refl) "42" [] 42 _ eq_refl eq_refl _).
    + vm_compute. tauto.
    + vm_compute. reflexivity.
    + vm_compute. split; discriminate.
  - refine (proj1 (proj2 (@call_counter (answer ∅) Stub.lat Stub.lon
                     (APIConn.DateString "1609459200") [] false Stub.used
                     "https://api.forecast.io/forecast/KEY/37.826700,-122.423000,1609459200?units=si&exclude="
                     (http.mkResponse ∅ (inr "{}")) "{}" _
                     (or_intror eq_refl) _ eq_refl)) _).
    + vm_compute. tauto.
    + vm_compute. reflexivity.
  - refine (proj2 (proj2 (@call_counter (answer (Stub.calls "4 2")) Stub.lat Stub.lon
                     APIConn.DateOther [] false Stub.used
                     "https://api.forecast.io/forecast/KEY/37.826700,-122.423000?units=si&exclude="
                     (http.mkResponse (Stub.calls "4 2") (inr "{}")) "{}" _
                     (or_introl eq_refl) _ eq_refl)) "4 2" [] _ eq_refl _).
    + vm_compute. tauto.
    + vm_compute. reflexivity.
    + vm_compute. lia.
Defined.

(** C1 as stated fails where the header is missing: a connection whose
    counter is 42 has it at 0 after a fetch whose response lacks the
    header, so a following [APICalls] does not return the prior value. *)
Lemma call_counter_not_kept :
  let resp := http.mkResponse ∅ (inr "{}") in
  let r := @APIConn.Forecast (Stub.runtime (inr resp) None)
             Stub.lat Stub.lon [] false Stub.used in
  http.Header resp !! callsHeader = None
  /\ APIConn.result (APIConn.APICalls Stub.used) = Returns 42
  /\ APIConn.result (APIConn.APICalls (APIConn.conn r)) = Returns 0
  /\ APIConn.result (APIConn.APICalls (APIConn.conn r))
     <> APIConn.result (APIConn.APICalls Stub.used).
Proof. vm_compute. repeat split. discriminate. Qed.

(** The two provisos of the first half. A decimal integer beyond the
    range of [int] is stored as the largest [int]; and when the body
    cannot be read the header is not looked at, so the counter keeps its
    value although the response carries a count. *)
Lemma call_counter_provisos :
  (let resp := http.mkResponse (Stub.calls "9223372036854775808") (inr "{}") in
   let r := @APIConn.Forecast (Stub.runtime (inr resp) None)
              Stub.lat Stub.lon [] false Stub.used in
   APIConn.result (APIConn.APICalls (APIConn.conn r)) = Returns 9223372036854775807)
  /\
  (let resp := http.mkResponse (Stub.calls "7") (inl Stub.refused) in
   let r := @APIConn.ForecastAtTime (Stub.runtime (inr resp) None)
              Stub.lat Stub.lon (APIConn.DateInt64 1609459200) [] Stub.used in
   APIConn.result r = Returns (None, Some Stub.refused)
   /\ APIConn.result (APIConn.APICalls (APIConn.conn r)) = Returns 42).
Proof. vm_compute. repeat split. Qed.

(* ===================================================================== *)
(** * Loops over slices of pointers *)
(* ===================================================================== *)

Section rangeAssign.
Context {A : Type} (body : A -> A).
Hypothesis body_idem : forall x, body (body x) = body x.

Lemma alter_body_twice (l : loc) (objs : gmap loc A) :
  alter body l (alter body l objs) = alter body l objs.
Proof.
  rewrite alter_alter_eq. apply alter_ext. intros x _. apply body_idem.
Qed.

Lemma alter_body_swap (l l' : loc) (objs : gmap loc A) :
  alter body l (alter body l' objs) = alter body l' (alter body l objs).
Proof.
  destruct (decide (l = l')) as [->|Hne]; [reflexivity|].
  now apply alter_alter_ne.
Qed.

(** An update made before the loop can as well be made after it. *)
Lemma rangeAssign_alter (ps : list ptr) (l : loc) (objs : gmap loc A) :
  rangeAssign body ps (alter body l objs)
  = ((rangeAssign body ps objs).1, alter body l (rangeAssign body ps objs).2).
Proof.
  revert objs. induction ps as [|[l'|] ps IH]; intros objs; cbn [rangeAssign];
    [reflexivity | | reflexivity].
  rewrite alter_body_swap. apply IH.
Qed.

(** Running the loop again changes nothing, and ends the same way. *)
Lemma rangeAssign_again (ps : list ptr) (objs : gmap loc A) :
  rangeAssign body ps (rangeAssign body ps objs).2 = rangeAssign body ps objs.
Proof.
  revert objs. induction ps as [|[l|] ps IH]; intros objs; cbn [rangeAssign];
    [reflexivity | | reflexivity].
  rewrite rangeAssign_alter. rewrite IH.
  rewrite (rangeAssign_alter ps l objs). cbn [fst snd].
  now rewrite alter_body_twice.
Qed.

(** Without a nil entry the loop runs to its end, and an object is
    updated exactly when the slice points to it. *)
Lemma rangeAssign_lookup (ps : list ptr) (objs : gmap loc A) :
  ~ In None ps ->
  (rangeAssign body ps objs).1 = true
  /\ forall l,
       (In (Some l) ps -> (rangeAssign body ps objs).2 !! l = body <$> objs !! l)
       /\ (~ In (Some l) ps -> (rangeAssign body ps objs).2 !! l = objs !! l).
Proof.
  revert objs. induction ps as [|[l'|] ps IH]; intros objs Hnil; cbn [rangeAssign].
  - split; [reflexivity|]. intros l. split; [intros [] | reflexivity].
  - assert (Hnil' : ~ In None ps) by (intros Hin; apply Hnil; now right).
    rewrite rangeAssign_alter. cbn [fst snd].
    destruct (IH objs Hnil') as [Hdone Hl]. split; [exact Hdone|].
    intros l. destruct (Hl l) as [Hin Hout].
    destruct (decide (l' = l)) as [->|Hne].
    + split; [intros _ | intros Hno; exfalso; apply Hno; now left].
      rewrite lookup_alter_eq.
      destruct (decide (Some l ∈ ps)) as [Hps|Hps]; rewrite list_elem_of_In in Hps.
      * rewrite (Hin Hps). destruct (objs !! l); cbn; [now rewrite body_idem | reflexivity].
      * now rewrite (Hout Hps).
    + rewrite lookup_alter_ne by exact Hne. split.
      * intros [E|Hps]; [congruence | now apply Hin].
      * intros Hno. apply Hout. intros Hps. apply Hno. now right.
  - exfalso. apply Hnil. now left.
Qed.

(** The loop stops at the first nil entry. *)
Lemma rangeAssign_nil (ps : list ptr) (objs : gmap loc A) :
  In None ps -> (rangeAssign body ps objs).1 = false.
Proof.
  revert objs. induction ps as [|[l|] ps IH]; intros objs Hin; cbn [rangeAssign].
  - destruct Hin.
  - destruct Hin as [E|Hin]; [discriminate E | now apply IH].
  - reflexivity.
Qed.

End rangeAssign.

(* ===================================================================== *)
(** * ParseTimes *)
(* ===================================================================== *)

Ltac destruct_record :=
  match goal with
  | x : minuteData.t |- _ => destruct x
  | x : hourData.t |- _ => destruct x
  | x : dayData.t |- _ => destruct x
  | x : alert.t |- _ => destruct x
  end.

(** The loop bodies convert each time from its own raw field and keep the
    rest; doing so twice is doing so once. *)
Lemma minuteTimes_parsed (m : minuteData.t) : minuteData.parsed m (Forecast.minuteTimes m).
Proof. destruct_record; cbv beta iota zeta delta -[time.Unix]; repeat split. Qed.

Lemma hourTimes_parsed (h : hourData.t) : hourData.parsed h (Forecast.hourTimes h).
Proof. destruct_record; cbv beta iota zeta delta -[time.Unix]; repeat split. Qed.

Lemma dayTimes_parsed (d : dayData.t) : dayData.parsed d (Forecast.dayTimes d).
Proof. destruct_record; cbv beta iota zeta delta -[time.Unix]; repeat split. Qed.

Lemma alertTimes_parsed (a : alert.t) : alert.parsed a (Forecast.alertTimes a).
Proof. destruct_record; cbv beta iota zeta delta -[time.Unix]; repeat split. Qed.

Lemma minuteTimes_idem (m : minuteData.t) :
  Forecast.minuteTimes (Forecast.minuteTimes m) = Forecast.minuteTimes m.
Proof. destruct_record; cbv beta iota zeta delta -[time.Unix]; reflexivity. Qed.

Lemma hourTimes_idem (h : hourData.t) :
  Forecast.hourTimes (Forecast.hourTimes h) = Forecast.hourTimes h.
Proof. destruct_record; cbv beta iota zeta delta -[time.Unix]; reflexivity. Qed.

Lemma dayTimes_idem (d : dayData.t) :
  Forecast.dayTimes (Forecast.dayTimes d) = Forecast.dayTimes d.
Proof. destruct_record; cbv beta iota zeta delta -[time.Unix]; reflexivity. Qed.

Lemma alertTimes_idem (a : alert.t) :
  Forecast.alertTimes (Forecast.alertTimes a) = Forecast.alertTimes a.
Proof. destruct_record; cbv beta iota zeta delta -[time.Unix]; reflexivity. Qed.

(** A loop without nil entries relates the heap before and after. *)
Lemma rangeAssign_updated {A : Type} (body : A -> A) (rel : A -> A -> Prop)
    (ps : list ptr) (objs : gmap loc A) :
  (forall x, body (body x) = body x) -> (forall x, rel x (body x)) ->
  ~ In None ps ->
  (rangeAssign body ps objs).1 = true
  /\ updated rel ps objs (rangeAssign body ps objs).2.
Proof.
  intros Hidem Hrel Hnil.
  destruct (rangeAssign_lookup body Hidem ps objs Hnil) as [Hdone Hl].
  split; [exact Hdone|]. intros l. destruct (Hl l) as [Hin Hout].
  split; [|exact Hout].
  intros Hps. rewrite (Hin Hps).
  destruct (objs !! l); constructor. apply Hrel.
Qed.

(** C7, as the code has it. On a forecast whose slices hold no nil
    pointer, [ParseTimes] returns and sets every structured time (current
    conditions; every minute, hour and day sample, with sunrise, sunset
    and the times of the precipitation maximum and of the temperature
    extremes; every alert expiry) to [time.Unix] of its own raw field with
    zero nanoseconds; every other field of the forecast and of the
    objects, the raw fields included, and every object the slices do not
    point to, is left as it was. *)
Theorem ParseTimes_sets_times (f : Forecast.t) (h : Heap) :
  noNil f -> timesParsed f h (Forecast.ParseTimes f h).
Proof.
  intros (Hm & Hh & Hd & Ha). unfold timesParsed, Forecast.ParseTimes.
  cbn [Forecast.Minutely Forecast.Hourly Forecast.Daily Forecast.Alerts
       Forecast.set_Currently minutes hours days alerts].
  destruct (rangeAssign_updated Forecast.minuteTimes minuteData.parsed _ (minutes h)
              minuteTimes_idem minuteTimes_parsed Hm) as [Dm Um].
  destruct (rangeAssign_updated Forecast.hourTimes hourData.parsed _ (hours h)
              hourTimes_idem hourTimes_parsed Hh) as [Dh Uh].
  destruct (rangeAssign_updated Forecast.dayTimes dayData.parsed _ (days h)
              dayTimes_idem dayTimes_parsed Hd) as [Dd Ud].
  destruct (rangeAssign_updated Forecast.alertTimes alert.parsed _ (alerts h)
              alertTimes_idem alertTimes_parsed Ha) as [Da Ua].
  destruct (rangeAssign Forecast.minuteTimes _ (minutes h)) as [dm ms].
  destruct (rangeAssign Forecast.hourTimes _ (hours h)) as [dh hs].
  destruct (rangeAssign Forecast.dayTimes _ (days h)) as [dd ds].
  destruct (rangeAssign Forecast.alertTimes _ (alerts h)) as [da als].
  cbn [fst snd] in *. subst dm dh dd da. cbn [negb].
  refine (conj eq_refl (conj _ (conj _ (conj Um (conj Uh (conj Ud Ua)))))).
  - repeat split.
  - destruct f as [? ? ? ? c ? ? ? ? ?]; destruct c; repeat split.
Qed.

Lemma ParseTimes_sets_times_witness :
  timesParsed Stub.forecast1 Stub.heap1 (Forecast.ParseTimes Stub.forecast1 Stub.heap1).
Proof.
  apply ParseTimes_sets_times.
  unfold noNil. cbn.
  repeat split; intros Hin;
    repeat (destruct Hin as [E|Hin]; [discriminate E|]); exact Hin.
Defined.

(** C7 as stated fails on a forecast with a nil pointer in a slice:
    [ParseTimes] panics there, and the alert, whose turn has not come,
    keeps the zero time although its raw field is 1609545600. *)
Lemma ParseTimes_nil_entry :
  let r := Forecast.ParseTimes Stub.forecastNil Stub.heap1 in
  Forecast.outcome r = Panics nilDereference
  /\ (alert.Expires <$> alerts (Forecast.heap r) !! 1%positive) = Some time.zero
  /\ time.Unix 1609545600 0 <> time.zero
  /\ ~ timesParsed Stub.forecastNil Stub.heap1 r.
Proof.
  intros r. repeat split.
  - discriminate.
  - intros (Hret & _). discriminate Hret.
Qed.

(** C8. Applying [ParseTimes] to what [ParseTimes] left behind gives the
    same forecast and the same heap, and ends the same way. *)
Theorem ParseTimes_idempotent (f : Forecast.t) (h : Heap) :
  Forecast.ParseTimes (Forecast.forecast (Forecast.ParseTimes f h))
                      (Forecast.heap (Forecast.ParseTimes f h))
  = Forecast.ParseTimes f h.
Proof.
  unfold Forecast.ParseTimes.
  cbn [Forecast.Minutely Forecast.Hourly Forecast.Daily Forecast.Alerts
       Forecast.Currently Forecast.set_Currently minutes hours days alerts].
  pose proof (rangeAssign_again Forecast.minuteTimes minuteTimes_idem
                (minutely.Data (Forecast.Minutely f)) (minutes h)) as Im.
  pose proof (rangeAssign_again Forecast.hourTimes hourTimes_idem
                (hourly.Data (Forecast.Hourly f)) (hours h)) as Ih.
  pose proof (rangeAssign_again Forecast.dayTimes dayTimes_idem
                (daily.Data (Forecast.Daily f)) (days h)) as Id.
  pose proof (rangeAssign_again Forecast.alertTimes alertTimes_idem
                (Forecast.Alerts f) (alerts h)) as Ia.
  destruct (rangeAssign Forecast.minuteTimes _ (minutes h)) as [dm ms].
  destruct (rangeAssign Forecast.hourTimes _ (hours h)) as [dh hs].
  destruct (rangeAssign Forecast.dayTimes _ (days h)) as [dd ds].
  destruct (rangeAssign Forecast.alertTimes _ (alerts h)) as [da als].
  cbn [fst snd] in *.
  destruct dm, dh, dd, da;
    cbn [negb Forecast.forecast Forecast.heap Forecast.Minutely Forecast.Hourly
         Forecast.Daily Forecast.Alerts Forecast.Currently Forecast.set_Currently
         currently.set_Time currently.TimeUnix minutes hours days alerts];
    rewrite ?Im; cbn [negb minutes hours days alerts];
    rewrite ?Ih; cbn [negb minutes hours days alerts];
    rewrite ?Id; cbn [negb minutes hours days alerts];
    rewrite ?Ia; cbn [negb minutes hours days alerts]; reflexivity.
Qed.

(* ===================================================================== *)
(** * What the methods leave alone *)
(* ===================================================================== *)

(** The connection after the locked part of a fetch: only the counter can
    differ. *)
Lemma roundTrip_conn `{Runtime} (query : string) (a : APIConn.t) :
  APIConn.apiKey (APIConn.conn (APIConn.roundTrip query a)) = APIConn.apiKey a
  /\ APIConn.units (APIConn.conn (APIConn.roundTrip query a)) = APIConn.units a.
Proof.
  rewrite roundTrip_run.
  destruct (http_Get query) as [err|resp]; [split; reflexivity|].
  destruct (http.Body resp); split; reflexivity.
Qed.

Lemma SetUnits_run (u : string) (a : APIConn.t) :
  APIConn.SetUnits u a =
  if bool_decide (u ∈ unitsSet)
  then APIConn.mkRun (Returns None)
         (APIConn.mk (APIConn.apiKey a) (APIConn.apiCalls a) u)
         [Lock; Store F_units (VString u); Unlock]
  else APIConn.mkRun (Returns (Some (errors.New "Invalid units requested"))) a
         [Lock; Unlock].
Proof.
  unfold APIConn.SetUnits, APIConn.defer, mbind, APIConn.M_bind, APIConn.bind.
  cbn [APIConn.result APIConn.conn APIConn.trace APIConn.emit].
  case_bool_decide; reflexivity.
Qed.

Lemma fetch_conn `{Runtime} (lat lon : float64) (d : APIConn.date)
    (ex : list string) (ext : bool) (a : APIConn.t) :
  (APIConn.apiKey (APIConn.conn (APIConn.Forecast lat lon ex ext a)) = APIConn.apiKey a
   /\ APIConn.units (APIConn.conn (APIConn.Forecast lat lon ex ext a)) = APIConn.units a)
  /\
  (APIConn.apiKey (APIConn.conn (APIConn.ForecastAtTime lat lon d ex a)) = APIConn.apiKey a
   /\ APIConn.units (APIConn.conn (APIConn.ForecastAtTime lat lon d ex a)) = APIConn.units a).
Proof.
  split.
  - fetch_cases Hex; cbn [APIConn.conn]; [split; reflexivity | apply roundTrip_conn].
  - fetch_cases Hex; cbn [APIConn.conn];
      first [apply roundTrip_conn | split; reflexivity].
Qed.

(** X1. No method changes the API key. Beyond that, [SetUnits] leaves the
    call counter alone, the two fetch operations leave the units alone,
    and [Units] and [APICalls] change nothing at all. *)
Theorem methods_frame `{Runtime} (a : APIConn.t) (u : string) (lat lon : float64)
    (d : APIConn.date) (ex : list string) (ext : bool) :
  (APIConn.apiKey (APIConn.conn (APIConn.SetUnits u a)) = APIConn.apiKey a
   /\ APIConn.apiCalls (APIConn.conn (APIConn.SetUnits u a)) = APIConn.apiCalls a)
  /\ APIConn.conn (APIConn.Units a) = a
  /\ APIConn.conn (APIConn.APICalls a) = a
  /\ (APIConn.apiKey (APIConn.conn (APIConn.Forecast lat lon ex ext a)) = APIConn.apiKey a
      /\ APIConn.units (APIConn.conn (APIConn.Forecast lat lon ex ext a)) = APIConn.units a)
  /\ (APIConn.apiKey (APIConn.conn (APIConn.ForecastAtTime lat lon d ex a)) = APIConn.apiKey a
      /\ APIConn.units (APIConn.conn (APIConn.ForecastAtTime lat lon d ex a))
         = APIConn.units a).
Proof.
  split; [|split; [reflexivity|split; [reflexivity|]]].
  - rewrite SetUnits_run. case_bool_decide; split; reflexivity.
  - apply fetch_conn.
Qed.

(** X2. Whatever methods are called on a connection made by
    [NewConnection], in whatever order and with whatever arguments, the
    connection keeps its key, and its units stay one of us, si, ca, uk
    and auto. *)
Theorem connection_invariant `{Runtime} (key : string) (cs : list call) :
  APIConn.apiKey (afterCalls (APIConn.NewConnection key) cs) = key
  /\ In (APIConn.units (afterCalls (APIConn.NewConnection key) cs)) validUnits.
Proof.
  assert (Hstep : forall a c,
            APIConn.apiKey (afterCall a c) = APIConn.apiKey a
            /\ (In (APIConn.units a) validUnits ->
                In (APIConn.units (afterCall a c)) validUnits)).
  { intros a [u| | |lat lon ex ext|lat lon d ex]; cbn [afterCall].
    - rewrite SetUnits_run. case_bool_decide as Hu; cbn [APIConn.conn APIConn.apiKey APIConn.units];
        split; auto. intros _. now apply elem_of_unitsSet.
    - split; auto.
    - split; auto.
    - destruct (fetch_conn lat lon APIConn.DateOther ex ext a) as [[-> ->] _]. auto.
    - destruct (fetch_conn lat lon d ex false a) as [_ [-> ->]]. auto. }
  unfold afterCalls.
  assert (Hgen : forall a,
            APIConn.apiKey (fold_left afterCall cs a) = APIConn.apiKey a
            /\ (In (APIConn.units a) validUnits ->
                In (APIConn.units (fold_left afterCall cs a)) validUnits)).
  { induction cs as [|c cs IH]; intros a; cbn [fold_left]; [auto|].
    destruct (IH (afterCall a c)) as [Hk Hu]. destruct (Hstep a c) as [Hk' Hu'].
    split; [congruence | auto]. }
  destruct (Hgen (APIConn.NewConnection key)) as [Hk Hu].
  split; [exact Hk|]. apply Hu. cbn. tauto.
Qed.

(** X3. [Units] returns the argument of the last [SetUnits] that
    succeeded, whatever was called since (fetches, reads, and [SetUnits]
    calls with unknown units). *)
Theorem last_valid_SetUnits_wins `{Runtime} (a : APIConn.t) (before after : list call)
    (u : string) :
  In u validUnits ->
  (forall v, In (CallSetUnits v) after -> ~ In v validUnits) ->
  APIConn.result
    (APIConn.Units (afterCalls a (before ++ CallSetUnits u :: after)%list))
  = Returns u.
Proof.
  intros Hu Hafter.
  change (Returns (APIConn.units (afterCalls a (before ++ CallSetUnits u :: after)%list))
          = Returns u).
  f_equal.
  unfold afterCalls. rewrite fold_left_app. cbn [fold_left afterCall].
  set (b := fold_left afterCall before a).
  assert (Hb : APIConn.units (APIConn.conn (APIConn.SetUnits u b)) = u).
  { rewrite SetUnits_run, bool_decide_eq_true_2 by now apply elem_of_unitsSet.
    reflexivity. }
  revert Hb. generalize (APIConn.conn (APIConn.SetUnits u b)). clear b.
  induction after as [|c cs IH]; intros x Hx; cbn [fold_left]; [exact Hx|].
  apply IH.
  - intros v Hv. apply Hafter. now right.
  - destruct c as [v| | |lat lon ex ext|lat lon d ex]; cbn [afterCall].
    + rewrite SetUnits_run, bool_decide_eq_false_2; [exact Hx|].
      intros Hin. apply (Hafter v); [now left | now apply elem_of_unitsSet].
    + exact Hx.
    + exact Hx.
    + destruct (fetch_conn lat lon APIConn.DateOther ex ext x) as [[_ ->] _]. exact Hx.
    + destruct (fetch_conn lat lon d ex false x) as [_ [_ ->]]. exact Hx.
Qed.

Lemma last_valid_SetUnits_wins_witness :
  APIConn.result
    (APIConn.Units
       (@afterCalls Sample.down Stub.fresh
          [CallSetUnits "us"; CallSetUnits "si";
           CallForecast Stub.lat Stub.lon [] false; CallSetUnits "metric"; CallUnits]))
  = Returns "si".
Proof.
  apply (@last_valid_SetUnits_wins Sample.down Stub.fresh [CallSetUnits "us"]
           [CallForecast Stub.lat Stub.lon [] false; CallSetUnits "metric"; CallUnits] "si").
  - simpl. tauto.
  - intros v [E|[E|[E|[]]]]; try discriminate E.
    injection E as <-. simpl. intros [E|[E|[E|[E|[E|[]]]]]]; discriminate E.
Defined.

(* ===================================================================== *)
(** * The locks are given back *)
(* ===================================================================== *)

(** X4. Every method gives back the lock it takes, on every path: run by
    itself from a free mutex, the trace of a call goes through without
    waiting, ends with the mutex free, and leaves the connection the call
    returns. For the fetch operations this includes the early returns
    after a failed request or a failed read, and the panic of
    [ForecastAtTime], which happens before the lock is taken. *)
Theorem locks_released `{Runtime} (g : goroutine) (a : APIConn.t) (c : call) :
  execute (map (pair g) (traceOf a c)) Free a = Some (Free, afterCall a c).
Proof.
  assert (Hloads : forall q,
            execute (map (pair g)
                       (Load F_apiKey (VString (APIConn.apiKey a))
                        :: Load F_units (VString (APIConn.units a))
                        :: APIConn.trace (APIConn.roundTrip q a))) Free a
            = Some (Free, APIConn.conn (APIConn.roundTrip q a))).
  { intros q. cbn [map execute step fieldValue].
    rewrite !decide_True by reflexivity. apply execute_roundTrip. }
  destruct c as [u| | |lat lon ex ext|lat lon d ex]; cbn [traceOf afterCall].
  - rewrite SetUnits_run. destruct a. case_bool_decide; destruct g; reflexivity.
  - change (APIConn.trace (APIConn.Units a))
      with [RLock; Load F_units (VString (APIConn.units a)); RUnlock].
    cbn [map execute step fieldValue]. rewrite decide_True by reflexivity.
    destruct g; reflexivity.
  - change (APIConn.trace (APIConn.APICalls a))
      with [RLock; Load F_apiCalls (VInt (APIConn.apiCalls a)); RUnlock].
    cbn [map execute step fieldValue]. rewrite decide_True by reflexivity.
    destruct g; reflexivity.
  - fetch_cases Hex; cbn [APIConn.trace APIConn.conn]; [reflexivity | apply Hloads].
  - fetch_cases Hex; cbn [APIConn.trace APIConn.conn];
      first [apply Hloads | apply execute_roundTrip | idtac].
    + reflexivity.
    + cbn. now rewrite decide_True by reflexivity.
Qed.

(* ===================================================================== *)
(** * More on the fetch operations *)
(* ===================================================================== *)

(** Every property of the locked part that only looks at the run carries
    over to the two operations, when it also holds of the runs that end
    before the lock is taken. *)
Lemma fetch_run_ind `{Runtime}
    (P : APIConn.t -> APIConn.run (APIConn.ForecastPtr * option error) -> Prop) :
  (forall a, P a (APIConn.mkRun
                    (Returns (None, Some (errors.New "Invalid exclude requested"))) a [])) ->
  (forall a, P a (APIConn.mkRun
                    (Panics "interface conversion: interface {} is int, not int64") a
                    [Load F_apiKey (VString (APIConn.apiKey a))])) ->
  (forall a q, P a (APIConn.roundTrip q a)) ->
  (forall a q,
     P a (APIConn.mkRun (APIConn.result (APIConn.roundTrip q a))
            (APIConn.conn (APIConn.roundTrip q a))
            (Load F_apiKey (VString (APIConn.apiKey a))
             :: Load F_units (VString (APIConn.units a))
             :: APIConn.trace (APIConn.roundTrip q a)))) ->
  forall lat lon d ex ext a,
    P a (APIConn.Forecast lat lon ex ext a)
    /\ P a (APIConn.ForecastAtTime lat lon d ex a).
Proof.
  intros Hrej Hpanic Hrt Hloads lat lon d ex ext a. split.
  - fetch_cases Hex; [apply Hrej | apply Hloads].
  - fetch_cases Hex; first [apply Hrej | apply Hpanic | apply Hloads | apply Hrt].
Qed.

(** X5. After a fetch whose request was answered and whose body was read,
    the call returns a non-nil forecast, the one the decoder filled in,
    with the decoder's verdict as its error (nil when the body decoded);
    and the call counter is what [Atoi] makes of the call-count header,
    whether or not the body decoded. *)
Theorem answered_fetch `{Runtime} (lat lon : float64) (d : APIConn.date)
    (ex : list string) (ext : bool) (a : APIConn.t) (url : string)
    (resp : http.Response) (body : string)
    (r : APIConn.run (APIConn.ForecastPtr * option error)) :
  r = APIConn.Forecast lat lon ex ext a \/ r = APIConn.ForecastAtTime lat lon d ex a ->
  In (HTTPGet url (inr resp)) (APIConn.trace r) ->
  http.Body resp = inr body ->
  APIConn.result r
  = Returns (Some (json_Unmarshal body (Forecast.zero, emptyHeap)).1,
             (json_Unmarshal body (Forecast.zero, emptyHeap)).2)
  /\ APIConn.conn r
     = APIConn.mk (APIConn.apiKey a)
         (strconv.Atoi (http.Header_Get (http.Header resp) "X-Forecast-API-Calls")).1
         (APIConn.units a).
Proof.
  intros Hr Hin Hbody.
  pose proof (fetch_run_ind
    (fun a r => In (HTTPGet url (inr resp)) (APIConn.trace r) ->
       APIConn.result r
       = Returns (Some (json_Unmarshal body (Forecast.zero, emptyHeap)).1,
                  (json_Unmarshal body (Forecast.zero, emptyHeap)).2)
       /\ APIConn.conn r
          = APIConn.mk (APIConn.apiKey a)
              (strconv.Atoi (http.Header_Get (http.Header resp) "X-Forecast-API-Calls")).1
              (APIConn.units a))) as Hind.
  assert (Hrt : forall a q,
            In (HTTPGet url (inr resp)) (APIConn.trace (APIConn.roundTrip q a)) ->
            APIConn.result (APIConn.roundTrip q a)
            = Returns (Some (json_Unmarshal body (Forecast.zero, emptyHeap)).1,
                       (json_Unmarshal body (Forecast.zero, emptyHeap)).2)
            /\ APIConn.conn (APIConn.roundTrip q a)
               = APIConn.mk (APIConn.apiKey a)
                   (strconv.Atoi (http.Header_Get (http.Header resp) "X-Forecast-API-Calls")).1
                   (APIConn.units a)).
  { intros a0 q Hq. apply roundTrip_answered in Hq.
    rewrite roundTrip_run, Hq, Hbody. split; reflexivity. }
  destruct (Hind ltac:(intros a0 [])
                 ltac:(intros a0 [E|[]]; discriminate E)
                 Hrt
                 ltac:(intros a0 q Hq; apply roundTrip_event in Hq; now apply Hrt)
                 lat lon d ex ext a) as [HF HA].
  destruct Hr as [-> | ->]; auto.
Qed.

Lemma answered_fetch_witness :
  let resp := http.mkResponse (Stub.calls "42") (inr "{}") in
  let r := @APIConn.Forecast (Sample.ok (Stub.calls "42")) Stub.lat Stub.lon
             ["flags"] false Stub.fresh in
  APIConn.result r = Returns (Some (Forecast.zero, emptyHeap), None)
  /\ APIConn.conn r = APIConn.mk "KEY" 42 "auto".
Proof.
  intros resp r.
  refine (@answered_fetch (Sample.ok (Stub.calls "42")) Stub.lat Stub.lon
            APIConn.DateOther ["flags"] false Stub.fresh
            "https://api.forecast.io/forecast/KEY/37.826700,-122.423000?units=auto&exclude=flags"
            resp "{}" r (or_introl eq_refl) _ eq_refl).
  vm_compute. tauto.
Defined.

(** X6. A fetch never returns a nil forecast with a nil error: when the
    error is nil the pointer can be dereferenced. *)
Theorem nil_error_gives_forecast `{Runtime} (lat lon : float64) (d : APIConn.date)
    (ex : list string) (ext : bool) (a : APIConn.t)
    (r : APIConn.run (APIConn.ForecastPtr * option error)) (p : APIConn.ForecastPtr) :
  r = APIConn.Forecast lat lon ex ext a \/ r = APIConn.ForecastAtTime lat lon d ex a ->
  APIConn.result r = Returns (p, None) ->
  p <> None.
Proof.
  intros Hr.
  pose proof (fetch_run_ind
    (fun a r => APIConn.result r = Returns (p, None) -> p <> None)) as Hind.
  assert (Hrt : forall a q,
            APIConn.result (APIConn.roundTrip q a) = Returns (p, None) -> p <> None).
  { intros a0 q. rewrite roundTrip_run.
    destruct (http_Get q) as [err|resp]; [discriminate|].
    destruct (http.Body resp); [discriminate|].
    cbn. intros E. now simplify_eq. }
  cbv beta in Hind.
  destruct (Hind ltac:(intros a0; discriminate) ltac:(intros a0; discriminate) Hrt
                 ltac:(intros a0 q; apply Hrt) lat lon d ex ext a) as [HF HA].
  destruct Hr as [-> | ->]; auto.
Qed.

Lemma nil_error_gives_forecast_witness :
  Some (Forecast.zero, emptyHeap) <> None.
Proof.
  refine (@nil_error_gives_forecast (Sample.ok ∅) Stub.lat Stub.lon
            (APIConn.DateString "2013-05-06T12:00:00-0400") [] false Stub.fresh
            _ (Some (Forecast.zero, emptyHeap)) (or_intror eq_refl) _).
  vm_compute. reflexivity.
Defined.

(** X7. When the request is answered but the body cannot be read, the
    fetch returns a nil forecast and the error of the read; the body is
    not closed, nothing is decoded, and the connection is as before. *)
Theorem read_failure `{Runtime} (lat lon : float64) (d : APIConn.date)
    (ex : list string) (ext : bool) (a : APIConn.t) (url : string)
    (resp : http.Response) (err : error)
    (r : APIConn.run (APIConn.ForecastPtr * option error)) :
  r = APIConn.Forecast lat lon ex ext a \/ r = APIConn.ForecastAtTime lat lon d ex a ->
  In (HTTPGet url (inr resp)) (APIConn.trace r) ->
  http.Body resp = inl err ->
  APIConn.result r = Returns (None, Some err)
  /\ ~ In BodyClose (APIConn.trace r)
  /\ decodings (APIConn.trace r) = []
  /\ APIConn.conn r = a.
Proof.
  intros Hr Hin Hbody.
  pose proof (fetch_run_ind
    (fun a r => In (HTTPGet url (inr resp)) (APIConn.trace r) ->
       APIConn.result r = Returns (None, Some err)
       /\ ~ In BodyClose (APIConn.trace r)
       /\ decodings (APIConn.trace r) = []
       /\ APIConn.conn r = a)) as Hind.
  assert (Hrt : forall a q,
            In (HTTPGet url (inr resp)) (APIConn.trace (APIConn.roundTrip q a)) ->
            APIConn.roundTrip q a
            = APIConn.mkRun (Returns (None, Some err)) a
                [Lock; HTTPGet q (inr resp); ReadAll (inl err); Unlock]).
  { intros a0 q Hq. apply roundTrip_answered in Hq.
    now rewrite roundTrip_run, Hq, Hbody. }
  destruct (Hind ltac:(intros a0 [])
                 ltac:(intros a0 [E|[]]; discriminate E)) with (lat := lat) (lon := lon)
                 (d := d) (ex := ex) (ext := ext) (a := a) as [HF HA].
  - intros a0 q Hq. rewrite (Hrt a0 q Hq). cbn. repeat split.
    intros [E|[E|[E|[E|[]]]]]; discriminate E.
  - intros a0 q Hq. apply roundTrip_event in Hq. rewrite (Hrt a0 q Hq). cbn. repeat split.
    intros [E|[E|[E|[E|[E|[E|[]]]]]]]; discriminate E.
  - destruct Hr as [-> | ->]; auto.
Qed.

Lemma read_failure_witness :
  let r := @APIConn.Forecast Sample.unread Stub.lat Stub.lon [] false Stub.used in
  APIConn.result r = Returns (None, Some (foreignError "io" "unexpected EOF"))
  /\ ~ In BodyClose (APIConn.trace r)
  /\ decodings (APIConn.trace r) = []
  /\ APIConn.conn r = Stub.used.
Proof.
  intros r.
  refine (@read_failure Sample.unread Stub.lat Stub.lon APIConn.DateOther [] false
            Stub.used
            "https://api.forecast.io/forecast/KEY/37.826700,-122.423000?units=si&exclude="
            (http.mkResponse {[ callsHeader := ["7"] ]}
               (inl (foreignError "io" "unexpected EOF")))
            (foreignError "io" "unexpected EOF") r (or_introl eq_refl) _ eq_refl).
  vm_compute. tauto.
Defined.

(** X8. A fetch changes the connection only if it has read a body: after
    a call rejected by validation, a call that panics, a failed request
    or a failed read, the connection is exactly as before. *)
Theorem untouched_without_body `{Runtime} (lat lon : float64) (d : APIConn.date)
    (ex : list string) (ext : bool) (a : APIConn.t)
    (r : APIConn.run (APIConn.ForecastPtr * option error)) :
  r = APIConn.Forecast lat lon ex ext a \/ r = APIConn.ForecastAtTime lat lon d ex a ->
  (forall body, ~ In (ReadAll (inr body)) (APIConn.trace r)) ->
  APIConn.conn r = a.
Proof.
  intros Hr.
  pose proof (fetch_run_ind
    (fun a r => (forall body, ~ In (ReadAll (inr body)) (APIConn.trace r)) ->
                APIConn.conn r = a)) as Hind.
  assert (Hrt : forall a q pre,
            (forall body, ~ In (ReadAll (inr body))
                              (pre ++ APIConn.trace (APIConn.roundTrip q a))%list) ->
            APIConn.conn (APIConn.roundTrip q a) = a).
  { intros a0 q pre. rewrite roundTrip_run.
    destruct (http_Get q) as [err|resp]; [reflexivity|].
    destruct (http.Body resp) as [err|body]; [reflexivity|].
    intros Hno. exfalso. apply (Hno body). apply in_or_app. right.
    cbn. tauto. }
  cbv beta in Hind.
  destruct (Hind ltac:(intros a0 _; reflexivity) ltac:(intros a0 _; reflexivity)
                 ltac:(intros a0 q; apply (Hrt a0 q []))
                 ltac:(intros a0 q; apply (Hrt a0 q [_; _]))
                 lat lon d ex ext a) as [HF HA].
  destruct Hr as [-> | ->]; auto.
Qed.

Lemma untouched_without_body_witness :
  APIConn.conn (@APIConn.ForecastAtTime Sample.down Stub.lat Stub.lon
                  (APIConn.DateInt64 1609459200) ["hourly"] Stub.used)
  = Stub.used.
Proof.
  refine (@untouched_without_body Sample.down Stub.lat Stub.lon
            (APIConn.DateInt64 1609459200) ["hourly"] false Stub.used _
            (or_intror eq_refl) _).
  vm_compute. intros body Hin.
  repeat (destruct Hin as [E|Hin]; [discriminate E|]). exact Hin.
Defined.


(* ===================================================================== *)
(** * The requests of ForecastAtTime *)
(* ===================================================================== *)

Lemma forecastURL_at (key : string) (lat lon : float64) (seg unit : string)
    (ex : list string) :
  forecastURL key lat lon (Some seg) unit ex false
  = "https://api.forecast.io/forecast" +:+ "/" +:+ key +:+ "/"
      +:+ strconv.FormatFloat lat +:+ "," +:+ strconv.FormatFloat lon
      +:+ "," +:+ seg +:+ "?units=" +:+ unit +:+ "&exclude=" +:+ strings.Join ex ",".
Proof.
  unfold forecastURL, baseURL. cbn [String.append].
  repeat (rewrite append_assoc; cbn [String.append]).
  now rewrite append_nil_r.
Qed.

Lemma requests_loads_roundTrip `{Runtime} (q : string) (a : APIConn.t) (k u : value) :
  requests (Load F_apiKey k :: Load F_units u :: APIConn.trace (APIConn.roundTrip q a))
  = [q].
Proof.
  destruct (roundTrip_trace q a) as (rest & -> & Hrest).
  cbn [requests flat_map app]. fold (requests rest). now rewrite Hrest.
Qed.

(** X10. With a valid exclude list, [ForecastAtTime] sends one request,
    to the URL of [Forecast] with a time segment after the coordinates:
    an [int64] in decimal, a [time.Time] as its Unix seconds in decimal,
    a string as it is, unchecked. The suffix [&extend=hourly] is never
    added. *)
Theorem ForecastAtTime_requests `{Runtime} (lat lon : float64) (ex : list string)
    (a : APIConn.t) (i : Z) (t : time.Time) (s : string) :
  (forall e, In e ex -> In e validExcludes) ->
  let url seg :=
    "https://api.forecast.io/forecast" +:+ "/" +:+ APIConn.apiKey a +:+ "/"
      +:+ strconv.FormatFloat lat +:+ "," +:+ strconv.FormatFloat lon
      +:+ "," +:+ seg +:+ "?units=" +:+ APIConn.units a
      +:+ "&exclude=" +:+ strings.Join ex "," in
  requests (APIConn.trace (APIConn.ForecastAtTime lat lon (APIConn.DateInt64 i) ex a))
  = [url (strconv.FormatInt i)]
  /\ requests (APIConn.trace (APIConn.ForecastAtTime lat lon (APIConn.DateTime t) ex a))
     = [url (strconv.FormatInt (time.Time_Unix t))]
  /\ requests (APIConn.trace (APIConn.ForecastAtTime lat lon (APIConn.DateString s) ex a))
     = [url s].
Proof.
  intros Hok url. apply ForecastAtTime_excludes_None in Hok. subst url. cbv beta.
  rewrite <- !forecastURL_at.
  rewrite (ForecastAtTime_run lat lon (APIConn.DateInt64 i) _ ex a Hok eq_refl).
  rewrite (ForecastAtTime_run lat lon (APIConn.DateTime t) _ ex a Hok eq_refl).
  rewrite (ForecastAtTime_run lat lon (APIConn.DateString s) _ ex a Hok eq_refl).
  cbn [APIConn.trace]. rewrite !requests_loads_roundTrip. repeat split.
Qed.

Lemma ForecastAtTime_requests_witness :
  requests (APIConn.trace
              (@APIConn.ForecastAtTime Sample.down Stub.lat Stub.lon
                 (APIConn.DateString "2013-05-06T12:00:00-0400") ["daily"] Stub.used))
  = ["https://api.forecast.io/forecast/KEY/37.826700,-122.423000,2013-05-06T12:00:00-0400?units=si&exclude=daily"].
Proof.
  refine (proj2 (proj2 (@ForecastAtTime_requests Sample.down Stub.lat Stub.lon
                          ["daily"] Stub.used 0 time.zero "2013-05-06T12:00:00-0400" _))).
  simpl. intros e [<-|[]]. tauto.
Defined.

(** X11. A date given as [time.Unix(sec, 0)] and the same instant given
    as the [int64] [sec] make the same call: same request, same result,
    same connection afterwards. *)
Theorem ForecastAtTime_Time_is_int64 `{Runtime} (lat lon : float64) (sec : Z)
    (ex : list string) (a : APIConn.t) :
  isInt64 sec ->
  APIConn.ForecastAtTime lat lon (APIConn.DateTime (time.Unix sec 0)) ex a
  = APIConn.ForecastAtTime lat lon (APIConn.DateInt64 sec) ex a.
Proof.
  intros Hsec. destruct (APIConn.ForecastAtTime_excludes ex) as [err|] eqn:Hex.
  - now rewrite !(ForecastAtTime_rejected _ _ _ _ _ _ Hex).
  - rewrite (ForecastAtTime_run lat lon (APIConn.DateInt64 sec) _ ex a Hex eq_refl).
    rewrite (ForecastAtTime_run lat lon (APIConn.DateTime (time.Unix sec 0)) _ ex a Hex eq_refl).
    now rewrite (proj1 (Unix_seconds sec Hsec)).
Qed.

Lemma ForecastAtTime_Time_is_int64_witness :
  @APIConn.ForecastAtTime Sample.down Stub.lat Stub.lon
    (APIConn.DateTime (time.Unix 1609459200 0)) [] Stub.fresh
  = @APIConn.ForecastAtTime Sample.down Stub.lat Stub.lon
      (APIConn.DateInt64 1609459200) [] Stub.fresh.
Proof.
  apply (@ForecastAtTime_Time_is_int64 Sample.down Stub.lat Stub.lon 1609459200 []
           Stub.fresh).
  unfold isInt64. lia.
Defined.

(** X12. A date of a dynamic type the switch does not list (a float, a
    nil interface, ...) is not refused: with a valid exclude list the
    query stays the empty string and that is what is requested. *)
Theorem ForecastAtTime_unlisted_type `{Runtime} (lat lon : float64) (ex : list string)
    (a : APIConn.t) :
  (forall e, In e ex -> In e validExcludes) ->
  requests (APIConn.trace (APIConn.ForecastAtTime lat lon APIConn.DateOther ex a)) = [""]
  /\ APIConn.ForecastAtTime lat lon APIConn.DateOther ex a = APIConn.roundTrip "" a.
Proof.
  intros Hok. apply ForecastAtTime_excludes_None in Hok.
  rewrite (ForecastAtTime_other_run lat lon ex a Hok). split; [|reflexivity].
  destruct (roundTrip_trace "" a) as (rest & -> & Hrest).
  cbn [requests flat_map app]. fold (requests rest). now rewrite Hrest.
Qed.

Lemma ForecastAtTime_unlisted_type_witness :
  requests (APIConn.trace
              (@APIConn.ForecastAtTime Sample.down Stub.lat Stub.lon APIConn.DateOther
                 ["alerts"] Stub.fresh))
  = [""].
Proof.
  refine (proj1 (@ForecastAtTime_unlisted_type Sample.down Stub.lat Stub.lon ["alerts"]
                   Stub.fresh _)).
  simpl. intros e [<-|[]]. tauto.
Defined.

(* ===================================================================== *)
(** * The two validations compared *)
(* ===================================================================== *)

(** X13. The two operations differ on an exclude list by the empty
    string alone: [ForecastAtTime] refuses a list (it returns the
    invalid-exclude error and does nothing else) exactly when [Forecast]
    refuses it or the list holds an empty string. *)
Theorem validation_asymmetry `{Runtime} (lat lon : float64) (d : APIConn.date)
    (ex : list string) (ext : bool) (a : APIConn.t) :
  let refused (r : APIConn.run (APIConn.ForecastPtr * option error)) :=
    r = APIConn.mkRun
          (Returns (None, Some (errors.New "Invalid exclude requested"))) a [] in
  refused (APIConn.ForecastAtTime lat lon d ex a)
  <-> refused (APIConn.Forecast lat lon ex ext a) \/ In "" ex.
Proof.
  intros refused. subst refused. cbv beta.
  assert (HF : APIConn.Forecast lat lon ex ext a
               = APIConn.mkRun
                   (Returns (None, Some (errors.New "Invalid exclude requested"))) a []
               <-> APIConn.Forecast_excludes ex <> None).
  { fetch_cases Hex; [split; [discriminate | reflexivity]|].
    split; [intros E | congruence].
    apply (f_equal APIConn.trace) in E. discriminate E. }
  assert (HA : APIConn.ForecastAtTime lat lon d ex a
               = APIConn.mkRun
                   (Returns (None, Some (errors.New "Invalid exclude requested"))) a []
               <-> APIConn.ForecastAtTime_excludes ex <> None).
  { fetch_cases Hex; [split; [discriminate | reflexivity]| | | | |];
      (split; [intros E | congruence]);
      apply (f_equal APIConn.trace) in E; discriminate E. }
  rewrite HF, HA. clear HF HA.
  assert (Hempty : ~ In "" validExcludes).
  { simpl. intros [E|[E|[E|[E|[E|[E|[]]]]]]]; discriminate E. }
  split.
  - intros Hno.
    destruct (APIConn.Forecast_excludes ex) eqn:HFx; [left; discriminate|].
    right. destruct (in_dec string_dec "" ex) as [Hin|Hnin]; [exact Hin|].
    exfalso. apply Hno. apply ForecastAtTime_excludes_None.
    intros e He. destruct (proj1 (Forecast_excludes_None ex) HFx e He) as [->|Hv];
      [contradiction | exact Hv].
  - intros [HFx|Hin] Hnone.
    + apply HFx. apply Forecast_excludes_None. intros e He. right.
      exact (proj1 (ForecastAtTime_excludes_None ex) Hnone e He).
    + exact (Hempty (proj1 (ForecastAtTime_excludes_None ex) Hnone "" Hin)).
Qed.

(* ===================================================================== *)
(** * More on ParseTimes *)
(* ===================================================================== *)

(** A loop over a slice runs to its end exactly when the slice has no nil
    entry. *)
Lemma rangeAssign_done {A : Type} (body : A -> A) (ps : list ptr) (objs : gmap loc A) :
  (rangeAssign body ps objs).1 = true <-> ~ In None ps.
Proof.
  revert objs. induction ps as [|[l|] ps IH]; intros objs; cbn [rangeAssign].
  - split; [intros _ [] | reflexivity].
  - rewrite IH. split.
    + intros Hno [E|Hin]; [discriminate E | contradiction].
    + intros Hno Hin. apply Hno. now right.
  - split; [discriminate | intros Hno; exfalso; apply Hno; now left].
Qed.

(** Whatever a loop does to the heap, an object stays related to what it
    was by any relation the body respects, and no object comes or goes. *)
Lemma rangeAssign_keeps {A : Type} (body : A -> A) (R : A -> A -> Prop)
    (ps : list ptr) (objs : gmap loc A) (l : loc) :
  (forall x, R x x) -> (forall x y, R x y -> R x (body y)) ->
  option_Forall2 R (objs !! l) ((rangeAssign body ps objs).2 !! l).
Proof.
  intros Hrefl Hbody.
  enough (Hgen : forall objs' : gmap loc A,
             option_Forall2 R (objs !! l) (objs' !! l) ->
             option_Forall2 R (objs !! l) ((rangeAssign body ps objs').2 !! l)).
  { apply Hgen. destruct (objs !! l); constructor. apply Hrefl. }
  induction ps as [|[l'|] ps IH]; intros objs' Hrel; cbn [rangeAssign snd];
    [exact Hrel | | exact Hrel].
  apply IH. destruct (decide (l' = l)) as [->|Hne].
  - rewrite lookup_alter_eq. destruct Hrel; constructor. now apply Hbody.
  - now rewrite lookup_alter_ne.
Qed.

Ltac open_record :=
  repeat match goal with
         | x : currently.t |- _ => destruct x
         | x : minuteData.t |- _ => destruct x
         | x : hourData.t |- _ => destruct x
         | x : dayData.t |- _ => destruct x
         | x : alert.t |- _ => destruct x
         end.

Lemma minute_raw_kept (x y : minuteData.t) :
  minuteData.same_raw x y -> minuteData.same_raw x (Forecast.minuteTimes y).
Proof. open_record. cbv beta iota zeta delta -[time.Unix]. tauto. Qed.

Lemma hour_raw_kept (x y : hourData.t) :
  hourData.same_raw x y -> hourData.same_raw x (Forecast.hourTimes y).
Proof. open_record. cbv beta iota zeta delta -[time.Unix]. tauto. Qed.

Lemma day_raw_kept (x y : dayData.t) :
  dayData.same_raw x y -> dayData.same_raw x (Forecast.dayTimes y).
Proof. open_record. cbv beta iota zeta delta -[time.Unix]. tauto. Qed.

Lemma alert_raw_kept (x y : alert.t) :
  alert.same_raw x y -> alert.same_raw x (Forecast.alertTimes y).
Proof. open_record. cbv beta iota zeta delta -[time.Unix]. tauto. Qed.

(** X14. [ParseTimes] panics, with a nil pointer dereference, exactly
    when one of the four slices holds a nil pointer; otherwise it
    returns. *)
Theorem ParseTimes_panics_iff (f : Forecast.t) (h : Heap) :
  (Forecast.outcome (Forecast.ParseTimes f h) = Panics nilDereference <-> ~ noNil f)
  /\ (Forecast.outcome (Forecast.ParseTimes f h) = Returns tt <-> noNil f).
Proof.
  unfold noNil, Forecast.ParseTimes.
  cbn [Forecast.Minutely Forecast.Hourly Forecast.Daily Forecast.Alerts
       Forecast.set_Currently minutes hours days alerts].
  pose proof (rangeAssign_done Forecast.minuteTimes
                (minutely.Data (Forecast.Minutely f)) (minutes h)) as Dm.
  pose proof (rangeAssign_done Forecast.hourTimes
                (hourly.Data (Forecast.Hourly f)) (hours h)) as Dh.
  pose proof (rangeAssign_done Forecast.dayTimes
                (daily.Data (Forecast.Daily f)) (days h)) as Dd.
  pose proof (rangeAssign_done Forecast.alertTimes (Forecast.Alerts f) (alerts h)) as Da.
  destruct (rangeAssign Forecast.minuteTimes _ (minutes h)) as [dm ms].
  destruct (rangeAssign Forecast.hourTimes _ (hours h)) as [dh hs].
  destruct (rangeAssign Forecast.dayTimes _ (days h)) as [dd ds].
  destruct (rangeAssign Forecast.alertTimes _ (alerts h)) as [da als].
  cbn [fst snd] in *.
  set (all := dm && dh && dd && da).
  assert (Hout : Forecast.outcome
                   (if negb dm then Forecast.mkAfter (Panics nilDereference)
                        (Forecast.set_Currently
                           (currently.set_Time
                              (time.Unix (currently.TimeUnix (Forecast.Currently f)) 0)
                              (Forecast.Currently f)) f)
                        (mkHeap ms (hours h) (days h) (alerts h))
                    else if negb dh then Forecast.mkAfter (Panics nilDereference)
                        (Forecast.set_Currently
                           (currently.set_Time
                              (time.Unix (currently.TimeUnix (Forecast.Currently f)) 0)
                              (Forecast.Currently f)) f)
                        (mkHeap ms hs (days h) (alerts h))
                    else if negb dd then Forecast.mkAfter (Panics nilDereference)
                        (Forecast.set_Currently
                           (currently.set_Time
                              (time.Unix (currently.TimeUnix (Forecast.Currently f)) 0)
                              (Forecast.Currently f)) f)
                        (mkHeap ms hs ds (alerts h))
                    else if negb da then Forecast.mkAfter (Panics nilDereference)
                        (Forecast.set_Currently
                           (currently.set_Time
                              (time.Unix (currently.TimeUnix (Forecast.Currently f)) 0)
                              (Forecast.Currently f)) f)
                        (mkHeap ms hs ds als)
                    else Forecast.mkAfter (Returns tt)
                        (Forecast.set_Currently
                           (currently.set_Time
                              (time.Unix (currently.TimeUnix (Forecast.Currently f)) 0)
                              (Forecast.Currently f)) f)
                        (mkHeap ms hs ds als))
                 = if all then Returns tt else Panics nilDereference).
  { subst all. destruct dm, dh, dd, da; reflexivity. }
  assert (Hall : all = true <-> ~ In None (minutely.Data (Forecast.Minutely f))
                              /\ ~ In None (hourly.Data (Forecast.Hourly f))
                              /\ ~ In None (daily.Data (Forecast.Daily f))
                              /\ ~ In None (Forecast.Alerts f)).
  { subst all. rewrite !andb_true_iff, Dm, Dh, Dd, Da. tauto. }
  cbn [minutes hours days alerts] in *. rewrite Hout. clear Hout.
  destruct all; split; split; intros Hx; try discriminate Hx; try reflexivity.
  - exfalso. apply Hx. now apply Hall.
  - now apply Hall.
  - intros Hn. apply Hall in Hn. discriminate Hn.
  - apply Hall in Hx. discriminate Hx.
Qed.

(** X15. Whether it returns or panics, [ParseTimes] converts the time of
    the current conditions, keeps every other field of the forecast (the
    slices of pointers included), keeps every raw field of every object
    of the heap, and neither adds nor removes an object. *)
Theorem ParseTimes_keeps_raw (f : Forecast.t) (h : Heap) :
  let r := Forecast.ParseTimes f h in
  sameBlocks f (Forecast.forecast r)
  /\ currently.parsed (Forecast.Currently f) (Forecast.Currently (Forecast.forecast r))
  /\ forall l : loc,
       option_Forall2 minuteData.same_raw (minutes h !! l) (minutes (Forecast.heap r) !! l)
       /\ option_Forall2 hourData.same_raw (hours h !! l) (hours (Forecast.heap r) !! l)
       /\ option_Forall2 dayData.same_raw (days h !! l) (days (Forecast.heap r) !! l)
       /\ option_Forall2 alert.same_raw (alerts h !! l) (alerts (Forecast.heap r) !! l).
Proof.
  intros r. subst r. unfold Forecast.ParseTimes.
  cbn [Forecast.Minutely Forecast.Hourly Forecast.Daily Forecast.Alerts
       Forecast.set_Currently minutes hours days alerts].
  assert (Km := fun l => rangeAssign_keeps Forecast.minuteTimes minuteData.same_raw
                  (minutely.Data (Forecast.Minutely f)) (minutes h) l
                  ltac:(intros x; repeat split) minute_raw_kept).
  assert (Kh := fun l => rangeAssign_keeps Forecast.hourTimes hourData.same_raw
                  (hourly.Data (Forecast.Hourly f)) (hours h) l
                  ltac:(intros x; repeat split) hour_raw_kept).
  assert (Kd := fun l => rangeAssign_keeps Forecast.dayTimes dayData.same_raw
                  (daily.Data (Forecast.Daily f)) (days h) l
                  ltac:(intros x; repeat split) day_raw_kept).
  assert (Ka := fun l => rangeAssign_keeps Forecast.alertTimes alert.same_raw
                  (Forecast.Alerts f) (alerts h) l
                  ltac:(intros x; repeat split) alert_raw_kept).
  assert (Rm : forall l, option_Forall2 minuteData.same_raw (minutes h !! l) (minutes h !! l))
    by (intros l; destruct (minutes h !! l); constructor; repeat split).
  assert (Rh : forall l, option_Forall2 hourData.same_raw (hours h !! l) (hours h !! l))
    by (intros l; destruct (hours h !! l); constructor; repeat split).
  assert (Rd : forall l, option_Forall2 dayData.same_raw (days h !! l) (days h !! l))
    by (intros l; destruct (days h !! l); constructor; repeat split).
  assert (Ra : forall l, option_Forall2 alert.same_raw (alerts h !! l) (alerts h !! l))
    by (intros l; destruct (alerts h !! l); constructor; repeat split).
  destruct (rangeAssign Forecast.minuteTimes _ (minutes h)) as [dm ms].
  destruct (rangeAssign Forecast.hourTimes _ (hours h)) as [dh hs].
  destruct (rangeAssign Forecast.dayTimes _ (days h)) as [dd ds].
  destruct (rangeAssign Forecast.alertTimes _ (alerts h)) as [da als].
  cbn [fst snd] in *.
  assert (Hf : sameBlocks f
                 (Forecast.set_Currently
                    (currently.set_Time
                       (time.Unix (currently.TimeUnix (Forecast.Currently f)) 0)
                       (Forecast.Currently f)) f)
               /\ currently.parsed (Forecast.Currently f)
                    (currently.set_Time
                       (time.Unix (currently.TimeUnix (Forecast.Currently f)) 0)
                       (Forecast.Currently f))).
  { destruct f as [? ? ? ? c ? ? ? ? ?]. destruct c. split; repeat split. }
  destruct Hf as [Hs Hc].
  destruct dm, dh, dd, da;
    cbn [negb Forecast.forecast Forecast.heap Forecast.Currently Forecast.set_Currently
         minutes hours days alerts];
    (split; [exact Hs | split; [exact Hc | intros l; repeat split; auto]]).
Qed.

(** Without nil entries [ParseTimes] returns, and the heap is what the
    four loops leave. *)
Lemma ParseTimes_noNil (f : Forecast.t) (h : Heap) :
  noNil f ->
  Forecast.ParseTimes f h
  = Forecast.mkAfter (Returns tt)
      (Forecast.set_Currently
         (currently.set_Time (time.Unix (currently.TimeUnix (Forecast.Currently f)) 0)
            (Forecast.Currently f)) f)
      (mkHeap
         (rangeAssign Forecast.minuteTimes (minutely.Data (Forecast.Minutely f)) (minutes h)).2
         (rangeAssign Forecast.hourTimes (hourly.Data (Forecast.Hourly f)) (hours h)).2
         (rangeAssign Forecast.dayTimes (daily.Data (Forecast.Daily f)) (days h)).2
         (rangeAssign Forecast.alertTimes (Forecast.Alerts f) (alerts h)).2).
Proof.
  intros (Hm & Hh & Hd & Ha). unfold Forecast.ParseTimes.
  cbn [Forecast.Minutely Forecast.Hourly Forecast.Daily Forecast.Alerts
       Forecast.set_Currently minutes hours days alerts].
  apply (rangeAssign_done Forecast.minuteTimes _ (minutes h)) in Hm.
  apply (rangeAssign_done Forecast.hourTimes _ (hours h)) in Hh.
  apply (rangeAssign_done Forecast.dayTimes _ (days h)) in Hd.
  apply (rangeAssign_done Forecast.alertTimes _ (alerts h)) in Ha.
  destruct (rangeAssign Forecast.minuteTimes _ (minutes h)) as [dm ms].
  destruct (rangeAssign Forecast.hourTimes _ (hours h)) as [dh hs].
  destruct (rangeAssign Forecast.dayTimes _ (days h)) as [dd ds].
  destruct (rangeAssign Forecast.alertTimes _ (alerts h)) as [da als].
  cbn [fst snd] in *. subst. reflexivity.
Qed.

(** An object a loop has reached is the loop body of what it was. *)
Lemma rangeAssign_reached {A : Type} (body : A -> A) (ps : list ptr)
    (objs : gmap loc A) (l : loc) (y : A) :
  (forall x, body (body x) = body x) ->
  ~ In None ps -> In (Some l) ps ->
  (rangeAssign body ps objs).2 !! l = Some y ->
  exists x, objs !! l = Some x /\ y = body x.
Proof.
  intros Hidem Hnil Hin Hy.
  destruct (rangeAssign_lookup body Hidem ps objs Hnil) as [_ Hl].
  rewrite (proj1 (Hl l) Hin) in Hy.
  destruct (objs !! l) as [x|]; [|discriminate Hy].
  exists x. split; [reflexivity|]. cbn in Hy. congruence.
Qed.

Lemma minute_roundTrips (x : minuteData.t) :
  isInt64 (minuteData.TimeUnix (Forecast.minuteTimes x)) ->
  time.Time_Unix (minuteData.Time (Forecast.minuteTimes x))
  = minuteData.TimeUnix (Forecast.minuteTimes x).
Proof. destruct x. cbn. intros Hx. now apply Unix_seconds. Qed.

Lemma hour_roundTrips (x : hourData.t) :
  isInt64 (hourData.TimeUnix (Forecast.hourTimes x)) ->
  time.Time_Unix (hourData.Time (Forecast.hourTimes x))
  = hourData.TimeUnix (Forecast.hourTimes x).
Proof. destruct x. cbn. intros Hx. now apply Unix_seconds. Qed.

Lemma alert_roundTrips (x : alert.t) :
  isInt64 (alert.ExpiresUnix (Forecast.alertTimes x)) ->
  time.Time_Unix (alert.Expires (Forecast.alertTimes x))
  = alert.ExpiresUnix (Forecast.alertTimes x).
Proof. destruct x. cbn. intros Hx. now apply Unix_seconds. Qed.

Lemma day_roundTrips (x : dayData.t) :
  dayRawInt64 (Forecast.dayTimes x) -> dayRoundTrips (Forecast.dayTimes x).
Proof.
  destruct x. unfold dayRawInt64, dayRoundTrips.
  cbv beta iota zeta delta -[time.Unix time.Time_Unix isInt64].
  intros (H1 & H2 & H3 & H4 & H5 & H6 & H7 & H8).
  repeat split; now apply Unix_seconds.
Qed.

(** X16. After [ParseTimes] on a forecast without nil entries, the
    structured times read back as the raw fields: [Unix()] of the time of
    the current conditions, of every minute, hour and day sample the
    slices point to (all eight times of a day) and of every alert expiry
    is the paired raw integer, for raw integers in the range of
    [int64]. *)
Theorem ParseTimes_Unix_round_trip (f : Forecast.t) (h : Heap) :
  noNil f ->
  let r := Forecast.ParseTimes f h in
  let c := Forecast.Currently (Forecast.forecast r) in
  (isInt64 (currently.TimeUnix c) -> time.Time_Unix (currently.Time c) = currently.TimeUnix c)
  /\ (forall l m, In (Some l) (minutely.Data (Forecast.Minutely f)) ->
        minutes (Forecast.heap r) !! l = Some m -> isInt64 (minuteData.TimeUnix m) ->
        time.Time_Unix (minuteData.Time m) = minuteData.TimeUnix m)
  /\ (forall l m, In (Some l) (hourly.Data (Forecast.Hourly f)) ->
        hours (Forecast.heap r) !! l = Some m -> isInt64 (hourData.TimeUnix m) ->
        time.Time_Unix (hourData.Time m) = hourData.TimeUnix m)
  /\ (forall l d, In (Some l) (daily.Data (Forecast.Daily f)) ->
        days (Forecast.heap r) !! l = Some d -> dayRawInt64 d -> dayRoundTrips d)
  /\ (forall l a, In (Some l) (Forecast.Alerts f) ->
        alerts (Forecast.heap r) !! l = Some a -> isInt64 (alert.ExpiresUnix a) ->
        time.Time_Unix (alert.Expires a) = alert.ExpiresUnix a).
Proof.
  intros Hnil r c. subst c r. rewrite (ParseTimes_noNil f h Hnil).
  destruct Hnil as (Hm & Hh & Hd & Ha).
  cbn [Forecast.forecast Forecast.heap minutes hours days alerts
       Forecast.Currently Forecast.set_Currently].
  split; [|split; [|split; [|split]]].
  - destruct (Forecast.Currently f). cbn. intros Hx. now apply Unix_seconds.
  - intros l m Hin Hl.
    destruct (rangeAssign_reached _ _ _ _ _ minuteTimes_idem Hm Hin Hl) as (x & _ & ->).
    apply minute_roundTrips.
  - intros l m Hin Hl.
    destruct (rangeAssign_reached _ _ _ _ _ hourTimes_idem Hh Hin Hl) as (x & _ & ->).
    apply hour_roundTrips.
  - intros l d Hin Hl.
    destruct (rangeAssign_reached _ _ _ _ _ dayTimes_idem Hd Hin Hl) as (x & _ & ->).
    apply day_roundTrips.
  - intros l a Hin Hl.
    destruct (rangeAssign_reached _ _ _ _ _ alertTimes_idem Ha Hin Hl) as (x & _ & ->).
    apply alert_roundTrips.
Qed.

Lemma ParseTimes_Unix_round_trip_witness :
  exists a, alerts (Forecast.heap (Forecast.ParseTimes Stub.forecast1 Stub.heap1)) !! 1%positive
            = Some a
            /\ alert.ExpiresUnix a = 1609545600
            /\ time.Time_Unix (alert.Expires a) = 1609545600.
Proof.
  assert (Hnil : noNil Stub.forecast1).
  { unfold noNil. cbn.
    repeat split; intros Hin;
      repeat (destruct Hin as [E|Hin]; [discriminate E|]); exact Hin. }
  pose proof (ParseTimes_Unix_round_trip Stub.forecast1 Stub.heap1 Hnil)
    as (_ & _ & _ & _ & Ha).
  exists (Forecast.alertTimes Stub.alert1).
  assert (Hl : alerts (Forecast.heap (Forecast.ParseTimes Stub.forecast1 Stub.heap1))
               !! 1%positive = Some (Forecast.alertTimes Stub.alert1))
    by (vm_compute; reflexivity).
  split; [exact Hl|]. split; [reflexivity|].
  apply (Ha 1%positive _ (or_introl eq_refl) Hl). unfold isInt64. cbn. lia.
Defined.

(* ===================================================================== *)
(** * The sample programs *)
(* ===================================================================== *)

Lemma splitFrom_cons (sep : string) (skip : nat) (s cur : string) :
  exists x rest, strings.splitFrom sep skip s cur = x :: rest.
Proof.
  revert skip cur. induction s as [|c s IH]; intros skip cur; cbn [strings.splitFrom].
  - eauto.
  - destruct skip as [|k]; [|apply IH].
    destruct (String.prefix sep (String c s)); [eauto | apply IH].
Qed.

Lemma Join_cons (x : string) (l : list string) (sep : string) :
  l <> [] -> strings.Join (x :: l) sep = x +:+ sep +:+ strings.Join l sep.
Proof. destruct l; [congruence | reflexivity]. Qed.

(** Splitting on commas and joining with commas gives the text back. *)
Lemma Join_splitFrom (s cur : string) :
  strings.Join (strings.splitFrom "," 0 s cur) "," = cur +:+ s.
Proof.
  revert cur. induction s as [|c s IH]; intros cur.
  - cbn [strings.splitFrom strings.Join]. now rewrite append_nil_r.
  - cbn [strings.splitFrom String.prefix String.length Nat.sub].
    destruct (ascii_dec "," c) as [<-|Hne].
    + replace (String.prefix "" s) with true by (destruct s; reflexivity).
      rewrite Join_cons;
        [rewrite IH; reflexivity
        | destruct (splitFrom_cons "," 0 s "") as (x & rest & ->); discriminate].
    + rewrite IH, append_assoc. reflexivity.
Qed.

Lemma Join_Split (s : string) : strings.Join (strings.Split s ",") "," = s.
Proof. unfold strings.Split. apply Join_splitFrom. Qed.

(** What [main] is left with once the units flag has been looked at. *)
Lemma main_connection (fl : CurrentWeather.flags) :
  APIConn.conn (APIConn.SetUnits (CurrentWeather.units fl)
                  (APIConn.NewConnection (CurrentWeather.key fl)))
  = APIConn.mk (CurrentWeather.key fl) 0
      (if bool_decide (CurrentWeather.units fl ∈ unitsSet)
       then CurrentWeather.units fl else "auto").
Proof.
  unfold APIConn.SetUnits, APIConn.defer, mbind, APIConn.M_bind, APIConn.bind.
  cbn [APIConn.result APIConn.conn APIConn.trace APIConn.emit].
  case_bool_decide; reflexivity.
Qed.

Lemma main_SetUnits_requests (u : string) (a : APIConn.t) :
  requests (APIConn.trace (APIConn.SetUnits u a)) = [].
Proof.
  unfold APIConn.SetUnits, APIConn.defer, mbind, APIConn.M_bind, APIConn.bind.
  cbn [APIConn.result APIConn.conn APIConn.trace APIConn.emit].
  case_bool_decide; reflexivity.
Qed.

Lemma requests_app (t1 t2 : list event) :
  requests (t1 ++ t2) = (requests t1 ++ requests t2)%list.
Proof. unfold requests. apply flat_map_app. Qed.

(** The requests of [main] are those of its call of [Forecast]. *)
Lemma main_requests `{Runtime} (fl : CurrentWeather.flags) :
  requests (CurrentWeather.main fl).2
  = requests
      (APIConn.trace
         (APIConn.Forecast (CurrentWeather.lat fl) (CurrentWeather.lon fl)
            (strings.Split (CurrentWeather.exclude fl) ",") (CurrentWeather.extend fl)
            (APIConn.conn (APIConn.SetUnits (CurrentWeather.units fl)
                             (APIConn.NewConnection (CurrentWeather.key fl)))))).
Proof.
  unfold CurrentWeather.main. cbv zeta.
  set (r1 := APIConn.SetUnits _ _). set (r2 := APIConn.Forecast _ _ _ _ _).
  assert (Hbase : requests (APIConn.trace r1 ++ APIConn.trace r2)
                  = requests (APIConn.trace r2))
    by (rewrite requests_app; subst r1; now rewrite main_SetUnits_requests).
  destruct (APIConn.result r2) as [[p [e|]]|msg]; cbn [snd]; try exact Hbase.
  destruct (callParseTimes p) as [[f' h']|msg]; cbn [snd]; [|exact Hbase].
  change (APIConn.result (APIConn.APICalls (APIConn.conn r2)))
    with (Returns (APIConn.apiCalls (APIConn.conn r2))).
  cbn [snd]. rewrite requests_app, Hbase. apply app_nil_r.
Qed.

(** X17. The command-line sample hands its [-exclude] flag on verbatim:
    when every comma-separated field of the flag is empty or a keyword
    (the empty flag included) and the units flag is a known one, it sends
    one request, whose [exclude] parameter is the text of the flag and
    whose other parts are the key, the coordinates and the units of the
    flags. *)
Theorem CurrentWeather_request `{Runtime} (fl : CurrentWeather.flags) :
  (forall e, In e (strings.Split (CurrentWeather.exclude fl) ",") ->
             e = "" \/ In e validExcludes) ->
  In (CurrentWeather.units fl) validUnits ->
  requests (CurrentWeather.main fl).2
  = [ "https://api.forecast.io/forecast" +:+ "/" +:+ CurrentWeather.key fl +:+ "/"
        +:+ strconv.FormatFloat (CurrentWeather.lat fl) +:+ ","
        +:+ strconv.FormatFloat (CurrentWeather.lon fl)
        +:+ "?units=" +:+ CurrentWeather.units fl
        +:+ "&exclude=" +:+ CurrentWeather.exclude fl
        +:+ (if CurrentWeather.extend fl then "&extend=hourly" else "") ].
Proof.
  intros Hex Hu. rewrite main_requests, main_connection.
  rewrite bool_decide_eq_true_2 by now apply elem_of_unitsSet.
  apply Forecast_excludes_None in Hex.
  rewrite (Forecast_run _ _ _ _ _ Hex). cbn [APIConn.trace APIConn.apiKey APIConn.units].
  match goal with |- context [APIConn.roundTrip ?q ?a] =>
    destruct (roundTrip_trace q a) as (rest & -> & Hrest) end.
  cbn [requests flat_map app]. fold (requests rest). rewrite Hrest.
  unfold forecastURL. rewrite Join_Split. reflexivity.
Qed.

Lemma CurrentWeather_request_witness :
  requests (@CurrentWeather.main (Sample.ok ∅) CurrentWeather.defaults).2
  = ["https://api.forecast.io/forecast//37.826700,-122.423000?units=auto&exclude="]
  /\ requests
       (@CurrentWeather.main (Sample.ok ∅)
          (CurrentWeather.mkFlags "KEY" "minutely,,flags" Stub.lat Stub.lon true "uk")).2
     = ["https://api.forecast.io/forecast/KEY/37.826700,-122.423000?units=uk&exclude=minutely,,flags&extend=hourly"].
Proof.
  split.
  - apply (@CurrentWeather_request (Sample.ok ∅) CurrentWeather.defaults).
    + vm_compute. intros e [<-|[]]. now left.
    + vm_compute. tauto.
  - apply (@CurrentWeather_request (Sample.ok ∅)
             (CurrentWeather.mkFlags "KEY" "minutely,,flags" Stub.lat Stub.lon true "uk")).
    + vm_compute. intros e [<-|[<-|[<-|[]]]]; tauto.
    + vm_compute. tauto.
Defined.

(** X18. The sample drops the error of [SetUnits]: with a units flag
    that is not a known unit it goes on as with [-units auto], to the
    same requests and the same end. *)
Theorem CurrentWeather_unknown_units `{Runtime} (fl : CurrentWeather.flags) :
  ~ In (CurrentWeather.units fl) validUnits ->
  let auto := CurrentWeather.mkFlags (CurrentWeather.key fl) (CurrentWeather.exclude fl)
                (CurrentWeather.lat fl) (CurrentWeather.lon fl)
                (CurrentWeather.extend fl) "auto" in
  (CurrentWeather.main fl).1 = (CurrentWeather.main auto).1
  /\ requests (CurrentWeather.main fl).2 = requests (CurrentWeather.main auto).2.
Proof.
  intros Hu auto. subst auto. split.
  - unfold CurrentWeather.main. cbv zeta.
    cbn [CurrentWeather.key CurrentWeather.exclude CurrentWeather.lat CurrentWeather.lon
         CurrentWeather.extend CurrentWeather.units].
    rewrite !main_connection.
    cbn [CurrentWeather.key CurrentWeather.units].
    rewrite bool_decide_eq_false_2 by (intros Hin; now apply Hu, elem_of_unitsSet).
    rewrite ?bool_decide_eq_true_2 by (apply elem_of_unitsSet; simpl; tauto).
    change (APIConn.conn (APIConn.SetUnits "auto" (APIConn.NewConnection (CurrentWeather.key fl))))
      with (APIConn.mk (CurrentWeather.key fl) 0 "auto").
    set (r2 := APIConn.Forecast _ _ _ _ _).
    destruct (APIConn.result r2) as [[p [e|]]|msg]; try reflexivity.
    destruct (callParseTimes p) as [[f' h']|msg]; reflexivity.
  - rewrite !main_requests.
    cbn [CurrentWeather.key CurrentWeather.exclude CurrentWeather.lat CurrentWeather.lon
         CurrentWeather.extend CurrentWeather.units].
    rewrite !main_connection.
    cbn [CurrentWeather.key CurrentWeather.units].
    rewrite bool_decide_eq_false_2 by (intros Hin; now apply Hu, elem_of_unitsSet).
    rewrite ?bool_decide_eq_true_2 by (apply elem_of_unitsSet; simpl; tauto).
    change (APIConn.conn (APIConn.SetUnits "auto" (APIConn.NewConnection (CurrentWeather.key fl))))
      with (APIConn.mk (CurrentWeather.key fl) 0 "auto").
    reflexivity.
Qed.

Lemma CurrentWeather_unknown_units_witness :
  requests
    (@CurrentWeather.main (Sample.ok ∅)
       (CurrentWeather.mkFlags "KEY" "" Stub.lat Stub.lon false "metric")).2
  = ["https://api.forecast.io/forecast/KEY/37.826700,-122.423000?units=auto&exclude="].
Proof.
  refine (eq_trans
            (proj2 (@CurrentWeather_unknown_units (Sample.ok ∅)
                      (CurrentWeather.mkFlags "KEY" "" Stub.lat Stub.lon false "metric") _))
            _).
  - simpl. intros [E|[E|[E|[E|[E|[]]]]]]; discriminate E.
  - vm_compute. reflexivity.
Defined.

(** X19. With a field of the [-exclude] flag that is neither empty nor a
    keyword, the sample stops in [panic(err)] with the invalid-exclude
    error, and nothing has been requested. *)
Theorem CurrentWeather_bad_exclude `{Runtime} (fl : CurrentWeather.flags) (e : string) :
  In e (strings.Split (CurrentWeather.exclude fl) ",") ->
  e <> "" -> ~ In e validExcludes ->
  (CurrentWeather.main fl).1
  = CurrentWeather.PanicError (errors.New "Invalid exclude requested")
  /\ requests (CurrentWeather.main fl).2 = [].
Proof.
  intros He Hne Hbad.
  destruct (APIConn.Forecast_excludes (strings.Split (CurrentWeather.exclude fl) ","))
    as [err|] eqn:Hex.
  2:{ exfalso. destruct (proj1 (Forecast_excludes_None _) Hex e He); contradiction. }
  split.
  - unfold CurrentWeather.main. cbv zeta.
    now rewrite (Forecast_rejected _ _ _ _ _ _ Hex).
  - rewrite main_requests. now rewrite (Forecast_rejected _ _ _ _ _ _ Hex).
Qed.

Lemma CurrentWeather_bad_exclude_witness :
  let r := @CurrentWeather.main (Sample.ok ∅)
             (CurrentWeather.mkFlags "KEY" "hourly,weekly" Stub.lat Stub.lon false "si") in
  r.1 = CurrentWeather.PanicError (errors.New "Invalid exclude requested")
  /\ requests r.2 = [].
Proof.
  apply (@CurrentWeather_bad_exclude (Sample.ok ∅)
           (CurrentWeather.mkFlags "KEY" "hourly,weekly" Stub.lat Stub.lon false "si")
           "weekly").
  - vm_compute. tauto.
  - discriminate.
  - simpl. intros [E|[E|[E|[E|[E|[E|[]]]]]]]; discriminate E.
Defined.



(** X21. The web sample drops the error of [Forecast] and calls
    [ParseTimes] on what it got: when the request fails, or its body
    cannot be read, the handler panics with a nil pointer dereference. *)
Theorem weather_nil_report `{Runtime} (key : string) (lat lon : float64) (err : error) :
  let url := "https://api.forecast.io/forecast" +:+ "/" +:+ key +:+ "/"
               +:+ strconv.FormatFloat lat +:+ "," +:+ strconv.FormatFloat lon
               +:+ "?units=auto&exclude=hourly,minutely" in
  (http_Get url = inl err
   \/ exists resp, http_Get url = inr resp /\ http.Body resp = inl err) ->
  (WebCurrentWeather.weather key lat lon).1 = Panics nilDereference.
Proof.
  intros url Hfail. unfold WebCurrentWeather.weather. cbv zeta.
  assert (Hex : APIConn.Forecast_excludes ["hourly"; "minutely"] = None)
    by (vm_compute; reflexivity).
  rewrite (Forecast_run _ _ _ _ _ Hex). cbn [APIConn.result APIConn.trace].
  assert (Hurl : forecastURL (APIConn.apiKey (APIConn.NewConnection key)) lat lon None
                   (APIConn.units (APIConn.NewConnection key)) ["hourly"; "minutely"] false
                 = url).
  { subst url. unfold forecastURL, baseURL. cbn [APIConn.NewConnection APIConn.apiKey
      APIConn.units strings.Join String.append].
    repeat (rewrite append_assoc; cbn [String.append]). reflexivity. }
  rewrite Hurl, roundTrip_run.
  destruct Hfail as [-> | (resp & -> & ->)]; reflexivity.
Qed.

Lemma weather_nil_report_witness :
  (@WebCurrentWeather.weather Sample.down "KEY" Stub.lat Stub.lon).1
  = Panics nilDereference.
Proof.
  apply (@weather_nil_report Sample.down "KEY" Stub.lat Stub.lon
           (foreignError "net/http" "dial tcp: connection refused")).
  left. reflexivity.
Defined.

(* ===================================================================== *)
(** * Calls one after the other *)
(* ===================================================================== *)

(** X22. A fetch asks for the units the last [SetUnits] left: after
    [SetUnits(u)] with a known [u] the next [Forecast] requests
    [units=u]; after [SetUnits] with an unknown [u] it requests the units
    the connection had. *)
Theorem SetUnits_then_Forecast `{Runtime} (a : APIConn.t) (u : string)
    (lat lon : float64) (ex : list string) (ext : bool) :
  (forall e, In e ex -> e = "" \/ In e validExcludes) ->
  let url unit :=
    "https://api.forecast.io/forecast" +:+ "/" +:+ APIConn.apiKey a +:+ "/"
      +:+ strconv.FormatFloat lat +:+ "," +:+ strconv.FormatFloat lon
      +:+ "?units=" +:+ unit +:+ "&exclude=" +:+ strings.Join ex ","
      +:+ (if ext then "&extend=hourly" else "") in
  (In u validUnits ->
   requests (APIConn.trace (APIConn.Forecast lat lon ex ext
                              (APIConn.conn (APIConn.SetUnits u a))))
   = [url u])
  /\ (~ In u validUnits ->
      requests (APIConn.trace (APIConn.Forecast lat lon ex ext
                                 (APIConn.conn (APIConn.SetUnits u a))))
      = [url (APIConn.units a)]).
Proof.
  intros Hex url. subst url. cbv beta. apply Forecast_excludes_None in Hex.
  assert (Hreq : forall b,
            requests (APIConn.trace (APIConn.Forecast lat lon ex ext b))
            = [forecastURL (APIConn.apiKey b) lat lon None (APIConn.units b) ex ext]).
  { intros b. rewrite (Forecast_run lat lon ex ext b Hex). cbn [APIConn.trace].
    destruct (roundTrip_trace (forecastURL (APIConn.apiKey b) lat lon None
                (APIConn.units b) ex ext) b) as (rest & -> & Hrest).
    cbn [requests flat_map app]. fold (requests rest). now rewrite Hrest. }
  rewrite Hreq.
  unfold APIConn.SetUnits, APIConn.defer, mbind, APIConn.M_bind, APIConn.bind.
  cbn [APIConn.result APIConn.conn APIConn.trace APIConn.emit].
  split; intros Hu.
  - rewrite bool_decide_eq_true_2 by now apply elem_of_unitsSet. reflexivity.
  - rewrite bool_decide_eq_false_2 by (intros Hin; now apply Hu, elem_of_unitsSet).
    reflexivity.
Qed.

Lemma SetUnits_then_Forecast_witness :
  requests (APIConn.trace
              (@APIConn.Forecast Sample.down Stub.lat Stub.lon ["alerts"] false
                 (APIConn.conn (APIConn.SetUnits "ca" Stub.fresh))))
  = ["https://api.forecast.io/forecast/KEY/37.826700,-122.423000?units=ca&exclude=alerts"]
  /\ requests (APIConn.trace
                 (@APIConn.Forecast Sample.down Stub.lat Stub.lon ["alerts"] false
                    (APIConn.conn (APIConn.SetUnits "metric" Stub.used))))
     = ["https://api.forecast.io/forecast/KEY/37.826700,-122.423000?units=si&exclude=alerts"].
Proof.
  assert (Hex : forall e, In e ["alerts"] -> e = "" \/ In e validExcludes)
    by (simpl; intros e [<-|[]]; tauto).
  split.
  - apply (proj1 (@SetUnits_then_Forecast Sample.down Stub.fresh "ca" Stub.lat Stub.lon
                    ["alerts"] false Hex)).
    simpl. tauto.
  - apply (proj2 (@SetUnits_then_Forecast Sample.down Stub.used "metric" Stub.lat Stub.lon
                    ["alerts"] false Hex)).
    simpl. intros [E|[E|[E|[E|[E|[]]]]]]; discriminate E.
Defined.

(** X23. The counter a connection holds has no influence on a fetch: from
    two connections that differ in the counter alone, a fetch returns the
    same result with the same events, and afterwards the two connections
    are equal (a body was read and the counter stored) or each is as it
    was. *)
Theorem fetch_ignores_counter `{Runtime} (lat lon : float64) (d : APIConn.date)
    (ex : list string) (ext : bool) (a : APIConn.t) (n : Z) :
  let b := APIConn.mk (APIConn.apiKey a) n (APIConn.units a) in
  let alike (rb ra : APIConn.run (APIConn.ForecastPtr * option error)) :=
    APIConn.result rb = APIConn.result ra
    /\ APIConn.trace rb = APIConn.trace ra
    /\ (APIConn.conn rb = APIConn.conn ra
        \/ (APIConn.conn rb = b /\ APIConn.conn ra = a)) in
  alike (APIConn.Forecast lat lon ex ext b) (APIConn.Forecast lat lon ex ext a)
  /\ alike (APIConn.ForecastAtTime lat lon d ex b) (APIConn.ForecastAtTime lat lon d ex a).
Proof.
  intros b alike.
  assert (Hrt : forall q, alike (APIConn.roundTrip q b) (APIConn.roundTrip q a)).
  { intros q. unfold alike. rewrite !roundTrip_run.
    destruct (http_Get q) as [err|resp]; [now auto|].
    destruct (http.Body resp); cbn [APIConn.result APIConn.trace APIConn.conn]; auto. }
  assert (Hpre : forall p q,
            alike (APIConn.mkRun (APIConn.result (APIConn.roundTrip q b))
                     (APIConn.conn (APIConn.roundTrip q b))
                     (p ++ APIConn.trace (APIConn.roundTrip q b))%list)
                  (APIConn.mkRun (APIConn.result (APIConn.roundTrip q a))
                     (APIConn.conn (APIConn.roundTrip q a))
                     (p ++ APIConn.trace (APIConn.roundTrip q a))%list)).
  { intros p q. destruct (Hrt q) as (Hr & Ht & Hc). unfold alike.
    cbn [APIConn.result APIConn.trace APIConn.conn]. rewrite Hr, Ht. auto. }
  assert (Hsame : forall r, APIConn.conn r = b -> forall r', APIConn.conn r' = a ->
            APIConn.result r = APIConn.result r' -> APIConn.trace r = APIConn.trace r' ->
            alike r r').
  { intros r Hb r' Ha Hr Ht. unfold alike. auto. }
  split.
  - destruct (APIConn.Forecast_excludes ex) as [err|] eqn:Hex.
    + rewrite !(Forecast_rejected _ _ _ _ _ _ Hex). now apply Hsame.
    + rewrite !(Forecast_run _ _ _ _ _ Hex).
      change (APIConn.apiKey b) with (APIConn.apiKey a).
      change (APIConn.units b) with (APIConn.units a).
      cbv zeta. apply (Hpre [_; _]).
  - destruct (APIConn.ForecastAtTime_excludes ex) as [err|] eqn:Hex.
    + rewrite !(ForecastAtTime_rejected _ _ _ _ _ _ Hex). now apply Hsame.
    + destruct (dateSegment d) as [seg|] eqn:Hseg.
      * rewrite !(ForecastAtTime_run _ _ _ _ _ _ Hex Hseg).
        change (APIConn.apiKey b) with (APIConn.apiKey a).
      change (APIConn.units b) with (APIConn.units a).
      cbv zeta. apply (Hpre [_; _]).
      * destruct d; try discriminate Hseg.
        -- rewrite !(ForecastAtTime_int_run _ _ _ _ _ Hex). now apply Hsame.
        -- rewrite !(ForecastAtTime_other_run _ _ _ _ Hex). apply Hrt.
Qed.
